(** * Evacuation guidance service

    A shallow embedding of [backend/services/evacuation_guidance_service.py]
    and the properties of its guidance pipeline.

    Conventions of the embedding.
    - A Python [float] is read as the real number it denotes and float
      arithmetic as exact arithmetic on [R]; [nan] and the infinities are
      not values of the model.
    - A call that may raise returns an [outcome]; an exception is
      represented by its class, as far as [except Exception] tells
      classes apart, and by the text [str(exc)] that the handlers
      interpolate.
    - The collaborators imported from the sibling services are the fields
      of a record [Collaborators]; every call to one of them is recorded
      in a call log, so that what the pipeline asks of them is observable. *)

From Stdlib Require Import Reals Zfloor Lra Lia ZArith List Bool.
From Stdlib Require Import Ascii String DecimalString.
From Stdlib Require DecimalFacts DecimalPos DecimalN.
Import ListNotations.

#[local] Open Scope list_scope.
#[local] Open Scope string_scope.

(** ** Results of calls that may raise

    Python has two kinds of exceptions: the instances of [Exception],
    which an [except Exception] clause catches, and the other instances of
    [BaseException] ([asyncio.CancelledError], [KeyboardInterrupt],
    [SystemExit], [GeneratorExit]), which pass through such a clause.
    [Raised] stands for the first kind, [Interrupted] for the second;
    both carry the text [str(exc)]. *)

Inductive outcome (A : Type) : Type :=
| Returned (value : A)
| Raised (exc : string)
| Interrupted (exc : string).
Arguments Returned {A} value.
Arguments Raised {A} exc.
Arguments Interrupted {A} exc.

(** ** Python built-ins used by the service *)

Module Py.

(** [bool(s)] for a [str]. *)
Definition truthy (s : string) : bool :=
  match s with
  | EmptyString => false
  | String _ _ => true
  end.

(** [bool(s)] for a [str | None]. *)
Definition truthy_opt (s : option string) : bool :=
  match s with
  | None => false
  | Some t => truthy t
  end.

(** [xs[i]] for a list and an [int]: negative indices count from the
    end, anything else out of range raises [IndexError]. *)
Definition getitem {A : Type} (xs : list A) (i : Z) : outcome A :=
  let n := Z.of_nat (List.length xs) in
  let j := if (i <? 0)%Z then (i + n)%Z else i in
  if ((0 <=? j) && (j <? n))%Z
  then match nth_error xs (Z.to_nat j) with
       | Some x => Returned x
       | None => Raised "list index out of range"
       end
  else Raised "list index out of range".

(** [sep.join(xs)]. *)
Fixpoint join (sep : string) (xs : list string) : string :=
  match xs with
  | [] => ""
  | [x] => x
  | x :: rest => x ++ sep ++ join sep rest
  end.

(** [xs.append(x)], as a new list. *)
Definition append {A : Type} (xs : list A) (x : A) : list A :=
  (xs ++ [x])%list.

(** Decimal digits of a non-negative integer. *)
Definition digits (n : Z) : string :=
  NilZero.string_of_uint (N.to_uint (Z.to_N n)).

#[local] Open Scope R_scope.

(** [round(x)] for a float: the nearest integer, a tie going to the
    even neighbour. *)
Definition round (x : R) : Z :=
  let f := Zfloor x in
  let d := x - IZR f in
  if Rlt_dec d (1 / 2) then f
  else if Rlt_dec (1 / 2) d then (f + 1)%Z
  else if Z.even f then f else (f + 1)%Z.

(** [x % m] for floats with [m] positive: the remainder has the sign of
    the divisor.  The service only divides by the literal [360]. *)
Definition fmod (x m : R) : R := x - m * IZR (Zfloor (x / m)).

(** [math.radians], [math.degrees] and [math.atan2]. *)
Definition radians (x : R) : R := x * (PI / 180).
Definition degrees (x : R) : R := x * (180 / PI).

Definition atan2 (y x : R) : R :=
  if Rlt_dec 0 x then atan (y / x)
  else if Rlt_dec x 0 then
    if Rlt_dec y 0 then atan (y / x) - PI else atan (y / x) + PI
  else if Rlt_dec 0 y then PI / 2
  else if Rlt_dec y 0 then - (PI / 2)
  else 0.

Definition sign (x : R) : string := if Rlt_dec x 0 then "-" else "".

(** [f"{x:.1f}"]: [x] rounded to one decimal, ties to even. *)
Definition format_1f (x : R) : string :=
  let n := round (Rabs x * 10) in
  sign x ++ digits (n / 10) ++ "." ++ digits (n mod 10).

(** [f"{x:.0f}"]: [x] rounded to an integer, ties to even. *)
Definition format_0f (x : R) : string :=
  sign x ++ digits (round (Rabs x)).

End Py.

(** ** Bearing calculator (source lines 9-30) *)

Definition directions : list string :=
  [ "north"; "northeast"; "east"; "southeast";
    "south"; "southwest"; "west"; "northwest" ].

Definition _bearing_to_cardinal
    (origin_lat origin_lng dest_lat dest_lng : R) : outcome string :=
  let lat1 := Py.radians origin_lat in
  let lat2 := Py.radians dest_lat in
  let diff_lng := Py.radians (dest_lng - origin_lng) in
  let x := (sin diff_lng * cos lat2)%R in
  let y := (cos lat1 * sin lat2 - sin lat1 * cos lat2 * cos diff_lng)%R in
  let initial_bearing := Py.degrees (Py.atan2 x y) in
  let normalized := Py.fmod (initial_bearing + 360) 360 in
  let index := (Py.round (normalized / 45) mod Z.of_nat (List.length directions))%Z in
  Py.getitem directions index.

(** ** Instruction composer (source lines 33-49) *)

Definition _build_instruction_text
    (alert_level : string) (closest_fire_km : option R)
    (warnings : list string) : string :=
  let base :=
    if (alert_level =? "critical") || (alert_level =? "high")
    then "Immediate evacuation is recommended."
    else if alert_level =? "medium"
    then "Move carefully and prepare to leave the area."
    else match closest_fire_km with
         | Some _ => "No immediate evacuation is required, but stay alert."
         | None => "No nearby fire was detected from the current feed."
         end in
  let base :=
    match closest_fire_km with
    | Some km =>
        base ++ " The nearest fire is about " ++ Py.format_1f km
             ++ " kilometers away."
    | None => base
    end in
  let base :=
    match warnings with
    | first :: _ => base ++ " Warning: " ++ first ++ "."
    | [] => base
    end in
  base.

(** ** Guidance text composer (source lines 52-85) *)

Definition no_path_clause : string :=
  " A verified escape path is not available right now. "
  ++ "If conditions worsen, move away from smoke and flames, keep low, and contact emergency services.".

Definition _build_guidance_text
    (destination_name : option string)
    (destination_direction : option string)
    (destination_distance_km : option R)
    (route_distance_km : option R)
    (route_duration_minutes : option R)
    (route_steps : list string)
    (alert_level : string)
    (closest_fire_km : option R)
    (warnings : list string) : string :=
  let intro := _build_instruction_text alert_level closest_fire_km warnings in
  match destination_direction, destination_distance_km with
  | Some direction, Some distance_km =>
      if negb (Py.truthy direction) then intro ++ no_path_clause
      else
        let location_phrase := "toward the " ++ direction in
        let location_phrase :=
          match destination_name with
          | Some name =>
              if Py.truthy name
              then location_phrase ++ " to reach " ++ name
              else location_phrase
          | None => location_phrase
          end in
        let route_phrase :=
          " for about " ++ Py.format_1f distance_km ++ " kilometers" in
        let route_phrase :=
          match route_distance_km, route_duration_minutes with
          | Some rkm, Some rmin =>
              " for about " ++ Py.format_1f rkm ++ " kilometers, roughly "
                ++ Py.format_0f rmin ++ " minutes"
          | _, _ => route_phrase
          end in
        let steps_text :=
          match route_steps with
          | [] => ""
          | _ :: _ =>
              " Follow these steps: "
                ++ Py.join " Then " (firstn 3 route_steps) ++ "."
          end in
        intro ++ " Head " ++ location_phrase ++ route_phrase ++ "."
              ++ steps_text
  | _, _ => intro ++ no_path_clause
  end.

(** ** Data model *)

Module Fire.
Record t : Type := { distance_km : R }.
End Fire.

(** Modelled from the spec: the enumeration [AlertLevel] of
    [fire_service], which is not part of the source at hand: the levels
    none, low, medium, high and critical, each with its lower-case name
    as [.value]. *)
Inductive AlertLevel : Type := NONE | LOW | MEDIUM | HIGH | CRITICAL.

Definition value (level : AlertLevel) : string :=
  match level with
  | NONE => "none"
  | LOW => "low"
  | MEDIUM => "medium"
  | HIGH => "high"
  | CRITICAL => "critical"
  end.

(** What the local variable [alert_level] holds: the enumeration member
    returned by [determine_alert_level], or the plain string assigned by
    the handler of the risk stage. *)
Inductive alert_value : Type :=
| AlertEnum (level : AlertLevel)
| AlertStr (text : string).

(** [alert_level.value if hasattr(alert_level, "value") else str(alert_level)] *)
Definition alert_text (alert_level : alert_value) : string :=
  match alert_level with
  | AlertEnum level => value level
  | AlertStr text => text
  end.

Module SafePlace.
Record t : Type :=
  { id : string;
    name : string;
    latitude : R;
    longitude : R;
    distance_km : R;
    is_in_danger_zone : bool }.
End SafePlace.

(** The dictionaries handed to the routing service, and the one it hands
    back as [dest_info]. *)
Module Destination.
Record t : Type :=
  { lat : R;
    lng : R;
    name : string;
    id : string }.
End Destination.

Module Step.
Record t : Type := { instruction : string }.
End Step.

Module Route.
Record t : Type :=
  { distance_km : R;
    duration_minutes : R;
    steps : list Step.t }.
End Route.

(** The dictionary returned by [estimate_coverage_simple], as far as the
    service reads it: [has_coverage] is [None] when the key is absent,
    which is what [dict.get] answers. *)
Module Coverage.
Record t : Type := { has_coverage : option bool }.

Definition get_has_coverage (coverage : t) : bool :=
  match has_coverage coverage with
  | Some flag => flag
  | None => false
  end.
End Coverage.

Module GuidanceResult.
Record t : Type :=
  { guidance_text : string;
    alert_level : string;
    closest_fire_km : option R;
    destination_name : option string;
    destination_direction : option string;
    destination_distance_km : option R;
    route_distance_km : option R;
    route_duration_minutes : option R;
    route_steps : list string;
    warnings : list string }.
End GuidanceResult.

(** ** Collaborators

    The functions imported from [fire_service], [osm_service],
    [cell_service] and [routing_service].  Their code is not part of the
    service; each is an arbitrary function that returns or raises.  A
    danger zone is a value the service only passes along, so its type is
    a parameter. *)

Record Collaborators (DangerZone : Type) : Type :=
  { fetch_fires : R -> R -> R -> outcome (list Fire.t);
    create_danger_zones : list Fire.t -> outcome (list DangerZone);
    determine_alert_level : option R -> nat -> outcome AlertLevel;
    fetch_safe_places :
      R -> R -> R -> list DangerZone -> outcome (list SafePlace.t);
    estimate_coverage_simple :
      R -> R -> list DangerZone -> outcome Coverage.t;
    get_route_to_nearest_safe_place :
      R -> R -> list Destination.t -> list DangerZone ->
      outcome (option (Route.t * Destination.t)) }.
Arguments fetch_fires {DangerZone} _ _ _ _.
Arguments create_danger_zones {DangerZone} _ _.
Arguments determine_alert_level {DangerZone} _ _ _.
Arguments fetch_safe_places {DangerZone} _ _ _ _ _.
Arguments estimate_coverage_simple {DangerZone} _ _ _ _.
Arguments get_route_to_nearest_safe_place {DangerZone} _ _ _ _ _.

(** One entry of the call log per collaborator call, with its arguments. *)
Inductive Call (DangerZone : Type) : Type :=
| CallFetchFires (latitude longitude radius_km : R)
| CallCreateDangerZones (fires : list Fire.t)
| CallDetermineAlertLevel (closest_fire_km : option R) (fire_count : nat)
| CallFetchSafePlaces
    (latitude longitude radius_km : R) (danger_zones : list DangerZone)
| CallEstimateCoverage
    (latitude longitude : R) (danger_zones : list DangerZone)
| CallGetRoute
    (latitude longitude : R) (destinations : list Destination.t)
    (danger_zones : list DangerZone).
Arguments CallFetchFires {DangerZone} _ _ _.
Arguments CallCreateDangerZones {DangerZone} _.
Arguments CallDetermineAlertLevel {DangerZone} _ _.
Arguments CallFetchSafePlaces {DangerZone} _ _ _ _.
Arguments CallEstimateCoverage {DangerZone} _ _ _.
Arguments CallGetRoute {DangerZone} _ _ _ _.

(** ** The monad of the pipeline: exceptions and a call log *)

Module Exec.
Section Monad.
Context {DangerZone : Type}.

Definition M (A : Type) : Type :=
  list (Call DangerZone) -> outcome A * list (Call DangerZone).

Definition ret {A : Type} (a : A) : M A := fun log => (Returned a, log).

Definition bind {A B : Type} (m : M A) (k : A -> M B) : M B :=
  fun log =>
    match m log with
    | (Returned a, log') => k a log'
    | (Raised exc, log') => (Raised exc, log')
    | (Interrupted exc, log') => (Interrupted exc, log')
    end.

(** [try: body / except Exception as exc: handler]: the handler runs for
    an [Exception] only; anything else that the body raises goes on to the
    caller. *)
Definition try_except {A : Type} (body : M A) (handler : string -> M A)
  : M A :=
  fun log =>
    match body log with
    | (Returned a, log') => (Returned a, log')
    | (Raised exc, log') => handler exc log'
    | (Interrupted exc, log') => (Interrupted exc, log')
    end.

(** A computation of the service itself, which calls nobody. *)
Definition lift {A : Type} (o : outcome A) : M A := fun log => (o, log).

(** A collaborator call: its result, and one more entry in the log. *)
Definition call {A : Type} (entry : Call DangerZone) (o : outcome A)
  : M A :=
  fun log => (o, (log ++ [entry])%list).

Definition run {A : Type} (m : M A) : outcome A * list (Call DangerZone) :=
  m [].
End Monad.
Arguments M DangerZone A : clear implicits.
End Exec.

Notation "x <- c1 ;; c2" := (Exec.bind c1 (fun x => c2))
  (at level 61, c1 at next level, right associativity).
Notation "' pat <- c1 ;; c2" := (Exec.bind c1 (fun x => match x with pat => c2 end))
  (at level 61, pat pattern, c1 at next level, right associativity).

(** ** The guidance pipeline (source lines 88-182) *)

Section Pipeline.
Context {DangerZone : Type}.
Variable env : Collaborators DangerZone.

Import Exec.

(** [fires[0].distance_km if fires else None] *)
Definition closest_of (fires : list Fire.t) : option R :=
  match fires with
  | first :: _ => Some (Fire.distance_km first)
  | [] => None
  end.

(** Lines 94-104. *)
Definition risk_stage (latitude longitude : R) (warnings : list string)
  : M DangerZone (list Fire.t * list DangerZone * option R * alert_value
       * list string) :=
  try_except
    (fires <- call (CallFetchFires latitude longitude 50)
                   (fetch_fires env latitude longitude 50) ;;
     danger_zones <- call (CallCreateDangerZones fires)
                          (create_danger_zones env fires) ;;
     let closest_fire_km := closest_of fires in
     alert_level <-
       call (CallDetermineAlertLevel closest_fire_km (List.length fires))
            (determine_alert_level env closest_fire_km (List.length fires)) ;;
     ret (fires, danger_zones, closest_fire_km, AlertEnum alert_level,
          warnings))
    (fun exc =>
       ret ([], [], None, AlertStr "none",
            Py.append warnings ("Could not fetch fire data: " ++ exc))).

(** Lines 106-116. *)
Definition safe_place_stage
    (latitude longitude : R) (danger_zones : list DangerZone)
    (warnings : list string) : M DangerZone (list SafePlace.t * list string) :=
  let safe_places : list SafePlace.t := [] in
  try_except
    (places <- call (CallFetchSafePlaces latitude longitude 20 danger_zones)
                    (fetch_safe_places env latitude longitude 20 danger_zones) ;;
     let safe_places :=
       filter (fun place => negb (SafePlace.is_in_danger_zone place))
              places in
     ret (safe_places, warnings))
    (fun exc =>
       ret (safe_places,
            Py.append warnings ("Could not fetch safe places: " ++ exc))).

(** Lines 118-120. *)
Definition coverage_stage
    (latitude longitude : R) (danger_zones : list DangerZone)
    (warnings : list string) : M DangerZone (list string) :=
  coverage <- call (CallEstimateCoverage latitude longitude danger_zones)
                   (estimate_coverage_simple env latitude longitude
                                             danger_zones) ;;
  if negb (Coverage.get_has_coverage coverage)
  then ret (Py.append warnings "Cell coverage may be degraded in your area")
  else ret warnings.

(** The dictionary built for a place at lines 126-129. *)
Definition destination_of (place : SafePlace.t) : Destination.t :=
  {| Destination.lat := SafePlace.latitude place;
     Destination.lng := SafePlace.longitude place;
     Destination.name := SafePlace.name place;
     Destination.id := SafePlace.id place |}.

(** [next((place for place in safe_places if place.id == wanted), default)] *)
Definition next_by_id
    (safe_places : list SafePlace.t) (wanted : string)
    (default : option SafePlace.t) : option SafePlace.t :=
  match find (fun place => SafePlace.id place =? wanted) safe_places with
  | Some place => Some place
  | None => default
  end.

(** Lines 122-141. *)
Definition routing_stage
    (latitude longitude : R) (safe_places : list SafePlace.t)
    (danger_zones : list DangerZone) (warnings : list string)
  : M DangerZone (option Route.t * option SafePlace.t * list string) :=
  let route : option Route.t := None in
  let destination := hd_error safe_places in
  match safe_places with
  | [] => ret (route, destination, warnings)
  | _ :: _ =>
      let destinations := map destination_of (firstn 5 safe_places) in
      try_except
        (result <- call (CallGetRoute latitude longitude destinations
                                      danger_zones)
                        (get_route_to_nearest_safe_place
                           env latitude longitude destinations
                           danger_zones) ;;
         match result with
         | Some (found, dest_info) =>
             ret (Some found,
                  next_by_id safe_places (Destination.id dest_info)
                             destination,
                  warnings)
         | None => ret (route, destination, warnings)
         end)
        (fun exc =>
           ret (route, destination,
                Py.append warnings ("Could not calculate route: " ++ exc)))
  end.

(** [[step.instruction for step in route.steps if step.instruction]] *)
Definition instructions_of (route : option Route.t) : list string :=
  match route with
  | Some found =>
      filter Py.truthy (map Step.instruction (Route.steps found))
  | None => []
  end.

(** Lines 143-182: direction and distance of the destination, the step
    summaries, the guidance text and the result record. *)
Definition assemble_result
    (latitude longitude : R) (closest_fire_km : option R)
    (alert_level : alert_value) (route : option Route.t)
    (destination : option SafePlace.t) (warnings : list string)
  : M DangerZone GuidanceResult.t :=
  '(destination_direction, destination_distance_km) <-
    match destination with
    | Some place =>
        direction <- lift (_bearing_to_cardinal
                             latitude longitude
                             (SafePlace.latitude place)
                             (SafePlace.longitude place)) ;;
        ret (Some direction, Some (SafePlace.distance_km place))
    | None => ret (None, None)
    end ;;
  let route_steps := instructions_of route in
  let guidance_text :=
    _build_guidance_text
      (option_map SafePlace.name destination)
      destination_direction
      destination_distance_km
      (option_map Route.distance_km route)
      (option_map Route.duration_minutes route)
      route_steps
      (alert_text alert_level)
      closest_fire_km
      warnings in
  ret {| GuidanceResult.guidance_text := guidance_text;
         GuidanceResult.alert_level := alert_text alert_level;
         GuidanceResult.closest_fire_km := closest_fire_km;
         GuidanceResult.destination_name :=
           option_map SafePlace.name destination;
         GuidanceResult.destination_direction := destination_direction;
         GuidanceResult.destination_distance_km := destination_distance_km;
         GuidanceResult.route_distance_km :=
           option_map Route.distance_km route;
         GuidanceResult.route_duration_minutes :=
           option_map Route.duration_minutes route;
         GuidanceResult.route_steps := firstn 3 route_steps;
         GuidanceResult.warnings := warnings |}.

(** The whole of [build_evacuation_guidance]: the four stages in source
    order, each handing its variables to the next, then the assembly. *)
Definition build_evacuation_guidance (latitude longitude : R)
  : M DangerZone GuidanceResult.t :=
  let warnings : list string := [] in
  '(fires, danger_zones, closest_fire_km, alert_level, warnings) <-
    risk_stage latitude longitude warnings ;;
  '(safe_places, warnings) <-
    safe_place_stage latitude longitude danger_zones warnings ;;
  warnings <- coverage_stage latitude longitude danger_zones warnings ;;
  '(route, destination, warnings) <-
    routing_stage latitude longitude safe_places danger_zones warnings ;;
  assemble_result latitude longitude closest_fire_km alert_level
                  route destination warnings.

End Pipeline.

(** ** Auxiliary definitions used in the statements *)

(** The angle (radians, clockwise from north) that the bearing calculator
    hands to [math.degrees]. *)
Definition bearing_angle (origin_lat origin_lng dest_lat dest_lng : R) : R :=
  let lat1 := Py.radians origin_lat in
  let lat2 := Py.radians dest_lat in
  let diff_lng := Py.radians (dest_lng - origin_lng) in
  let x := (sin diff_lng * cos lat2)%R in
  let y := (cos lat1 * sin lat2 - sin lat1 * cos lat2 * cos diff_lng)%R in
  Py.atan2 x y.

(** The rest of the bearing calculator: from that angle to a direction. *)
Definition sector_of (theta : R) : outcome string :=
  let normalized := Py.fmod (Py.degrees theta + 360) 360 in
  Py.getitem directions (Py.round (normalized / 45) mod 8)%Z.





(** The policy of the instruction composer, as the specification words it:
    four rules, the first that applies gives the sentence. *)
Inductive base_policy : string -> option R -> string -> Prop :=
| Policy_evacuate (level : string) (km : option R) :
    level = "critical" \/ level = "high" ->
    base_policy level km "Immediate evacuation is recommended."
| Policy_prepare (level : string) (km : option R) :
    ~ (level = "critical" \/ level = "high") ->
    level = "medium" ->
    base_policy level km "Move carefully and prepare to leave the area."
| Policy_stay_alert (level : string) (distance : R) :
    ~ (level = "critical" \/ level = "high") ->
    level <> "medium" ->
    base_policy level (Some distance)
                "No immediate evacuation is required, but stay alert."
| Policy_no_fire (level : string) :
    ~ (level = "critical" \/ level = "high") ->
    level <> "medium" ->
    base_policy level None
                "No nearby fire was detected from the current feed.".

(** Decimal notation, written out for the statements about formatted
    numbers.  The value of a digit character: *)
Definition digit_value (c : ascii) : option Z :=
  let code := Z.of_nat (nat_of_ascii c) in
  if ((48 <=? code) && (code <=? 57))%Z then Some (code - 48)%Z else None.

(** The number that a string of digits denotes, read from the left, after
    the digits that gave [acc]. *)
Fixpoint decimal_value_from (acc : Z) (text : string) : option Z :=
  match text with
  | EmptyString => Some acc
  | String c rest =>
      match digit_value c with
      | Some d => decimal_value_from (10 * acc + d) rest
      | None => None
      end
  end.

(** [text] is the decimal numeral of [n]: digits, at least one, that
    denote [n], without a leading zero unless [text] is the numeral of
    zero. *)
Definition numeral (n : Z) (text : string) : Prop :=
  text <> ""
  /\ decimal_value_from 0 text = Some n
  /\ forall rest, text = String "0" rest -> rest = "".

(** The number that the digits of a [Decimal.uint] denote, after the
    digits that gave [acc]. *)
Fixpoint uint_value (acc : Z) (d : Decimal.uint) : Z :=
  match d with
  | Decimal.Nil => acc
  | Decimal.D0 d => uint_value (10 * acc + 0) d
  | Decimal.D1 d => uint_value (10 * acc + 1) d
  | Decimal.D2 d => uint_value (10 * acc + 2) d
  | Decimal.D3 d => uint_value (10 * acc + 3) d
  | Decimal.D4 d => uint_value (10 * acc + 4) d
  | Decimal.D5 d => uint_value (10 * acc + 5) d
  | Decimal.D6 d => uint_value (10 * acc + 6) d
  | Decimal.D7 d => uint_value (10 * acc + 7) d
  | Decimal.D8 d => uint_value (10 * acc + 8) d
  | Decimal.D9 d => uint_value (10 * acc + 9) d
  end.

(** [shown] states [x] rounded to one decimal: a minus sign exactly when
    [x] is negative, then the numeral of the whole part, a point, and the
    one digit of the tenths, of a nearest number of tenths to the
    magnitude of [x]. *)
Inductive rounded_to_one_decimal (x : R) : string -> Prop :=
| Rounded (tenths : Z) (sign whole tenth : string) :
    (0 <= tenths)%Z ->
    (Rabs x * 10 - 1 / 2 <= IZR tenths <= Rabs x * 10 + 1 / 2)%R ->
    ((x < 0)%R -> sign = "-") ->
    ((0 <= x)%R -> sign = "") ->
    numeral (tenths / 10) whole ->
    numeral (tenths mod 10) tenth ->
    String.length tenth = 1%nat ->
    rounded_to_one_decimal x (sign ++ whole ++ "." ++ tenth).

(** The trailing clause for a warning list: its first entry, if any. *)
Definition warning_clause (warnings : list string) : string :=
  match hd_error warnings with
  | Some first => " Warning: " ++ first ++ "."
  | None => ""
  end.

(** [phrase] occurs somewhere in [text]. *)
Definition mentions (text phrase : string) : bool :=
  match index 0 phrase text with
  | Some _ => true
  | None => false
  end.

(** The fire-feed fetch, or the derivation that follows it, fails with
    an [Exception] of text [exc]. *)
Inductive risk_fails {DangerZone : Type} (env : Collaborators DangerZone)
    (latitude longitude : R) (exc : string) : Prop :=
| Feed_fails :
    fetch_fires env latitude longitude 50 = Raised exc ->
    risk_fails env latitude longitude exc
| Zones_fail (fires : list Fire.t) :
    fetch_fires env latitude longitude 50 = Returned fires ->
    create_danger_zones env fires = Raised exc ->
    risk_fails env latitude longitude exc
| Level_fails (fires : list Fire.t) (danger_zones : list DangerZone) :
    fetch_fires env latitude longitude 50 = Returned fires ->
    create_danger_zones env fires = Returned danger_zones ->
    determine_alert_level env (closest_of fires) (List.length fires)
    = Raised exc ->
    risk_fails env latitude longitude exc.

(** The collaborator call recorded as [entry] raised an [Exception] of
    text [exc]. *)
Definition raised {DangerZone : Type} (env : Collaborators DangerZone)
    (entry : Call DangerZone) (exc : string) : Prop :=
  match entry with
  | CallFetchFires latitude longitude radius_km =>
      fetch_fires env latitude longitude radius_km = Raised exc
  | CallCreateDangerZones fires =>
      create_danger_zones env fires = Raised exc
  | CallDetermineAlertLevel closest_fire_km fire_count =>
      determine_alert_level env closest_fire_km fire_count = Raised exc
  | CallFetchSafePlaces latitude longitude radius_km danger_zones =>
      fetch_safe_places env latitude longitude radius_km danger_zones
      = Raised exc
  | CallEstimateCoverage latitude longitude danger_zones =>
      estimate_coverage_simple env latitude longitude danger_zones
      = Raised exc
  | CallGetRoute latitude longitude destinations danger_zones =>
      get_route_to_nearest_safe_place
        env latitude longitude destinations danger_zones
      = Raised exc
  end.

(** The warning that reports a failed call; the coverage estimator has
    none. *)
Definition warning_for {DangerZone : Type}
    (entry : Call DangerZone) (exc : string) : option string :=
  match entry with
  | CallFetchFires _ _ _
  | CallCreateDangerZones _
  | CallDetermineAlertLevel _ _ => Some ("Could not fetch fire data: " ++ exc)
  | CallFetchSafePlaces _ _ _ _ =>
      Some ("Could not fetch safe places: " ++ exc)
  | CallGetRoute _ _ _ _ => Some ("Could not calculate route: " ++ exc)
  | CallEstimateCoverage _ _ _ => None
  end.

(** The collaborator call recorded as [entry] raised something that is not
    an [Exception], of text [exc]. *)
Definition interrupted {DangerZone : Type} (env : Collaborators DangerZone)
    (entry : Call DangerZone) (exc : string) : Prop :=
  match entry with
  | CallFetchFires latitude longitude radius_km =>
      fetch_fires env latitude longitude radius_km = Interrupted exc
  | CallCreateDangerZones fires =>
      create_danger_zones env fires = Interrupted exc
  | CallDetermineAlertLevel closest_fire_km fire_count =>
      determine_alert_level env closest_fire_km fire_count = Interrupted exc
  | CallFetchSafePlaces latitude longitude radius_km danger_zones =>
      fetch_safe_places env latitude longitude radius_km danger_zones
      = Interrupted exc
  | CallEstimateCoverage latitude longitude danger_zones =>
      estimate_coverage_simple env latitude longitude danger_zones
      = Interrupted exc
  | CallGetRoute latitude longitude destinations danger_zones =>
      get_route_to_nearest_safe_place
        env latitude longitude destinations danger_zones
      = Interrupted exc
  end.

(** The fire-feed fetch, or the derivation that follows it, raises
    something that is not an [Exception]. *)
Inductive risk_interrupted {DangerZone : Type}
    (env : Collaborators DangerZone)
    (latitude longitude : R) (exc : string) : Prop :=
| Feed_interrupted :
    fetch_fires env latitude longitude 50 = Interrupted exc ->
    risk_interrupted env latitude longitude exc
| Zones_interrupted (fires : list Fire.t) :
    fetch_fires env latitude longitude 50 = Returned fires ->
    create_danger_zones env fires = Interrupted exc ->
    risk_interrupted env latitude longitude exc
| Level_interrupted (fires : list Fire.t) (danger_zones : list DangerZone) :
    fetch_fires env latitude longitude 50 = Returned fires ->
    create_danger_zones env fires = Returned danger_zones ->
    determine_alert_level env (closest_of fires) (List.length fires)
    = Interrupted exc ->
    risk_interrupted env latitude longitude exc.

(** The call recorded as [entry] failed in a way that no handler of the
    service catches: it raised something that is not an [Exception], or it
    is the call to the coverage estimator, which stands outside every
    [try], and it raised an [Exception]. *)
Definition escapes {DangerZone : Type} (env : Collaborators DangerZone)
    (entry : Call DangerZone) : Prop :=
  (exists exc, interrupted env entry exc)
  \/ (exists exc,
        match entry with
        | CallEstimateCoverage latitude longitude danger_zones =>
            estimate_coverage_simple env latitude longitude danger_zones
            = Raised exc
        | _ => False
        end).

(** Every failed call among [calls] is reported in [warnings]. *)
Definition accounted {DangerZone : Type} (env : Collaborators DangerZone)
    (calls : list (Call DangerZone)) (warnings : list string) : Prop :=
  forall entry exc,
    In entry calls -> raised env entry exc ->
    exists warning,
      warning_for entry exc = Some warning /\ In warning warnings.

Definition degraded_coverage_warning : string :=
  "Cell coverage may be degraded in your area".


(** [not place.is_in_danger_zone], the filter of the safe-place stage. *)
Definition not_flagged (place : SafePlace.t) : bool :=
  negb (SafePlace.is_in_danger_zone place).

(** One complete run of the pipeline, stage by stage: what each stage
    received, what it returned, and the call log it left.  The danger
    zones, the filtered safe places, the route and the destination are the
    local variables of those names at the end of the run. *)
Inductive pipeline {DangerZone : Type} (env : Collaborators DangerZone)
    (latitude longitude : R)
  : list DangerZone -> list SafePlace.t -> option Route.t ->
    option SafePlace.t -> GuidanceResult.t -> list (Call DangerZone) ->
    Prop :=
| Pipeline_run
    (fires : list Fire.t) (danger_zones : list DangerZone)
    (closest_fire_km : option R) (alert_level : alert_value)
    (safe_places : list SafePlace.t)
    (route : option Route.t) (destination : option SafePlace.t)
    (warnings1 warnings2 warnings3 warnings4 : list string)
    (log1 log2 log3 log4 : list (Call DangerZone))
    (result : GuidanceResult.t) :
    risk_stage env latitude longitude [] []
    = (Returned (fires, danger_zones, closest_fire_km, alert_level,
                 warnings1), log1) ->
    safe_place_stage env latitude longitude danger_zones warnings1 log1
    = (Returned (safe_places, warnings2), log2) ->
    coverage_stage env latitude longitude danger_zones warnings2 log2
    = (Returned warnings3, log3) ->
    routing_stage env latitude longitude safe_places danger_zones
                  warnings3 log3
    = (Returned (route, destination, warnings4), log4) ->
    assemble_result latitude longitude closest_fire_km alert_level
                    route destination warnings4 log4
    = (Returned result, log4) ->
    pipeline env latitude longitude danger_zones safe_places route
             destination result log4.

(** [kept] is exactly the elements of [all] that pass [keep], in their
    original order. *)
Inductive kept_in_order {A : Type} (keep : A -> bool)
  : list A -> list A -> Prop :=
| Kept_nil : kept_in_order keep [] []
| Kept_keep (x : A) (all kept : list A) :
    keep x = true -> kept_in_order keep all kept ->
    kept_in_order keep (x :: all) (x :: kept)
| Kept_drop (x : A) (all kept : list A) :
    keep x = false -> kept_in_order keep all kept ->
    kept_in_order keep (x :: all) kept.

(** Collaborators for the examples: nothing burns, no place is known, the
    network is covered, no route is found. *)
Definition quiet : Collaborators unit :=
  {| fetch_fires := fun _ _ _ => Returned [];
     create_danger_zones := fun _ => Returned [];
     determine_alert_level := fun _ _ => Returned NONE;
     fetch_safe_places := fun _ _ _ _ => Returned [];
     estimate_coverage_simple :=
       fun _ _ _ => Returned {| Coverage.has_coverage := Some true |};
     get_route_to_nearest_safe_place := fun _ _ _ _ => Returned None |}.

(** The same, with a coverage estimator that raises. *)
Definition coverage_down : Collaborators unit :=
  {| fetch_fires := fetch_fires quiet;
     create_danger_zones := create_danger_zones quiet;
     determine_alert_level := determine_alert_level quiet;
     fetch_safe_places := fetch_safe_places quiet;
     estimate_coverage_simple :=
       fun _ _ _ => Raised "coverage model unavailable";
     get_route_to_nearest_safe_place :=
       get_route_to_nearest_safe_place quiet |}.

(** The same as [quiet], with a fire feed that raises. *)
Definition feed_down : Collaborators unit :=
  {| fetch_fires := fun _ _ _ => Raised "feed timeout";
     create_danger_zones := create_danger_zones quiet;
     determine_alert_level := determine_alert_level quiet;
     fetch_safe_places := fetch_safe_places quiet;
     estimate_coverage_simple := estimate_coverage_simple quiet;
     get_route_to_nearest_safe_place :=
       get_route_to_nearest_safe_place quiet |}.

(** The same as [quiet], with a fetch of the fire feed that is cancelled
    while it is awaited: [asyncio.CancelledError], which is not an
    [Exception] and whose text is empty. *)
Definition feed_cancelled : Collaborators unit :=
  {| fetch_fires := fun _ _ _ => Interrupted "";
     create_danger_zones := create_danger_zones quiet;
     determine_alert_level := determine_alert_level quiet;
     fetch_safe_places := fetch_safe_places quiet;
     estimate_coverage_simple := estimate_coverage_simple quiet;
     get_route_to_nearest_safe_place :=
       get_route_to_nearest_safe_place quiet |}.

(** The same as [feed_down], with a coverage estimator that raises too. *)
Definition feed_and_coverage_down : Collaborators unit :=
  {| fetch_fires := fetch_fires feed_down;
     create_danger_zones := create_danger_zones quiet;
     determine_alert_level := determine_alert_level quiet;
     fetch_safe_places := fetch_safe_places quiet;
     estimate_coverage_simple :=
       fun _ _ _ => Raised "coverage model unavailable";
     get_route_to_nearest_safe_place :=
       get_route_to_nearest_safe_place quiet |}.

(** The same as [quiet], with an estimate that reports no coverage. *)
Definition no_signal : Collaborators unit :=
  {| fetch_fires := fetch_fires quiet;
     create_danger_zones := create_danger_zones quiet;
     determine_alert_level := determine_alert_level quiet;
     fetch_safe_places := fetch_safe_places quiet;
     estimate_coverage_simple :=
       fun _ _ _ => Returned {| Coverage.has_coverage := Some false |};
     get_route_to_nearest_safe_place :=
       get_route_to_nearest_safe_place quiet |}.

(** The same as [quiet], with an estimate that lacks the key
    [has_coverage]. *)
Definition no_estimate_key : Collaborators unit :=
  {| fetch_fires := fetch_fires quiet;
     create_danger_zones := create_danger_zones quiet;
     determine_alert_level := determine_alert_level quiet;
     fetch_safe_places := fetch_safe_places quiet;
     estimate_coverage_simple :=
       fun _ _ _ => Returned {| Coverage.has_coverage := None |};
     get_route_to_nearest_safe_place :=
       get_route_to_nearest_safe_place quiet |}.

(** From one point of a run to a later one: no warning and no log entry is
    lost, and the coverage warning is not added. *)
Definition grows {DangerZone : Type}
    (warnings warnings' : list string) (log log' : list (Call DangerZone))
  : Prop :=
  (forall warning, In warning warnings -> In warning warnings')
  /\ (forall entry, In entry log -> In entry log')
  /\ (In degraded_coverage_warning warnings'
      -> In degraded_coverage_warning warnings).

(** Collaborators for the examples: the directory knows two places, the
    second one inside a danger zone; nothing else differs from [quiet]. *)
Definition hall : SafePlace.t :=
  {| SafePlace.id := "hall";
     SafePlace.name := "Town Hall";
     SafePlace.latitude := 1;
     SafePlace.longitude := 0;
     SafePlace.distance_km := 10;
     SafePlace.is_in_danger_zone := false |}.

Definition depot : SafePlace.t :=
  {| SafePlace.id := "depot";
     SafePlace.name := "Depot";
     SafePlace.latitude := 0;
     SafePlace.longitude := 1;
     SafePlace.distance_km := 4;
     SafePlace.is_in_danger_zone := true |}.

Definition school : SafePlace.t :=
  {| SafePlace.id := "school";
     SafePlace.name := "School";
     SafePlace.latitude := 2;
     SafePlace.longitude := 0;
     SafePlace.distance_km := 21;
     SafePlace.is_in_danger_zone := false |}.

Definition with_places : Collaborators unit :=
  {| fetch_fires := fetch_fires quiet;
     create_danger_zones := create_danger_zones quiet;
     determine_alert_level := determine_alert_level quiet;
     fetch_safe_places := fun _ _ _ _ => Returned [depot; hall; school];
     estimate_coverage_simple := estimate_coverage_simple quiet;
     get_route_to_nearest_safe_place :=
       get_route_to_nearest_safe_place quiet |}.

(** Collaborators for the examples: one fire five kilometres away, alert
    level high, the three places above, and a router that chooses the
    school, which is not the first candidate, along a route of five steps,
    one of them without text. *)
Definition mill_road : Route.t :=
  {| Route.distance_km := 12;
     Route.duration_minutes := 15;
     Route.steps :=
       [ {| Step.instruction := "Head north on Mill Road" |};
         {| Step.instruction := "" |};
         {| Step.instruction := "Turn left at the bridge" |};
         {| Step.instruction := "Continue for 2 km" |};
         {| Step.instruction := "Arrive at the school" |} ] |}.

Definition evacuation : Collaborators unit :=
  {| fetch_fires := fun _ _ _ => Returned [ {| Fire.distance_km := 5 |} ];
     create_danger_zones := fun _ => Returned [tt];
     determine_alert_level := fun _ _ => Returned HIGH;
     fetch_safe_places := fun _ _ _ _ => Returned [depot; hall; school];
     estimate_coverage_simple :=
       fun _ _ _ => Returned {| Coverage.has_coverage := Some true |};
     get_route_to_nearest_safe_place :=
       fun _ _ _ _ => Returned (Some (mill_road, destination_of school)) |}.

Definition evacuation_result : GuidanceResult.t :=
  {| GuidanceResult.guidance_text :=
       "Immediate evacuation is recommended."
       ++ " The nearest fire is about 5.0 kilometers away."
       ++ " Head toward the north to reach School"
       ++ " for about 12.0 kilometers, roughly 15 minutes."
       ++ " Follow these steps: Head north on Mill Road"
       ++ " Then Turn left at the bridge Then Continue for 2 km.";
     GuidanceResult.alert_level := "high";
     GuidanceResult.closest_fire_km := Some 5%R;
     GuidanceResult.destination_name := Some "School";
     GuidanceResult.destination_direction := Some "north";
     GuidanceResult.destination_distance_km := Some 21%R;
     GuidanceResult.route_distance_km := Some 12%R;
     GuidanceResult.route_duration_minutes := Some 15%R;
     GuidanceResult.route_steps :=
       [ "Head north on Mill Road"; "Turn left at the bridge";
         "Continue for 2 km" ];
     GuidanceResult.warnings := [] |}.

Definition evacuation_log : list (Call unit) :=
  [ CallFetchFires 0 0 50;
    CallCreateDangerZones [ {| Fire.distance_km := 5 |} ];
    CallDetermineAlertLevel (Some 5%R) 1;
    CallFetchSafePlaces 0 0 20 [tt];
    CallEstimateCoverage 0 0 [tt];
    CallGetRoute 0 0 [destination_of hall; destination_of school] [tt] ].

(** The same places, no fire, and a router that raises. *)
Definition router_down : Collaborators unit :=
  {| fetch_fires := fetch_fires quiet;
     create_danger_zones := create_danger_zones quiet;
     determine_alert_level := determine_alert_level quiet;
     fetch_safe_places := fun _ _ _ _ => Returned [depot; hall; school];
     estimate_coverage_simple := estimate_coverage_simple quiet;
     get_route_to_nearest_safe_place := fun _ _ _ _ => Raised "no path" |}.

(** The calls of the risk stage, which stops at the first one that
    raises. *)
Inductive risk_trace {DangerZone : Type} (env : Collaborators DangerZone)
    (latitude longitude : R) : list (Call DangerZone) -> Prop :=
| Trace_feed (exc : string) :
    fetch_fires env latitude longitude 50 = Raised exc ->
    risk_trace env latitude longitude [CallFetchFires latitude longitude 50]
| Trace_zones (fires : list Fire.t) (exc : string) :
    fetch_fires env latitude longitude 50 = Returned fires ->
    create_danger_zones env fires = Raised exc ->
    risk_trace env latitude longitude
               [ CallFetchFires latitude longitude 50;
                 CallCreateDangerZones fires ]
| Trace_level (fires : list Fire.t) (danger_zones : list DangerZone) :
    fetch_fires env latitude longitude 50 = Returned fires ->
    create_danger_zones env fires = Returned danger_zones ->
    risk_trace env latitude longitude
               [ CallFetchFires latitude longitude 50;
                 CallCreateDangerZones fires;
                 CallDetermineAlertLevel (closest_of fires)
                                         (List.length fires) ].

(** What the risk stage contributes to a run: its calls, its warnings, the
    danger zones, and the level and distance of the result. *)
Definition risk_part {DangerZone : Type} (env : Collaborators DangerZone)
    (latitude longitude : R) (danger_zones : list DangerZone)
    (level_text : string) (closest_fire_km : option R)
    (warnings : list string) (calls : list (Call DangerZone)) : Prop :=
  risk_trace env latitude longitude calls
  /\ ((exists fires level,
         fetch_fires env latitude longitude 50 = Returned fires
         /\ create_danger_zones env fires = Returned danger_zones
         /\ determine_alert_level env (closest_of fires)
                                  (List.length fires) = Returned level
         /\ closest_fire_km = closest_of fires
         /\ level_text = value level
         /\ warnings = [])
      \/ (exists exc,
            risk_fails env latitude longitude exc
            /\ danger_zones = []
            /\ closest_fire_km = None
            /\ level_text = "none"
            /\ warnings = ["Could not fetch fire data: " ++ exc]
            /\ exists entry, In entry calls /\ raised env entry exc)).

(** What the safe-place stage contributes. *)
Definition safe_places_part {DangerZone : Type}
    (env : Collaborators DangerZone) (latitude longitude : R)
    (danger_zones : list DangerZone) (safe_places : list SafePlace.t)
    (warnings : list string) : Prop :=
  (exists places,
      fetch_safe_places env latitude longitude 20 danger_zones
      = Returned places
      /\ safe_places = filter not_flagged places
      /\ warnings = [])
  \/ (exists exc,
        fetch_safe_places env latitude longitude 20 danger_zones
        = Raised exc
        /\ safe_places = []
        /\ warnings = ["Could not fetch safe places: " ++ exc]).

(** What the coverage stage contributes. *)
Definition coverage_part {DangerZone : Type}
    (env : Collaborators DangerZone) (latitude longitude : R)
    (danger_zones : list DangerZone) (warnings : list string) : Prop :=
  exists coverage,
    estimate_coverage_simple env latitude longitude danger_zones
    = Returned coverage
    /\ warnings = (if Coverage.get_has_coverage coverage
                   then [] else [degraded_coverage_warning]).

(** What the routing stage contributes. *)
Definition routing_part {DangerZone : Type}
    (env : Collaborators DangerZone) (latitude longitude : R)
    (danger_zones : list DangerZone) (safe_places : list SafePlace.t)
    (route : option Route.t) (destination : option SafePlace.t)
    (warnings : list string) (calls : list (Call DangerZone)) : Prop :=
  (safe_places = [] /\ route = None /\ destination = None
   /\ warnings = [] /\ calls = [])
  \/ (exists first rest,
        safe_places = first :: rest
        /\ calls = [CallGetRoute
                      latitude longitude
                      (map destination_of (firstn 5 safe_places))
                      danger_zones]
        /\ ((exists exc,
               get_route_to_nearest_safe_place
                 env latitude longitude
                 (map destination_of (firstn 5 safe_places)) danger_zones
               = Raised exc
               /\ route = None /\ destination = Some first
               /\ warnings = ["Could not calculate route: " ++ exc])
            \/ (get_route_to_nearest_safe_place
                  env latitude longitude
                  (map destination_of (firstn 5 safe_places)) danger_zones
                = Returned None
                /\ route = None /\ destination = Some first
                /\ warnings = [])
            \/ (exists found dest_info,
                   get_route_to_nearest_safe_place
                     env latitude longitude
                     (map destination_of (firstn 5 safe_places))
                     danger_zones
                   = Returned (Some (found, dest_info))
                   /\ route = Some found
                   /\ destination
                      = next_by_id safe_places (Destination.id dest_info)
                                   (Some first)
                   /\ warnings = []))).

(** The same as [with_places], with a directory that raises. *)
Definition directory_down : Collaborators unit :=
  {| fetch_fires := fetch_fires quiet;
     create_danger_zones := create_danger_zones quiet;
     determine_alert_level := determine_alert_level quiet;
     fetch_safe_places := fun _ _ _ _ => Raised "directory offline";
     estimate_coverage_simple := estimate_coverage_simple quiet;
     get_route_to_nearest_safe_place :=
       get_route_to_nearest_safe_place quiet |}.

(** The same as [with_places], with a directory call that is cancelled
    while it is awaited. *)
Definition directory_cancelled : Collaborators unit :=
  {| fetch_fires := fetch_fires quiet;
     create_danger_zones := create_danger_zones quiet;
     determine_alert_level := determine_alert_level quiet;
     fetch_safe_places := fun _ _ _ _ => Interrupted "";
     estimate_coverage_simple := estimate_coverage_simple quiet;
     get_route_to_nearest_safe_place :=
       get_route_to_nearest_safe_place quiet |}.

(** The direction on the other side of the meridian: east for west,
    north-east for north-west, south-east for south-west, and back; north
    and south are their own mirror images. *)
Definition mirrored (direction : string) : string :=
  if direction =? "northeast" then "northwest"
  else if direction =? "east" then "west"
  else if direction =? "southeast" then "southwest"
  else if direction =? "southwest" then "southeast"
  else if direction =? "west" then "east"
  else if direction =? "northwest" then "northeast"
  else direction.

(** * Properties *)

(** ** Rounding and remainders *)

Section Numerics.
#[local] Open Scope R_scope.

Lemma round_nearest (x : R) :
  x - 1 / 2 <= IZR (Py.round x) <= x + 1 / 2.
Proof.
  unfold Py.round.
  pose proof (Zfloor_bound x) as Hf.
  destruct (Rlt_dec (x - IZR (Zfloor x)) (1 / 2)) as [Hlo | Hlo].
  - lra.
  - destruct (Rlt_dec (1 / 2) (x - IZR (Zfloor x))) as [Hhi | Hhi].
    + rewrite plus_IZR. lra.
    + destruct (Z.even (Zfloor x)).
      * lra.
      * rewrite plus_IZR. lra.
Qed.

Lemma round_within (x : R) (k : Z) :
  IZR k - 1 / 2 < x < IZR k + 1 / 2 -> Py.round x = k.
Proof.
  intros Hx.
  pose proof (round_nearest x) as Hn.
  assert (Hlt : (k - 1 < Py.round x < k + 1)%Z); [| lia].
  split; apply lt_IZR.
  - rewrite minus_IZR. lra.
  - rewrite plus_IZR. lra.
Qed.

Lemma round_IZR (k : Z) : Py.round (IZR k) = k.
Proof. apply round_within. lra. Qed.

Lemma fmod_range (x m : R) : 0 < m -> 0 <= Py.fmod x m < m.
Proof.
  intros Hm. unfold Py.fmod.
  pose proof (Zfloor_bound (x / m)) as [Hlo Hhi].
  assert (Hx : x = m * (x / m)) by (field; lra).
  split.
  - apply (Rmult_le_compat_l m) in Hlo; lra.
  - apply (Rmult_lt_compat_l m) in Hhi; lra.
Qed.

Lemma fmod_small (x m : R) : 0 <= x < m -> Py.fmod x m = x.
Proof.
  intros [Hlo Hhi]. unfold Py.fmod.
  rewrite (Zfloor_eq 0).
  - lra.
  - assert (Hm : 0 < m) by lra.
    split.
    + apply Rmult_le_reg_r with m; [exact Hm |].
      replace (x / m * m) with x by (field; lra). lra.
    + apply Rmult_lt_reg_r with m; [exact Hm |].
      replace (x / m * m) with x by (field; lra). lra.
Qed.

Lemma fmod_shift (x m : R) : 0 < m -> Py.fmod (x + m) m = Py.fmod x m.
Proof.
  intros Hm. unfold Py.fmod.
  replace ((x + m) / m) with (x / m + IZR 1) by (field; lra).
  rewrite Zfloor_addz, plus_IZR. lra.
Qed.

Example round_half_to_even :
  Py.round (5 / 2) = 2%Z /\ Py.round (7 / 2) = 4%Z.
Proof.
  unfold Py.round. split.
  - rewrite (Zfloor_eq 2) by lra.
    destruct (Rlt_dec (5 / 2 - 2) (1 / 2)); [lra |].
    destruct (Rlt_dec (1 / 2) (5 / 2 - 2)); [lra | reflexivity].
  - rewrite (Zfloor_eq 3) by lra.
    destruct (Rlt_dec (7 / 2 - 3) (1 / 2)); [lra |].
    destruct (Rlt_dec (1 / 2) (7 / 2 - 3)); [lra | reflexivity].
Qed.

End Numerics.

(** ** Bearing calculator *)

Section Bearing.
#[local] Open Scope R_scope.

Lemma bearing_unfold (origin_lat origin_lng dest_lat dest_lng : R) :
  _bearing_to_cardinal origin_lat origin_lng dest_lat dest_lng
  = sector_of (bearing_angle origin_lat origin_lng dest_lat dest_lng).
Proof. reflexivity. Qed.

Lemma sector_of_returns (theta : R) :
  exists direction,
    sector_of theta = Returned direction /\ In direction directions.
Proof.
  unfold sector_of.
  set (i := (Py.round (Py.fmod (Py.degrees theta + 360) 360 / 45) mod 8)%Z).
  assert (Hi : (0 <= i < 8)%Z) by (apply Z.mod_pos_bound; lia).
  assert (Hcases : (i = 0 \/ i = 1 \/ i = 2 \/ i = 3 \/ i = 4 \/ i = 5
                    \/ i = 6 \/ i = 7)%Z) by lia.
  clearbody i.
  repeat (destruct Hcases as [-> | Hcases]); [.. | subst i];
    (eexists; split; [reflexivity | simpl; tauto]).
Qed.

Lemma sector_of_within (theta : R) (k : Z) :
  (0 <= k < 8)%Z ->
  (IZR k - 1 / 2) * (PI / 4) < theta < (IZR k + 1 / 2) * (PI / 4) ->
  sector_of theta = Py.getitem directions k.
Proof.
  intros Hk [Hlo Hhi]. unfold sector_of.
  pose proof PI_RGT_0 as Hpi.
  assert (Hk' : 0 <= IZR k <= 7) by (split; apply IZR_le; lia).
  assert (Hdeg : (IZR k - 1 / 2) * 45 < Py.degrees theta
                 < (IZR k + 1 / 2) * 45).
  { unfold Py.degrees.
    assert (Hinv : 0 < 180 / PI) by (apply Rdiv_lt_0_compat; lra).
    replace ((IZR k - 1 / 2) * 45)
      with ((IZR k - 1 / 2) * (PI / 4) * (180 / PI)) by (field; lra).
    replace ((IZR k + 1 / 2) * 45)
      with ((IZR k + 1 / 2) * (PI / 4) * (180 / PI)) by (field; lra).
    split; apply Rmult_lt_compat_r; assumption. }
  assert (Hnorm : Py.fmod (Py.degrees theta + 360) 360
                  = Py.fmod (Py.degrees theta) 360)
    by (apply fmod_shift; lra).
  destruct (Rlt_dec (Py.degrees theta) 0) as [Hneg | Hpos].
  - (* only possible in the sector around north *)
    assert (k = 0%Z) as ->.
    { destruct (Z.eq_dec k 0) as [| Hne]; [assumption | exfalso].
      assert (1 <= IZR k) by (apply IZR_le; lia). lra. }
    rewrite fmod_small by lra.
    rewrite (round_within _ 8) by lra. reflexivity.
  - rewrite Hnorm, fmod_small by lra.
    rewrite (round_within _ k) by lra.
    rewrite Z.mod_small by lia. reflexivity.
Qed.

Lemma sector_of_period (theta : R) :
  sector_of (theta + 2 * PI) = sector_of theta.
Proof.
  unfold sector_of.
  replace (Py.degrees (theta + 2 * PI) + 360)
    with (Py.degrees theta + 360 + 360)
    by (unfold Py.degrees; pose proof PI_neq0; field; assumption).
  rewrite (fmod_shift (Py.degrees theta + 360)) by lra. reflexivity.
Qed.

Lemma sector_north : sector_of 0 = Returned "north".
Proof.
  pose proof PI_RGT_0.
  rewrite (sector_of_within 0 0); [reflexivity | lia | split; lra].
Qed.

Lemma sector_east : sector_of (PI / 2) = Returned "east".
Proof.
  pose proof PI_RGT_0.
  rewrite (sector_of_within (PI / 2) 2); [reflexivity | lia | split; lra].
Qed.

Lemma sector_south : sector_of PI = Returned "south".
Proof.
  pose proof PI_RGT_0.
  rewrite (sector_of_within PI 4); [reflexivity | lia | split; lra].
Qed.

Lemma sector_west : sector_of (- (PI / 2)) = Returned "west".
Proof.
  pose proof PI_RGT_0.
  rewrite <- sector_of_period.
  rewrite (sector_of_within _ 6); [reflexivity | lia | split; lra].
Qed.

Lemma atan2_0_pos (y : R) : 0 < y -> Py.atan2 0 y = 0.
Proof.
  intros Hy. unfold Py.atan2.
  destruct (Rlt_dec 0 y); [| contradiction].
  unfold Rdiv. rewrite Rmult_0_l. apply atan_0.
Qed.


Lemma atan2_pos_0 (x : R) : 0 < x -> Py.atan2 x 0 = PI / 2.
Proof.
  intros Hx. unfold Py.atan2.
  destruct (Rlt_dec 0 0); [lra |].
  destruct (Rlt_dec 0 x); [reflexivity | contradiction].
Qed.

Lemma atan2_neg_0 (x : R) : x < 0 -> Py.atan2 x 0 = - (PI / 2).
Proof.
  intros Hx. unfold Py.atan2.
  destruct (Rlt_dec 0 0); [lra |].
  destruct (Rlt_dec 0 x); [lra |].
  destruct (Rlt_dec x 0); [reflexivity | contradiction].
Qed.

Lemma radians_0 : Py.radians 0 = 0.
Proof. unfold Py.radians. ring. Qed.

(** On one meridian the angle is decided by the sign of the sine of the
    latitude difference. *)
Lemma bearing_angle_meridian (lat1 lat2 lng : R) :
  bearing_angle lat1 lng lat2 lng
  = Py.atan2 0 (sin (Py.radians (lat2 - lat1))).
Proof.
  unfold bearing_angle.
  replace (lng - lng) with 0 by ring.
  rewrite radians_0, sin_0, cos_0, Rmult_0_l.
  replace (Py.radians (lat2 - lat1))
    with (Py.radians lat2 - Py.radians lat1)
    by (unfold Py.radians; ring).
  rewrite sin_minus. f_equal. ring.
Qed.

(** On the equator it is decided by the sign of the sine of the longitude
    difference. *)
Lemma bearing_angle_equator (lng1 lng2 : R) :
  bearing_angle 0 lng1 0 lng2
  = Py.atan2 (sin (Py.radians (lng2 - lng1))) 0.
Proof.
  unfold bearing_angle.
  rewrite radians_0, sin_0, cos_0. f_equal; ring.
Qed.

Lemma sin_radians_pos (d : R) : 0 < d < 180 -> 0 < sin (Py.radians d).
Proof.
  intros [Hlo Hhi]. pose proof PI_RGT_0. unfold Py.radians.
  apply sin_gt_0; nra.
Qed.





End Bearing.


(** ** Text composers *)

Lemma append_assoc (a b c : string) : (a ++ b) ++ c = a ++ b ++ c.
Proof. induction a as [| ch a IH]; simpl; [| rewrite IH]; reflexivity. Qed.

Lemma append_nil_r (a : string) : a ++ "" = a.
Proof. induction a as [| ch a IH]; simpl; [| rewrite IH]; reflexivity. Qed.

(** ** Decimal notation *)

Lemma decimal_value_string_of_uint (d : Decimal.uint) (acc : Z) :
  decimal_value_from acc (NilEmpty.string_of_uint d)
  = Some (uint_value acc d).
Proof.
  revert acc. induction d as [| d IH | d IH | d IH | d IH | d IH | d IH
                             | d IH | d IH | d IH | d IH];
    intros acc; [reflexivity | ..];
    cbn [NilEmpty.string_of_uint decimal_value_from uint_value];
    match goal with
    | |- context [digit_value ?c] =>
        change (digit_value c) with (Some (Z.of_nat (nat_of_ascii c) - 48)%Z)
    end;
    apply IH.
Qed.

Lemma uint_value_of_uint_acc (d : Decimal.uint) (acc : positive) :
  Z.pos (Pos.of_uint_acc d acc) = uint_value (Z.pos acc) d.
Proof.
  revert acc. induction d as [| d IH | d IH | d IH | d IH | d IH | d IH
                             | d IH | d IH | d IH | d IH];
    intros acc; [reflexivity | ..];
    cbn [Pos.of_uint_acc uint_value]; rewrite IH; f_equal; lia.
Qed.

Lemma uint_value_of_uint (d : Decimal.uint) :
  Z.of_N (Pos.of_uint d) = uint_value 0 d.
Proof.
  induction d as [| d IH | d IH | d IH | d IH | d IH | d IH
                 | d IH | d IH | d IH | d IH];
    [reflexivity | exact IH | ..];
    cbn [Pos.of_uint uint_value Z.of_N];
    rewrite uint_value_of_uint_acc; reflexivity.
Qed.

Lemma to_uint_nonnil (m : N) : N.to_uint m <> Decimal.Nil.
Proof.
  destruct m as [| p]; [discriminate |].
  apply DecimalPos.Unsigned.to_uint_nonnil.
Qed.

(** The digits that the standard library gives for a number have no
    leading zero. *)
Lemma to_uint_no_leading_zero (m : N) (d : Decimal.uint) :
  N.to_uint m = Decimal.D0 d -> d = Decimal.Nil.
Proof.
  intros Hd.
  pose proof (DecimalN.Unsigned.to_of (N.to_uint m)) as Hnorm.
  rewrite DecimalN.Unsigned.of_to, Hd in Hnorm.
  rewrite DecimalFacts.unorm_D0 in Hnorm.
  unfold Decimal.unorm in Hnorm.
  destruct (Decimal.nzhead d) eqn:Hhead;
    try (symmetry in Hnorm; rewrite <- Hhead in Hnorm;
         exact (False_ind _ (DecimalFacts.nzhead_nonzero _ _ Hnorm))).
  injection Hnorm as ->. reflexivity.
Qed.

Lemma string_of_uint_empty (d : Decimal.uint) :
  NilEmpty.string_of_uint d = "" -> d = Decimal.Nil.
Proof. destruct d; [reflexivity | discriminate ..]. Qed.

Lemma string_of_uint_leading_zero (d : Decimal.uint) (rest : string) :
  NilEmpty.string_of_uint d = String "0" rest ->
  exists d', d = Decimal.D0 d' /\ rest = NilEmpty.string_of_uint d'.
Proof.
  destruct d; try discriminate.
  intros [= <-]. eexists. split; reflexivity.
Qed.

(** The digits written by the formatter are the numeral of the number. *)
Lemma digits_numeral (n : Z) : (0 <= n)%Z -> numeral n (Py.digits n).
Proof.
  intros Hn. unfold Py.digits, NilZero.string_of_uint.
  set (m := Z.to_N n).
  pose proof (to_uint_nonnil m) as Hnonnil.
  assert (Htext : match N.to_uint m with
                  | Decimal.Nil => "0"
                  | _ => NilEmpty.string_of_uint (N.to_uint m)
                  end = NilEmpty.string_of_uint (N.to_uint m))
    by (destruct (N.to_uint m); [contradiction | reflexivity ..]).
  rewrite Htext. split; [| split].
  - intros Hempty. apply Hnonnil, string_of_uint_empty, Hempty.
  - rewrite decimal_value_string_of_uint, <- uint_value_of_uint.
    change (Pos.of_uint (N.to_uint m)) with (N.of_uint (N.to_uint m)).
    rewrite DecimalN.Unsigned.of_to. unfold m. rewrite Z2N.id by exact Hn.
    reflexivity.
  - intros rest Hrest.
    apply string_of_uint_leading_zero in Hrest as (d' & Hd & ->).
    rewrite (to_uint_no_leading_zero m d' Hd). reflexivity.
Qed.

Lemma digits_one_digit (n : Z) :
  (0 <= n < 10)%Z -> String.length (Py.digits n) = 1%nat.
Proof.
  intros Hn.
  assert (Hk : (Z.to_nat n < 10)%nat) by lia.
  rewrite <- (Z2Nat.id n) by lia.
  revert Hk. generalize (Z.to_nat n) as k. intros k Hk.
  do 10 (destruct k as [| k]; [reflexivity |]). lia.
Qed.

Example numeral_examples :
  numeral 0 "0" /\ numeral 7 "7" /\ numeral 120 "120"
  /\ ~ numeral 7 "07" /\ ~ numeral 7 "" /\ ~ numeral 12 "21".
Proof.
  split; [| split; [| split; [| split; [| split]]]].
  - split; [discriminate |]. split; [reflexivity |].
    intros rest [= <-]. reflexivity.
  - split; [discriminate |]. split; [reflexivity |]. intros rest [=].
  - split; [discriminate |]. split; [reflexivity |]. intros rest [=].
  - intros (_ & _ & Hzero). specialize (Hzero "7" eq_refl). discriminate.
  - intros (Hempty & _). apply Hempty. reflexivity.
  - intros (_ & Hvalue & _). discriminate.
Qed.

Lemma format_1f_rounded (x : R) : rounded_to_one_decimal x (Py.format_1f x).
Proof.
  unfold Py.format_1f.
  assert (Htenths : (0 <= Py.round (Rabs x * 10))%Z).
  { apply le_IZR.
    pose proof (round_nearest (Rabs x * 10)) as [Hlo _].
    pose proof (Rabs_pos x).
    assert (Hgt : (-1 < IZR (Py.round (Rabs x * 10)))%R) by lra.
    apply lt_IZR in Hgt. apply IZR_le. lia. }
  apply (Rounded x (Py.round (Rabs x * 10)) (Py.sign x)).
  - exact Htenths.
  - apply round_nearest.
  - intros Hneg. unfold Py.sign.
    destruct (Rlt_dec x 0); [reflexivity | contradiction].
  - intros Hpos. unfold Py.sign.
    destruct (Rlt_dec x 0); [lra | reflexivity].
  - apply digits_numeral. apply Z.div_pos; lia.
  - apply digits_numeral. apply Z.mod_pos_bound. lia.
  - apply digits_one_digit. apply Z.mod_pos_bound. lia.
Qed.

Lemma base_policy_decides (level : string) (km : option R) :
  base_policy level km
    (if (level =? "critical") || (level =? "high")
     then "Immediate evacuation is recommended."
     else if level =? "medium"
     then "Move carefully and prepare to leave the area."
     else match km with
          | Some _ => "No immediate evacuation is required, but stay alert."
          | None => "No nearby fire was detected from the current feed."
          end).
Proof.
  destruct (eqb_spec level "critical") as [Hc | Hc]; simpl.
  - apply Policy_evacuate. left. exact Hc.
  - destruct (eqb_spec level "high") as [Hh | Hh].
    + apply Policy_evacuate. right. exact Hh.
    + assert (Hnot : ~ (level = "critical" \/ level = "high")) by tauto.
      destruct (eqb_spec level "medium") as [Hm | Hm].
      * apply Policy_prepare; assumption.
      * destruct km; [apply Policy_stay_alert | apply Policy_no_fire];
          assumption.
Qed.

Lemma base_policy_functional (level : string) (km : option R)
    (first second : string) :
  base_policy level km first -> base_policy level km second ->
  first = second.
Proof.
  intros H1 H2.
  destruct H1; inversion H2; subst; try reflexivity; try tauto;
    try congruence.
Qed.

(** C3: the instruction composer picks its base sentence by the first rule
    of the policy that applies, then states the closest-fire distance
    rounded to one decimal when there is one, then appends the first
    warning, and only the first, when there is one. *)
Theorem instruction_text_policy
    (alert_level : string) (closest_fire_km : option R)
    (warnings : list string) :
  exists base,
    base_policy alert_level closest_fire_km base
    /\ (forall other,
          base_policy alert_level closest_fire_km other -> other = base)
    /\ match closest_fire_km with
       | Some km =>
           exists shown,
             rounded_to_one_decimal km shown
             /\ _build_instruction_text alert_level closest_fire_km warnings
                = base ++ " The nearest fire is about " ++ shown
                       ++ " kilometers away." ++ warning_clause warnings
       | None =>
           _build_instruction_text alert_level closest_fire_km warnings
           = base ++ warning_clause warnings
       end.
Proof.
  eexists. split; [apply base_policy_decides |].
  split.
  { intros other Hother.
    exact (base_policy_functional _ _ _ _ Hother
             (base_policy_decides alert_level closest_fire_km)). }
  unfold _build_instruction_text, warning_clause.
  destruct closest_fire_km as [km |].
  - exists (Py.format_1f km). split; [apply format_1f_rounded |].
    destruct warnings as [| first rest]; simpl hd_error; cbv iota.
    + rewrite !append_nil_r. reflexivity.
    + rewrite !append_assoc. reflexivity.
  - destruct warnings as [| first rest]; simpl hd_error; cbv iota.
    + rewrite append_nil_r. reflexivity.
    + reflexivity.
Qed.

Example instruction_text_high :
  _build_instruction_text "high" None ["feed is stale"; "second"]
  = "Immediate evacuation is recommended. Warning: feed is stale.".
Proof. reflexivity. Qed.

Example instruction_text_low_no_fire :
  _build_instruction_text "low" None []
  = "No nearby fire was detected from the current feed.".
Proof. reflexivity. Qed.

(** What the fixed clause says, and what it does not say. *)
Lemma no_path_clause_wording :
  mentions no_path_clause "move away from smoke and flames" = true
  /\ mentions no_path_clause "keep low" = true
  /\ mentions no_path_clause "contact emergency services" = true
  /\ mentions no_path_clause "Head" = false
  /\ mentions no_path_clause "toward the" = false
  /\ mentions no_path_clause "to reach" = false
  /\ mentions no_path_clause "for about" = false
  /\ mentions no_path_clause "Follow these steps" = false
  /\ mentions no_path_clause "Then" = false.
Proof. repeat split; vm_compute; reflexivity. Qed.

(** C4: without a destination direction (null or empty) or without a
    destination distance, the guidance text is the instruction sentence
    followed by the fixed safety clause, whatever the name, the route
    figures and the steps are; the clause tells to move away from smoke and
    flames, keep low and contact emergency services, and carries none of
    the route, direction or step phrases. *)
Theorem guidance_text_without_path
    (destination_name destination_direction : option string)
    (destination_distance_km route_distance_km route_duration_minutes
       : option R)
    (route_steps : list string) (alert_level : string)
    (closest_fire_km : option R) (warnings : list string) :
  Py.truthy_opt destination_direction = false
  \/ destination_distance_km = None ->
  _build_guidance_text
    destination_name destination_direction destination_distance_km
    route_distance_km route_duration_minutes route_steps
    alert_level closest_fire_km warnings
  = _build_instruction_text alert_level closest_fire_km warnings
      ++ no_path_clause
  /\ mentions no_path_clause "move away from smoke and flames" = true
  /\ mentions no_path_clause "keep low" = true
  /\ mentions no_path_clause "contact emergency services" = true
  /\ mentions no_path_clause "Head" = false
  /\ mentions no_path_clause "toward the" = false
  /\ mentions no_path_clause "to reach" = false
  /\ mentions no_path_clause "for about" = false
  /\ mentions no_path_clause "Follow these steps" = false
  /\ mentions no_path_clause "Then" = false.
Proof.
  intros Hmissing. split; [| exact no_path_clause_wording].
  unfold _build_guidance_text.
  destruct destination_direction as [direction |];
    destruct destination_distance_km as [distance |];
    try reflexivity.
  destruct Hmissing as [Hdir | Hdist]; [| discriminate].
  simpl in Hdir. rewrite Hdir. reflexivity.
Qed.

Lemma guidance_text_without_path_witness :
  _build_guidance_text (Some "Shelter") (Some "") (Some 3%R) None None
                       ["Turn left"] "low" None []
  = _build_instruction_text "low" None [] ++ no_path_clause.
Proof.
  apply (guidance_text_without_path
           (Some "Shelter") (Some "") (Some 3%R) None None
           ["Turn left"] "low" None []).
  left. reflexivity.
Defined.

(** ** The stages of the pipeline *)

Section Stages.
Context {DangerZone : Type}.
Variable env : Collaborators DangerZone.
Variables latitude longitude : R.

Import Exec.

Lemma app_assoc3 {A : Type} (log : list A) (a b c : A) :
  (((log ++ [a]) ++ [b]) ++ [c] = log ++ [a; b; c])%list.
Proof. rewrite <- !app_assoc. reflexivity. Qed.

Lemma app_assoc2 {A : Type} (log : list A) (a b : A) :
  ((log ++ [a]) ++ [b] = log ++ [a; b])%list.
Proof. rewrite <- !app_assoc. reflexivity. Qed.

Lemma risk_stage_success
    (warnings : list string) (log : list (Call DangerZone))
    (fires : list Fire.t) (danger_zones : list DangerZone)
    (level : AlertLevel) :
  fetch_fires env latitude longitude 50 = Returned fires ->
  create_danger_zones env fires = Returned danger_zones ->
  determine_alert_level env (closest_of fires) (List.length fires)
  = Returned level ->
  risk_stage env latitude longitude warnings log
  = (Returned (fires, danger_zones, closest_of fires, AlertEnum level,
               warnings),
     (log ++ [ CallFetchFires latitude longitude 50;
               CallCreateDangerZones fires;
               CallDetermineAlertLevel (closest_of fires)
                                       (List.length fires) ])%list).
Proof.
  intros Hfetch Hzones Hlevel.
  unfold risk_stage, try_except, bind, call, ret.
  rewrite Hfetch, Hzones, Hlevel, app_assoc3. reflexivity.
Qed.

Lemma risk_stage_failure
    (warnings : list string) (log : list (Call DangerZone)) (exc : string) :
  risk_fails env latitude longitude exc ->
  exists calls,
    risk_stage env latitude longitude warnings log
    = (Returned ([], [], None, AlertStr "none",
                 Py.append warnings ("Could not fetch fire data: " ++ exc)),
       (log ++ calls)%list)
    /\ accounted env calls ["Could not fetch fire data: " ++ exc].
Proof.
  intros [Hfetch | fires Hfetch Hzones | fires zones Hfetch Hzones Hlevel];
    unfold risk_stage, try_except, bind, call, ret.
  - rewrite Hfetch. eexists. split; [reflexivity |].
    intros entry e [<- | []] Hraised. simpl in Hraised.
    rewrite Hfetch in Hraised. injection Hraised as <-.
    eexists. split; [reflexivity | left; reflexivity].
  - rewrite Hfetch, Hzones, app_assoc2. eexists. split; [reflexivity |].
    intros entry e [<- | [<- | []]] Hraised; simpl in Hraised.
    + congruence.
    + rewrite Hzones in Hraised. injection Hraised as <-.
      eexists. split; [reflexivity | left; reflexivity].
  - rewrite Hfetch, Hzones, Hlevel, app_assoc3.
    eexists. split; [reflexivity |].
    intros entry e [<- | [<- | [<- | []]]] Hraised; simpl in Hraised.
    + congruence.
    + congruence.
    + rewrite Hlevel in Hraised. injection Hraised as <-.
      eexists. split; [reflexivity | left; reflexivity].
Qed.

Lemma risk_outcome_cases :
  (exists fires danger_zones level,
      fetch_fires env latitude longitude 50 = Returned fires
      /\ create_danger_zones env fires = Returned danger_zones
      /\ determine_alert_level env (closest_of fires) (List.length fires)
         = Returned level)
  \/ (exists exc, risk_fails env latitude longitude exc)
  \/ (exists exc, risk_interrupted env latitude longitude exc).
Proof.
  destruct (fetch_fires env latitude longitude 50)
    as [fires | e | e] eqn:Hfetch.
  - destruct (create_danger_zones env fires) as [zones | e | e] eqn:Hzones.
    + destruct (determine_alert_level env (closest_of fires)
                                      (List.length fires))
        as [level | e | e] eqn:Hlevel.
      * left. exists fires, zones, level. auto.
      * right. left. exists e. eapply Level_fails; eassumption.
      * right. right. exists e. eapply Level_interrupted; eassumption.
    + right. left. exists e. eapply Zones_fail; eassumption.
    + right. right. exists e. eapply Zones_interrupted; eassumption.
  - right. left. exists e. apply Feed_fails. assumption.
  - right. right. exists e. apply Feed_interrupted. assumption.
Qed.

(** What is not an [Exception] passes through the handler of the risk
    stage: the stage ends with it, at the call that raised it. *)
Lemma risk_stage_interrupted
    (warnings : list string) (log : list (Call DangerZone)) (exc : string) :
  risk_interrupted env latitude longitude exc ->
  exists before entry,
    risk_stage env latitude longitude warnings log
    = (Interrupted exc, (log ++ before ++ [entry])%list)
    /\ interrupted env entry exc.
Proof.
  intros [Hfetch | fires Hfetch Hzones | fires zones Hfetch Hzones Hlevel];
    unfold risk_stage, try_except, bind, call, ret.
  - rewrite Hfetch. exists [], (CallFetchFires latitude longitude 50).
    split; [reflexivity | exact Hfetch].
  - rewrite Hfetch, Hzones, app_assoc2.
    exists [CallFetchFires latitude longitude 50],
           (CallCreateDangerZones fires).
    split; [reflexivity | exact Hzones].
  - rewrite Hfetch, Hzones, Hlevel, app_assoc3.
    exists [CallFetchFires latitude longitude 50;
            CallCreateDangerZones fires],
           (CallDetermineAlertLevel (closest_of fires) (List.length fires)).
    split; [reflexivity | exact Hlevel].
Qed.

Lemma safe_place_stage_returned
    (danger_zones : list DangerZone) (warnings : list string)
    (log : list (Call DangerZone)) (places : list SafePlace.t) :
  fetch_safe_places env latitude longitude 20 danger_zones
  = Returned places ->
  safe_place_stage env latitude longitude danger_zones warnings log
  = (Returned (filter not_flagged places, warnings),
     (log ++ [CallFetchSafePlaces latitude longitude 20 danger_zones])%list).
Proof.
  intros Hfetch. unfold safe_place_stage, try_except, bind, call, ret.
  rewrite Hfetch. reflexivity.
Qed.

Lemma safe_place_stage_raised
    (danger_zones : list DangerZone) (warnings : list string)
    (log : list (Call DangerZone)) (exc : string) :
  fetch_safe_places env latitude longitude 20 danger_zones = Raised exc ->
  safe_place_stage env latitude longitude danger_zones warnings log
  = (Returned ([], Py.append warnings
                             ("Could not fetch safe places: " ++ exc)),
     (log ++ [CallFetchSafePlaces latitude longitude 20 danger_zones])%list).
Proof.
  intros Hfetch. unfold safe_place_stage, try_except, bind, call, ret.
  rewrite Hfetch. reflexivity.
Qed.

Lemma safe_place_stage_interrupted
    (danger_zones : list DangerZone) (warnings : list string)
    (log : list (Call DangerZone)) (exc : string) :
  fetch_safe_places env latitude longitude 20 danger_zones
  = Interrupted exc ->
  safe_place_stage env latitude longitude danger_zones warnings log
  = (Interrupted exc,
     (log ++ [CallFetchSafePlaces latitude longitude 20 danger_zones])%list).
Proof.
  intros Hfetch. unfold safe_place_stage, try_except, bind, call, ret.
  rewrite Hfetch. reflexivity.
Qed.

Lemma coverage_stage_returned
    (danger_zones : list DangerZone) (warnings : list string)
    (log : list (Call DangerZone)) (coverage : Coverage.t) :
  estimate_coverage_simple env latitude longitude danger_zones
  = Returned coverage ->
  coverage_stage env latitude longitude danger_zones warnings log
  = (Returned (if Coverage.get_has_coverage coverage
               then warnings
               else Py.append warnings degraded_coverage_warning),
     (log ++ [CallEstimateCoverage latitude longitude danger_zones])%list).
Proof.
  intros Hcov. unfold coverage_stage, bind, call, ret.
  rewrite Hcov. destruct (Coverage.get_has_coverage coverage); reflexivity.
Qed.

Lemma coverage_stage_raised
    (danger_zones : list DangerZone) (warnings : list string)
    (log : list (Call DangerZone)) (exc : string) :
  estimate_coverage_simple env latitude longitude danger_zones
  = Raised exc ->
  coverage_stage env latitude longitude danger_zones warnings log
  = (Raised exc,
     (log ++ [CallEstimateCoverage latitude longitude danger_zones])%list).
Proof.
  intros Hcov. unfold coverage_stage, bind, call, ret.
  rewrite Hcov. reflexivity.
Qed.

Lemma coverage_stage_interrupted
    (danger_zones : list DangerZone) (warnings : list string)
    (log : list (Call DangerZone)) (exc : string) :
  estimate_coverage_simple env latitude longitude danger_zones
  = Interrupted exc ->
  coverage_stage env latitude longitude danger_zones warnings log
  = (Interrupted exc,
     (log ++ [CallEstimateCoverage latitude longitude danger_zones])%list).
Proof.
  intros Hcov. unfold coverage_stage, bind, call, ret.
  rewrite Hcov. reflexivity.
Qed.

Lemma routing_stage_skipped
    (danger_zones : list DangerZone) (warnings : list string)
    (log : list (Call DangerZone)) :
  routing_stage env latitude longitude [] danger_zones warnings log
  = (Returned (None, None, warnings), log).
Proof. reflexivity. Qed.

Lemma routing_stage_raised
    (first : SafePlace.t) (rest : list SafePlace.t)
    (danger_zones : list DangerZone) (warnings : list string)
    (log : list (Call DangerZone)) (exc : string) :
  let destinations := map destination_of (firstn 5 (first :: rest)) in
  get_route_to_nearest_safe_place
    env latitude longitude destinations danger_zones = Raised exc ->
  routing_stage env latitude longitude (first :: rest) danger_zones
                warnings log
  = (Returned (None, Some first,
               Py.append warnings ("Could not calculate route: " ++ exc)),
     (log ++ [CallGetRoute latitude longitude destinations
                           danger_zones])%list).
Proof.
  intros destinations Hroute.
  unfold routing_stage, try_except, bind, call, ret.
  fold destinations. rewrite Hroute. reflexivity.
Qed.

Lemma routing_stage_interrupted
    (first : SafePlace.t) (rest : list SafePlace.t)
    (danger_zones : list DangerZone) (warnings : list string)
    (log : list (Call DangerZone)) (exc : string) :
  let destinations := map destination_of (firstn 5 (first :: rest)) in
  get_route_to_nearest_safe_place
    env latitude longitude destinations danger_zones = Interrupted exc ->
  routing_stage env latitude longitude (first :: rest) danger_zones
                warnings log
  = (Interrupted exc,
     (log ++ [CallGetRoute latitude longitude destinations
                           danger_zones])%list).
Proof.
  intros destinations Hroute.
  unfold routing_stage, try_except, bind, call, ret.
  fold destinations. rewrite Hroute. reflexivity.
Qed.

Lemma routing_stage_no_route
    (first : SafePlace.t) (rest : list SafePlace.t)
    (danger_zones : list DangerZone) (warnings : list string)
    (log : list (Call DangerZone)) :
  let destinations := map destination_of (firstn 5 (first :: rest)) in
  get_route_to_nearest_safe_place
    env latitude longitude destinations danger_zones = Returned None ->
  routing_stage env latitude longitude (first :: rest) danger_zones
                warnings log
  = (Returned (None, Some first, warnings),
     (log ++ [CallGetRoute latitude longitude destinations
                           danger_zones])%list).
Proof.
  intros destinations Hroute.
  unfold routing_stage, try_except, bind, call, ret.
  fold destinations. rewrite Hroute. reflexivity.
Qed.

Lemma routing_stage_found
    (first : SafePlace.t) (rest : list SafePlace.t)
    (danger_zones : list DangerZone) (warnings : list string)
    (log : list (Call DangerZone))
    (route : Route.t) (dest_info : Destination.t) :
  let destinations := map destination_of (firstn 5 (first :: rest)) in
  get_route_to_nearest_safe_place
    env latitude longitude destinations danger_zones
  = Returned (Some (route, dest_info)) ->
  routing_stage env latitude longitude (first :: rest) danger_zones
                warnings log
  = (Returned (Some route,
               next_by_id (first :: rest) (Destination.id dest_info)
                          (Some first),
               warnings),
     (log ++ [CallGetRoute latitude longitude destinations
                           danger_zones])%list).
Proof.
  intros destinations Hroute.
  unfold routing_stage, try_except, bind, call, ret.
  fold destinations. rewrite Hroute. reflexivity.
Qed.

Lemma next_by_id_cases
    (safe_places : list SafePlace.t) (wanted : string)
    (default : option SafePlace.t) :
  (exists place,
      next_by_id safe_places wanted default = Some place
      /\ In place safe_places /\ SafePlace.id place = wanted)
  \/ (next_by_id safe_places wanted default = default
      /\ forall place, In place safe_places -> SafePlace.id place <> wanted).
Proof.
  unfold next_by_id.
  destruct (find (fun place => SafePlace.id place =? wanted) safe_places)
    as [place |] eqn:Hfind.
  - left. exists place. apply find_some in Hfind as [Hin Hid].
    apply eqb_eq in Hid. auto.
  - right. split; [reflexivity |].
    intros place Hin Hid.
    apply (find_none _ _ Hfind) in Hin. simpl in Hin.
    apply eqb_neq in Hin. contradiction.
Qed.

(** What a returned risk stage tells about the collaborators. *)
Lemma risk_stage_inv
    (warnings : list string) (log : list (Call DangerZone))
    (fires : list Fire.t) (danger_zones : list DangerZone)
    (closest_fire_km : option R) (alert_level : alert_value)
    (warnings' : list string) (log' : list (Call DangerZone)) :
  risk_stage env latitude longitude warnings log
  = (Returned (fires, danger_zones, closest_fire_km, alert_level,
               warnings'), log') ->
  (exists level,
      fetch_fires env latitude longitude 50 = Returned fires
      /\ create_danger_zones env fires = Returned danger_zones
      /\ determine_alert_level env (closest_of fires) (List.length fires)
         = Returned level
      /\ closest_fire_km = closest_of fires
      /\ alert_level = AlertEnum level
      /\ warnings' = warnings
      /\ log' = (log ++ [ CallFetchFires latitude longitude 50;
                          CallCreateDangerZones fires;
                          CallDetermineAlertLevel (closest_of fires)
                                                  (List.length fires) ])%list)
  \/ (exists exc calls,
         risk_fails env latitude longitude exc
         /\ fires = [] /\ danger_zones = [] /\ closest_fire_km = None
         /\ alert_level = AlertStr "none"
         /\ warnings'
            = Py.append warnings ("Could not fetch fire data: " ++ exc)
         /\ log' = (log ++ calls)%list
         /\ accounted env calls ["Could not fetch fire data: " ++ exc]).
Proof.
  intros Hrun.
  destruct risk_outcome_cases
    as [(fs & zs & level & Hf & Hz & Hl) | [(exc & Hfail) | (exc & Hint)]].
  - rewrite (risk_stage_success _ _ _ _ _ Hf Hz Hl) in Hrun.
    injection Hrun as <- <- <- <- <- <-.
    left. exists level. repeat split; assumption.
  - destruct (risk_stage_failure warnings log exc Hfail)
      as (calls & Heq & Hacc).
    rewrite Heq in Hrun. injection Hrun as <- <- <- <- <- <-.
    right. exists exc, calls. repeat split; assumption.
  - destruct (risk_stage_interrupted warnings log exc Hint)
      as (before & entry & Heq & _).
    rewrite Heq in Hrun. discriminate.
Qed.

(** The risk stage never ends with an [Exception], and ends with something
    else only at a call that raised it. *)
Lemma risk_stage_failed
    (warnings : list string) (log log' : list (Call DangerZone))
    (exc : string) :
  risk_stage env latitude longitude warnings log <> (Raised exc, log')
  /\ (risk_stage env latitude longitude warnings log
      = (Interrupted exc, log') ->
      exists before entry,
        log' = (log ++ before ++ [entry])%list
        /\ interrupted env entry exc).
Proof.
  destruct risk_outcome_cases
    as [(fs & zs & level & Hf & Hz & Hl) | [(e & Hfail) | (e & Hint)]].
  - rewrite (risk_stage_success _ _ _ _ _ Hf Hz Hl).
    split; [discriminate | intros H; discriminate H].
  - destruct (risk_stage_failure warnings log e Hfail)
      as (calls & Heq & _).
    rewrite Heq. split; [discriminate | intros H; discriminate H].
  - destruct (risk_stage_interrupted warnings log e Hint)
      as (before & entry & Heq & Hentry).
    rewrite Heq. split; [discriminate |].
    intros [= <- <-]. exists before, entry. auto.
Qed.

Lemma safe_place_stage_inv
    (danger_zones : list DangerZone) (warnings : list string)
    (log : list (Call DangerZone)) (safe_places : list SafePlace.t)
    (warnings' : list string) (log' : list (Call DangerZone)) :
  safe_place_stage env latitude longitude danger_zones warnings log
  = (Returned (safe_places, warnings'), log') ->
  log' = (log ++ [CallFetchSafePlaces latitude longitude 20
                                      danger_zones])%list
  /\ ((exists places,
          fetch_safe_places env latitude longitude 20 danger_zones
          = Returned places
          /\ safe_places = filter not_flagged places
          /\ warnings' = warnings)
      \/ (exists exc,
             fetch_safe_places env latitude longitude 20 danger_zones
             = Raised exc
             /\ safe_places = []
             /\ warnings'
                = Py.append warnings
                            ("Could not fetch safe places: " ++ exc))).
Proof.
  intros Hrun.
  destruct (fetch_safe_places env latitude longitude 20 danger_zones)
    as [places | exc | exc] eqn:Hfetch.
  - rewrite (safe_place_stage_returned _ _ _ _ Hfetch) in Hrun.
    injection Hrun as <- <- <-.
    split; [reflexivity |]. left. exists places. auto.
  - rewrite (safe_place_stage_raised _ _ _ _ Hfetch) in Hrun.
    injection Hrun as <- <- <-.
    split; [reflexivity |]. right. exists exc. auto.
  - rewrite (safe_place_stage_interrupted _ _ _ _ Hfetch) in Hrun.
    discriminate.
Qed.

(** Whatever the safe-place stage ends with, it has made its one call. *)
Lemma safe_place_stage_log
    (danger_zones : list DangerZone) (warnings : list string)
    (log log' : list (Call DangerZone))
    (o : outcome (list SafePlace.t * list string)) :
  safe_place_stage env latitude longitude danger_zones warnings log
  = (o, log') ->
  log' = (log ++ [CallFetchSafePlaces latitude longitude 20
                                      danger_zones])%list.
Proof.
  destruct (fetch_safe_places env latitude longitude 20 danger_zones)
    as [places | exc | exc] eqn:Hfetch.
  - rewrite (safe_place_stage_returned _ _ _ _ Hfetch).
    intros [= _ <-]. reflexivity.
  - rewrite (safe_place_stage_raised _ _ _ _ Hfetch).
    intros [= _ <-]. reflexivity.
  - rewrite (safe_place_stage_interrupted _ _ _ _ Hfetch).
    intros [= _ <-]. reflexivity.
Qed.

Lemma safe_place_stage_failed
    (danger_zones : list DangerZone) (warnings : list string)
    (log log' : list (Call DangerZone)) (exc : string) :
  safe_place_stage env latitude longitude danger_zones warnings log
  <> (Raised exc, log')
  /\ (safe_place_stage env latitude longitude danger_zones warnings log
      = (Interrupted exc, log') ->
      log' = (log ++ [CallFetchSafePlaces latitude longitude 20
                                          danger_zones])%list
      /\ fetch_safe_places env latitude longitude 20 danger_zones
         = Interrupted exc).
Proof.
  destruct (fetch_safe_places env latitude longitude 20 danger_zones)
    as [places | e | e] eqn:Hfetch.
  - rewrite (safe_place_stage_returned _ _ _ _ Hfetch).
    split; [discriminate | intros H; discriminate H].
  - rewrite (safe_place_stage_raised _ _ _ _ Hfetch).
    split; [discriminate | intros H; discriminate H].
  - rewrite (safe_place_stage_interrupted _ _ _ _ Hfetch).
    split; [discriminate |]. intros [= <- <-]. auto.
Qed.

Lemma coverage_stage_inv
    (danger_zones : list DangerZone) (warnings : list string)
    (log : list (Call DangerZone))
    (warnings' : list string) (log' : list (Call DangerZone)) :
  coverage_stage env latitude longitude danger_zones warnings log
  = (Returned warnings', log') ->
  exists coverage,
    estimate_coverage_simple env latitude longitude danger_zones
    = Returned coverage
    /\ warnings' = (if Coverage.get_has_coverage coverage
                    then warnings
                    else Py.append warnings degraded_coverage_warning)
    /\ log' = (log ++ [CallEstimateCoverage latitude longitude
                                            danger_zones])%list.
Proof.
  intros Hrun.
  destruct (estimate_coverage_simple env latitude longitude danger_zones)
    as [coverage | exc | exc] eqn:Hcov.
  - rewrite (coverage_stage_returned _ _ _ _ Hcov) in Hrun.
    injection Hrun as <- <-. exists coverage. auto.
  - rewrite (coverage_stage_raised _ _ _ _ Hcov) in Hrun. discriminate.
  - rewrite (coverage_stage_interrupted _ _ _ _ Hcov) in Hrun.
    discriminate.
Qed.

(** Whatever the coverage stage ends with, it has made its one call. *)
Lemma coverage_stage_log
    (danger_zones : list DangerZone) (warnings : list string)
    (log log' : list (Call DangerZone)) (o : outcome (list string)) :
  coverage_stage env latitude longitude danger_zones warnings log
  = (o, log') ->
  log' = (log ++ [CallEstimateCoverage latitude longitude
                                       danger_zones])%list.
Proof.
  destruct (estimate_coverage_simple env latitude longitude danger_zones)
    as [coverage | exc | exc] eqn:Hcov.
  - rewrite (coverage_stage_returned _ _ _ _ Hcov).
    intros [= _ <-]. reflexivity.
  - rewrite (coverage_stage_raised _ _ _ _ Hcov).
    intros [= _ <-]. reflexivity.
  - rewrite (coverage_stage_interrupted _ _ _ _ Hcov).
    intros [= _ <-]. reflexivity.
Qed.

(** The coverage stage ends with what the estimator raises, of either
    kind, and with nothing else. *)
Lemma coverage_stage_failed
    (danger_zones : list DangerZone) (warnings : list string)
    (log log' : list (Call DangerZone)) (exc : string) :
  (coverage_stage env latitude longitude danger_zones warnings log
   = (Raised exc, log') ->
   estimate_coverage_simple env latitude longitude danger_zones
   = Raised exc)
  /\ (coverage_stage env latitude longitude danger_zones warnings log
      = (Interrupted exc, log') ->
      estimate_coverage_simple env latitude longitude danger_zones
      = Interrupted exc).
Proof.
  destruct (estimate_coverage_simple env latitude longitude danger_zones)
    as [coverage | e | e] eqn:Hcov.
  - rewrite (coverage_stage_returned _ _ _ _ Hcov).
    split; intros H; discriminate H.
  - rewrite (coverage_stage_raised _ _ _ _ Hcov).
    split; [intros [= <- _]; reflexivity | intros H; discriminate H].
  - rewrite (coverage_stage_interrupted _ _ _ _ Hcov).
    split; [intros H; discriminate H | intros [= <- _]; reflexivity].
Qed.

Lemma routing_stage_inv
    (safe_places : list SafePlace.t) (danger_zones : list DangerZone)
    (warnings : list string) (log : list (Call DangerZone))
    (route : option Route.t) (destination : option SafePlace.t)
    (warnings' : list string) (log' : list (Call DangerZone)) :
  routing_stage env latitude longitude safe_places danger_zones
                warnings log
  = (Returned (route, destination, warnings'), log') ->
  (safe_places = [] /\ route = None /\ destination = None
   /\ warnings' = warnings /\ log' = log)
  \/ (exists first rest,
         safe_places = first :: rest
         /\ log' = (log ++ [CallGetRoute
                              latitude longitude
                              (map destination_of (firstn 5 safe_places))
                              danger_zones])%list
         /\ ((exists exc,
                get_route_to_nearest_safe_place
                  env latitude longitude
                  (map destination_of (firstn 5 safe_places)) danger_zones
                = Raised exc
                /\ route = None /\ destination = Some first
                /\ warnings'
                   = Py.append warnings
                               ("Could not calculate route: " ++ exc))
             \/ (get_route_to_nearest_safe_place
                   env latitude longitude
                   (map destination_of (firstn 5 safe_places)) danger_zones
                 = Returned None
                 /\ route = None /\ destination = Some first
                 /\ warnings' = warnings)
             \/ (exists found dest_info,
                    get_route_to_nearest_safe_place
                      env latitude longitude
                      (map destination_of (firstn 5 safe_places))
                      danger_zones
                    = Returned (Some (found, dest_info))
                    /\ route = Some found
                    /\ destination
                       = next_by_id safe_places (Destination.id dest_info)
                                    (Some first)
                    /\ warnings' = warnings))).
Proof.
  intros Hrun. destruct safe_places as [| first rest].
  - rewrite routing_stage_skipped in Hrun.
    injection Hrun as <- <- <- <-. left. auto.
  - right. exists first, rest. split; [reflexivity |].
    destruct (get_route_to_nearest_safe_place
                env latitude longitude
                (map destination_of (firstn 5 (first :: rest)))
                danger_zones)
      as [[[found dest_info] |] | exc | exc] eqn:Hroute.
    + rewrite (routing_stage_found _ _ _ _ _ _ _ Hroute) in Hrun.
      injection Hrun as <- <- <- <-.
      split; [reflexivity |]. right. right. exists found, dest_info. auto.
    + rewrite (routing_stage_no_route _ _ _ _ _ Hroute) in Hrun.
      injection Hrun as <- <- <- <-.
      split; [reflexivity |]. right. left. auto.
    + rewrite (routing_stage_raised _ _ _ _ _ _ Hroute) in Hrun.
      injection Hrun as <- <- <- <-.
      split; [reflexivity |]. left. exists exc. auto.
    + rewrite (routing_stage_interrupted _ _ _ _ _ _ Hroute) in Hrun.
      discriminate.
Qed.

(** Whatever the routing stage ends with, it has made at most its one
    call. *)
Lemma routing_stage_log
    (safe_places : list SafePlace.t) (danger_zones : list DangerZone)
    (warnings : list string) (log log' : list (Call DangerZone))
    (o : outcome (option Route.t * option SafePlace.t * list string)) :
  routing_stage env latitude longitude safe_places danger_zones
                warnings log
  = (o, log') ->
  exists calls, log' = (log ++ calls)%list.
Proof.
  destruct safe_places as [| first rest].
  - rewrite routing_stage_skipped. intros [= _ <-].
    exists []. symmetry. apply app_nil_r.
  - destruct (get_route_to_nearest_safe_place
                env latitude longitude
                (map destination_of (firstn 5 (first :: rest)))
                danger_zones)
      as [[[found dest_info] |] | exc | exc] eqn:Hroute.
    + rewrite (routing_stage_found _ _ _ _ _ _ _ Hroute).
      intros [= _ <-]. eexists. reflexivity.
    + rewrite (routing_stage_no_route _ _ _ _ _ Hroute).
      intros [= _ <-]. eexists. reflexivity.
    + rewrite (routing_stage_raised _ _ _ _ _ _ Hroute).
      intros [= _ <-]. eexists. reflexivity.
    + rewrite (routing_stage_interrupted _ _ _ _ _ _ Hroute).
      intros [= _ <-]. eexists. reflexivity.
Qed.

Lemma routing_stage_failed
    (safe_places : list SafePlace.t) (danger_zones : list DangerZone)
    (warnings : list string) (log log' : list (Call DangerZone))
    (exc : string) :
  routing_stage env latitude longitude safe_places danger_zones
                warnings log
  <> (Raised exc, log')
  /\ (routing_stage env latitude longitude safe_places danger_zones
                    warnings log
      = (Interrupted exc, log') ->
      log' = (log ++ [CallGetRoute
                        latitude longitude
                        (map destination_of (firstn 5 safe_places))
                        danger_zones])%list
      /\ get_route_to_nearest_safe_place
           env latitude longitude
           (map destination_of (firstn 5 safe_places)) danger_zones
         = Interrupted exc).
Proof.
  destruct safe_places as [| first rest].
  - rewrite routing_stage_skipped.
    split; [discriminate | intros H; discriminate H].
  - destruct (get_route_to_nearest_safe_place
                env latitude longitude
                (map destination_of (firstn 5 (first :: rest)))
                danger_zones)
      as [[[found dest_info] |] | e | e] eqn:Hroute.
    + rewrite (routing_stage_found _ _ _ _ _ _ _ Hroute).
      split; [discriminate | intros H; discriminate H].
    + rewrite (routing_stage_no_route _ _ _ _ _ Hroute).
      split; [discriminate | intros H; discriminate H].
    + rewrite (routing_stage_raised _ _ _ _ _ _ Hroute).
      split; [discriminate | intros H; discriminate H].
    + rewrite (routing_stage_interrupted _ _ _ _ _ _ Hroute).
      split; [discriminate |]. intros [= <- <-]. auto.
Qed.

Lemma assemble_result_returns
    (closest_fire_km : option R) (alert_level : alert_value)
    (route : option Route.t) (destination : option SafePlace.t)
    (warnings : list string) (log : list (Call DangerZone)) :
  exists direction,
    assemble_result (DangerZone := DangerZone)
                    latitude longitude closest_fire_km alert_level
                    route destination warnings log
    = (Returned
         {| GuidanceResult.guidance_text :=
              _build_guidance_text
                (option_map SafePlace.name destination)
                direction
                (option_map SafePlace.distance_km destination)
                (option_map Route.distance_km route)
                (option_map Route.duration_minutes route)
                (instructions_of route)
                (alert_text alert_level) closest_fire_km warnings;
            GuidanceResult.alert_level := alert_text alert_level;
            GuidanceResult.closest_fire_km := closest_fire_km;
            GuidanceResult.destination_name :=
              option_map SafePlace.name destination;
            GuidanceResult.destination_direction := direction;
            GuidanceResult.destination_distance_km :=
              option_map SafePlace.distance_km destination;
            GuidanceResult.route_distance_km :=
              option_map Route.distance_km route;
            GuidanceResult.route_duration_minutes :=
              option_map Route.duration_minutes route;
            GuidanceResult.route_steps := firstn 3 (instructions_of route);
            GuidanceResult.warnings := warnings |},
       log)
    /\ match destination with
       | Some place =>
           exists cardinal,
             direction = Some cardinal
             /\ _bearing_to_cardinal latitude longitude
                                     (SafePlace.latitude place)
                                     (SafePlace.longitude place)
                = Returned cardinal
             /\ In cardinal directions
       | None => direction = None
       end.
Proof.
  unfold assemble_result, bind, lift, ret.
  destruct destination as [place |].
  - destruct (sector_of_returns
                (bearing_angle latitude longitude
                               (SafePlace.latitude place)
                               (SafePlace.longitude place)))
      as (cardinal & Hsector & Hin).
    rewrite <- bearing_unfold in Hsector.
    exists (Some cardinal). rewrite Hsector. split; [reflexivity |].
    exists cardinal. auto.
  - exists None. split; reflexivity.
Qed.

End Stages.

(** ** The pipeline as a whole *)

Section Whole.
Context {DangerZone : Type}.
Variable env : Collaborators DangerZone.
Variables latitude longitude : R.

Import Exec.

Lemma bind_returned {A B : Type}
    (m : M DangerZone A) (k : A -> M DangerZone B)
    (log log' : list (Call DangerZone)) (b : B) :
  bind m k log = (Returned b, log')
  <-> exists a log1, m log = (Returned a, log1)
                     /\ k a log1 = (Returned b, log').
Proof.
  unfold bind. split.
  - destruct (m log) as [[a | e | e] log1]; [| discriminate ..].
    intros Hk. exists a, log1. auto.
  - intros (a & log1 & Hm & Hk). rewrite Hm. exact Hk.
Qed.

Lemma assemble_result_log
    (closest_fire_km : option R) (alert_level : alert_value)
    (route : option Route.t) (destination : option SafePlace.t)
    (warnings : list string) (log log' : list (Call DangerZone))
    (result : GuidanceResult.t) :
  assemble_result latitude longitude closest_fire_km alert_level
                  route destination warnings log
  = (Returned result, log') ->
  log' = log.
Proof.
  destruct (assemble_result_returns
              latitude longitude closest_fire_km alert_level route
              destination warnings log) as (direction & Heq & _).
  rewrite Heq. intros H. injection H as _ <-. reflexivity.
Qed.

Lemma assemble_result_steps
    (closest_fire_km : option R) (alert_level : alert_value)
    (route : option Route.t) (destination : option SafePlace.t)
    (warnings : list string) (log log' : list (Call DangerZone))
    (result : GuidanceResult.t) :
  assemble_result latitude longitude closest_fire_km alert_level
                  route destination warnings log
  = (Returned result, log') ->
  GuidanceResult.route_steps result = firstn 3 (instructions_of route)
  /\ GuidanceResult.route_distance_km result
     = option_map Route.distance_km route.
Proof.
  destruct (assemble_result_returns
              latitude longitude closest_fire_km alert_level route
              destination warnings log) as (direction & Heq & _).
  rewrite Heq. intros H.
  assert (Hresult : Returned result = Returned _ :> outcome _)
    by (symmetry; exact (f_equal fst H)).
  inversion Hresult. split; reflexivity.
Qed.

(** A run of [build_evacuation_guidance] that returns is a run of its
    stages, and conversely. *)
Lemma build_pipeline
    (result : GuidanceResult.t) (log : list (Call DangerZone)) :
  run (build_evacuation_guidance env latitude longitude)
  = (Returned result, log)
  <-> exists danger_zones safe_places route destination,
        pipeline env latitude longitude danger_zones safe_places route
                 destination result log.
Proof.
  unfold run, build_evacuation_guidance. split.
  - intros Hrun.
    apply bind_returned in Hrun
      as ([[[[fires zones] closest] level] ws1] & log1 & H1 & Hrun).
    apply bind_returned in Hrun as ([safe ws2] & log2 & H2 & Hrun).
    apply bind_returned in Hrun as (ws3 & log3 & H3 & Hrun).
    apply bind_returned in Hrun
      as ([[route destination] ws4] & log4 & H4 & Hrun).
    pose proof (assemble_result_log _ _ _ _ _ _ _ _ Hrun) as ->.
    exists zones, safe, route, destination.
    eapply Pipeline_run; eassumption.
  - intros (zones & safe & route & destination & Hrun).
    destruct Hrun as [fires zones closest level safe route destination
                        ws1 ws2 ws3 ws4 log1 log2 log3 log4 r
                        H1 H2 H3 H4 H5].
    apply bind_returned. eexists; eexists. split; [exact H1 |].
    apply bind_returned. eexists; eexists. split; [exact H2 |].
    apply bind_returned. eexists; eexists. split; [exact H3 |].
    apply bind_returned. eexists; eexists. split; [exact H4 |].
    exact H5.
Qed.

Lemma bind_cases {A B : Type}
    (m : M DangerZone A) (k : A -> M DangerZone B)
    (log log' : list (Call DangerZone)) (o : outcome B) :
  bind m k log = (o, log') ->
  (exists a log1, m log = (Returned a, log1) /\ k a log1 = (o, log'))
  \/ (exists exc, m log = (Raised exc, log') /\ o = Raised exc)
  \/ (exists exc, m log = (Interrupted exc, log') /\ o = Interrupted exc).
Proof.
  unfold bind. destruct (m log) as [[a | e | e] log1].
  - intros Hk. left. exists a, log1. auto.
  - intros [= <- <-]. right. left. exists e. auto.
  - intros [= <- <-]. right. right. exists e. auto.
Qed.

Lemma assemble_result_outcome
    (closest_fire_km : option R) (alert_level : alert_value)
    (route : option Route.t) (destination : option SafePlace.t)
    (warnings : list string) (log log' : list (Call DangerZone))
    (o : outcome GuidanceResult.t) :
  assemble_result latitude longitude closest_fire_km alert_level
                  route destination warnings log
  = (o, log') ->
  log' = log /\ exists result, o = Returned result.
Proof.
  destruct (assemble_result_returns
              latitude longitude closest_fire_km alert_level route
              destination warnings log) as (direction & Heq & _).
  rewrite Heq. intros H.
  split.
  - symmetry. exact (f_equal snd H).
  - eexists. symmetry. exact (f_equal fst H).
Qed.

(** How a run that does not return ends: with an [Exception] only at
    the call to the coverage estimator, after the risk stage and the
    safe-place stage have returned; with anything else at the call that
    raised it, which is the last one made. *)
Lemma build_failed
    (o : outcome GuidanceResult.t) (log : list (Call DangerZone)) :
  run (build_evacuation_guidance env latitude longitude) = (o, log) ->
  match o with
  | Returned _ => True
  | Raised exc =>
      exists fires danger_zones closest_fire_km alert_level warnings1 log1
             safe_places warnings2 log2,
        risk_stage env latitude longitude [] []
        = (Returned (fires, danger_zones, closest_fire_km, alert_level,
                     warnings1), log1)
        /\ safe_place_stage env latitude longitude danger_zones
                            warnings1 log1
           = (Returned (safe_places, warnings2), log2)
        /\ log = (log2 ++ [CallEstimateCoverage latitude longitude
                                                danger_zones])%list
        /\ estimate_coverage_simple env latitude longitude danger_zones
           = Raised exc
  | Interrupted exc =>
      exists before entry,
        log = (before ++ [entry])%list /\ interrupted env entry exc
  end.
Proof.
  unfold run, build_evacuation_guidance. intros Hrun.
  apply bind_cases in Hrun
    as [([[[[fires zones] closest] level] ws1] & log1 & H1 & Hrun)
       | [(e & H1 & ->) | (e & H1 & ->)]].
  2:{ elim (proj1 (risk_stage_failed env latitude longitude [] [] log e)
                  H1). }
  2:{ destruct (proj2 (risk_stage_failed env latitude longitude [] [] log e)
                      H1) as (before & entry & -> & Hentry).
      exists before, entry. auto. }
  apply bind_cases in Hrun
    as [([safe ws2] & log2 & H2 & Hrun) | [(e & H2 & ->) | (e & H2 & ->)]].
  2:{ elim (proj1 (safe_place_stage_failed env latitude longitude
                     zones ws1 log1 log e) H2). }
  2:{ destruct (proj2 (safe_place_stage_failed env latitude longitude
                         zones ws1 log1 log e) H2) as (-> & Hfetch).
      exists log1, (CallFetchSafePlaces latitude longitude 20 zones).
      auto. }
  apply bind_cases in Hrun
    as [(ws3 & log3 & H3 & Hrun) | [(e & H3 & ->) | (e & H3 & ->)]].
  2:{ pose proof (coverage_stage_log _ _ _ _ _ _ _ _ H3) as ->.
      exists fires, zones, closest, level, ws1, log1, safe, ws2, log2.
      split; [exact H1 |]. split; [exact H2 |]. split; [reflexivity |].
      exact (proj1 (coverage_stage_failed env latitude longitude
                      zones ws2 log2 _ e) H3). }
  2:{ pose proof (coverage_stage_log _ _ _ _ _ _ _ _ H3) as ->.
      exists log2, (CallEstimateCoverage latitude longitude zones).
      split; [reflexivity |].
      exact (proj2 (coverage_stage_failed env latitude longitude
                      zones ws2 log2 _ e) H3). }
  apply bind_cases in Hrun
    as [([[route destination] ws4] & log4 & H4 & Hrun)
       | [(e & H4 & ->) | (e & H4 & ->)]].
  2:{ elim (proj1 (routing_stage_failed env latitude longitude
                     safe zones ws3 log3 log e) H4). }
  2:{ destruct (proj2 (routing_stage_failed env latitude longitude
                         safe zones ws3 log3 log e) H4) as (-> & Hroute).
      eexists. eexists. split; [reflexivity |]. exact Hroute. }
  destruct (assemble_result_outcome _ _ _ _ _ _ _ _ Hrun)
    as (_ & result & ->).
  exact I.
Qed.

(** A run none of whose calls escapes returns. *)
Lemma build_returns
    (o : outcome GuidanceResult.t) (log : list (Call DangerZone)) :
  run (build_evacuation_guidance env latitude longitude) = (o, log) ->
  (forall entry, In entry log -> ~ escapes env entry) ->
  exists result, o = Returned result.
Proof.
  intros Hrun Hcalm. pose proof (build_failed _ _ Hrun) as Hfailed.
  destruct o as [result | exc | exc].
  - exists result. reflexivity.
  - destruct Hfailed
      as (fires & zones & closest & level & ws1 & log1 & safe & ws2 & log2
          & _ & _ & -> & Hcov).
    exfalso.
    apply (Hcalm (CallEstimateCoverage latitude longitude zones)).
    + apply in_app_iff. right. left. reflexivity.
    + right. exists exc. exact Hcov.
  - destruct Hfailed as (before & entry & -> & Hentry).
    exfalso. apply (Hcalm entry).
    + apply in_app_iff. right. left. reflexivity.
    + left. exists exc. exact Hentry.
Qed.


(** Once the risk stage has returned, the directory is called with the
    danger zones that the stage returned, however the run ends. *)
Lemma build_continues
    (fires : list Fire.t) (danger_zones : list DangerZone)
    (closest_fire_km : option R) (alert_level : alert_value)
    (warnings1 : list string) (log1 : list (Call DangerZone))
    (o : outcome GuidanceResult.t) (log : list (Call DangerZone)) :
  risk_stage env latitude longitude [] []
  = (Returned (fires, danger_zones, closest_fire_km, alert_level,
               warnings1), log1) ->
  run (build_evacuation_guidance env latitude longitude) = (o, log) ->
  exists rest,
    log = (log1 ++ CallFetchSafePlaces latitude longitude 20 danger_zones
                :: rest)%list.
Proof.
  unfold run, build_evacuation_guidance. intros H1 Hrun.
  apply bind_cases in Hrun
    as [(a & l1 & H1' & Hrun) | [(e & H1' & _) | (e & H1' & _)]];
    rewrite H1 in H1'; try discriminate.
  injection H1' as <- <-.
  assert (Hstep : forall log2 (tail : list (Call DangerZone)),
             log2 = (log1 ++ [CallFetchSafePlaces latitude longitude 20
                                                  danger_zones])%list ->
             exists rest,
               (log2 ++ tail
                = log1 ++ CallFetchSafePlaces latitude longitude 20
                                              danger_zones :: rest)%list).
  { intros log2 tail ->. exists tail. rewrite <- app_assoc. reflexivity. }
  apply bind_cases in Hrun
    as [([safe ws2] & log2 & H2 & Hrun) | [(e & H2 & _) | (e & H2 & _)]];
    pose proof (safe_place_stage_log _ _ _ _ _ _ _ _ H2) as Hlog2.
  2,3: rewrite <- (app_nil_r log); apply Hstep; exact Hlog2.
  apply bind_cases in Hrun
    as [(ws3 & log3 & H3 & Hrun) | [(e & H3 & _) | (e & H3 & _)]];
    pose proof (coverage_stage_log _ _ _ _ _ _ _ _ H3) as Hlog3.
  2,3: rewrite Hlog3; apply Hstep; exact Hlog2.
  apply bind_cases in Hrun
    as [([[route destination] ws4] & log4 & H4 & Hrun)
       | [(e & H4 & _) | (e & H4 & _)]];
    destruct (routing_stage_log _ _ _ _ _ _ _ _ _ H4) as (calls & Hlog4).
  2,3: rewrite Hlog4, Hlog3, <- app_assoc; apply Hstep; exact Hlog2.
  destruct (assemble_result_outcome _ _ _ _ _ _ _ _ Hrun) as (-> & _).
  rewrite Hlog4, Hlog3, <- app_assoc. apply Hstep. exact Hlog2.
Qed.

Lemma in_append {A : Type} (x y : A) (xs : list A) :
  In x (Py.append xs y) <-> In x xs \/ x = y.
Proof.
  unfold Py.append. rewrite in_app_iff. simpl. intuition congruence.
Qed.







Lemma grows_refl (warnings : list string) (log : list (Call DangerZone)) :
  grows warnings warnings log log.
Proof. repeat split; auto. Qed.

Lemma grows_report
    (warnings : list string) (log calls : list (Call DangerZone))
    (prefix exc : string) :
  prefix ++ exc <> degraded_coverage_warning ->
  grows warnings (Py.append warnings (prefix ++ exc)) log (log ++ calls).
Proof.
  intros Hne. repeat split.
  - intros warning Hw. apply in_append. left. exact Hw.
  - intros entry Hin. apply in_app_iff. left. exact Hin.
  - intros Hin. apply in_append in Hin as [Hin | Heq]; [exact Hin |].
    symmetry in Heq. contradiction.
Qed.

Lemma grows_log
    (warnings : list string) (log calls : list (Call DangerZone)) :
  grows warnings warnings log (log ++ calls).
Proof.
  repeat split; auto. intros entry Hin. apply in_app_iff. left. exact Hin.
Qed.

Lemma risk_stage_grows
    (warnings : list string) (log : list (Call DangerZone))
    (fires : list Fire.t) (danger_zones : list DangerZone)
    (closest_fire_km : option R) (alert_level : alert_value)
    (warnings' : list string) (log' : list (Call DangerZone)) :
  risk_stage env latitude longitude warnings log
  = (Returned (fires, danger_zones, closest_fire_km, alert_level,
               warnings'), log') ->
  grows warnings warnings' log log'.
Proof.
  intros Hrun.
  apply risk_stage_inv in Hrun
    as [(level & _ & _ & _ & _ & _ & -> & ->)
       | (exc & calls & _ & _ & _ & _ & _ & -> & -> & _)].
  - apply grows_log.
  - apply grows_report. discriminate.
Qed.

Lemma safe_place_stage_grows
    (danger_zones : list DangerZone) (warnings : list string)
    (log : list (Call DangerZone)) (safe_places : list SafePlace.t)
    (warnings' : list string) (log' : list (Call DangerZone)) :
  safe_place_stage env latitude longitude danger_zones warnings log
  = (Returned (safe_places, warnings'), log') ->
  grows warnings warnings' log log'.
Proof.
  intros Hrun.
  apply safe_place_stage_inv in Hrun
    as [-> [(places & _ & _ & ->) | (exc & _ & _ & ->)]].
  - apply grows_log.
  - apply grows_report. discriminate.
Qed.

Lemma routing_stage_grows
    (safe_places : list SafePlace.t) (danger_zones : list DangerZone)
    (warnings : list string) (log : list (Call DangerZone))
    (route : option Route.t) (destination : option SafePlace.t)
    (warnings' : list string) (log' : list (Call DangerZone)) :
  routing_stage env latitude longitude safe_places danger_zones
                warnings log
  = (Returned (route, destination, warnings'), log') ->
  grows warnings warnings' log log'.
Proof.
  intros Hrun.
  apply routing_stage_inv in Hrun
    as [(_ & _ & _ & -> & ->)
       | (first & rest & _ & -> &
          [(exc & _ & _ & _ & ->)
          | [(_ & _ & _ & ->) | (found & dest_info & _ & _ & _ & ->)]])].
  - apply grows_refl.
  - apply grows_report. discriminate.
  - apply grows_log.
  - apply grows_log.
Qed.

End Whole.

(** ** Failure isolation *)






Example feed_down_run :
  Exec.run (build_evacuation_guidance feed_down 0 0)
  = (Returned
       {| GuidanceResult.guidance_text :=
            "No nearby fire was detected from the current feed."
            ++ " Warning: Could not fetch fire data: feed timeout."
            ++ no_path_clause;
          GuidanceResult.alert_level := "none";
          GuidanceResult.closest_fire_km := None;
          GuidanceResult.destination_name := None;
          GuidanceResult.destination_direction := None;
          GuidanceResult.destination_distance_km := None;
          GuidanceResult.route_distance_km := None;
          GuidanceResult.route_duration_minutes := None;
          GuidanceResult.route_steps := [];
          GuidanceResult.warnings :=
            ["Could not fetch fire data: feed timeout"] |},
     [ CallFetchFires 0 0 50;
       CallFetchSafePlaces 0 0 20 [];
       CallEstimateCoverage 0 0 [] ]).
Proof. reflexivity. Qed.

(** In the run with the fire feed down no call escapes. *)
Lemma feed_down_calm (entry : Call unit) :
  In entry [ CallFetchFires 0 0 50;
             CallFetchSafePlaces 0 0 20 [];
             CallEstimateCoverage 0 0 [] ] ->
  ~ escapes feed_down entry.
Proof.
  intros Hin [(exc & Hint) | (exc & Hraised)];
    repeat (destruct Hin as [<- | Hin];
            [simpl in *; try discriminate; try contradiction |]);
    destruct Hin.
Qed.


(** C2, as stated, fails.  When the fire feed and the coverage estimator
    both raise, the run ends with the exception of the estimator: there is
    no final result to carry the warning.  And when the fetch of the feed
    is cancelled, the risk stage itself ends with the cancellation. *)
Lemma fire_failure_without_result :
  risk_fails feed_and_coverage_down 0 0 "feed timeout"
  /\ Exec.run (build_evacuation_guidance feed_and_coverage_down 0 0)
     = (Raised "coverage model unavailable",
        [ CallFetchFires 0 0 50;
          CallFetchSafePlaces 0 0 20 [];
          CallEstimateCoverage 0 0 [] ])
  /\ fetch_fires feed_cancelled 0 0 50 = Interrupted ""
  /\ risk_stage feed_cancelled 0 0 [] []
     = (Interrupted "", [CallFetchFires 0 0 50]).
Proof.
  split; [apply Feed_fails; reflexivity |].
  repeat split; reflexivity.
Qed.

(** C2, amended: when the fire-feed fetch or the derivation that follows
    it fails with an [Exception], the risk stage returns the empty fire
    list, no danger zone, no closest distance and the level none, with one
    more warning, about the fire data.  The pipeline goes on with these:
    the directory is called with the empty list of danger zones, however
    the run ends.  The run returns a result when no later call escapes
    the handlers, and a result has alert level none, no closest-fire
    distance and that warning; the coverage estimator was called with the
    empty list of danger zones. *)
Theorem risk_failure_isolated
    {DangerZone : Type} (env : Collaborators DangerZone)
    (latitude longitude : R) (exc : string) :
  risk_fails env latitude longitude exc ->
  (forall warnings log,
      exists calls,
        risk_stage env latitude longitude warnings log
        = (Returned ([], [], None, AlertStr "none",
                     (warnings
                      ++ [("Could not fetch fire data: " ++ exc)%string])
                     %list),
           (log ++ calls)%list))
  /\ forall o log,
       Exec.run (build_evacuation_guidance env latitude longitude)
       = (o, log) ->
       In (CallFetchSafePlaces latitude longitude 20 []) log
       /\ ((forall entry, In entry log -> ~ escapes env entry) ->
           exists result, o = Returned result)
       /\ (forall result,
             o = Returned result ->
             GuidanceResult.alert_level result = "none"
             /\ GuidanceResult.closest_fire_km result = None
             /\ In ("Could not fetch fire data: " ++ exc)
                   (GuidanceResult.warnings result)
             /\ In (CallEstimateCoverage latitude longitude []) log).
Proof.
  intros Hfail. split.
  { intros warnings log.
    destruct (risk_stage_failure env latitude longitude warnings log exc
                                 Hfail) as (calls & Heq & _).
    exists calls. exact Heq. }
  intros o log Hrun.
  destruct (risk_stage_failure env latitude longitude [] [] exc Hfail)
    as (calls & Heq & _).
  split.
  { destruct (build_continues env latitude longitude _ _ _ _ _ _ _ _
                              Heq Hrun) as (rest & ->).
    apply in_app_iff. right. left. reflexivity. }
  split; [apply (build_returns env latitude longitude o log Hrun) |].
  intros result ->.
  apply build_pipeline in Hrun
    as (zones & safe & route & destination & Hrun).
  destruct Hrun as [fires zones closest level safe route destination
                      ws1 ws2 ws3 ws4 log1 log2 log3 log4 result
                      H1 H2 H3 H4 H5].
  rewrite Heq in H1. injection H1 as <- <- <- <- <- <-.
  destruct (assemble_result_returns
              latitude longitude None (AlertStr "none") route destination
              ws4 log4) as (direction & Hres & _).
  rewrite Hres in H5. injection H5 as <-. simpl.
  pose proof (safe_place_stage_grows _ _ _ _ _ _ _ _ _ H2)
    as (Hw2 & _ & _).
  apply safe_place_stage_inv in H2 as [-> _].
  apply coverage_stage_inv in H3 as (coverage & Hc & -> & ->).
  pose proof (routing_stage_grows _ _ _ _ _ _ _ _ _ _ _ H4)
    as (Hw4 & Hl4 & _).
  repeat split.
  - apply Hw4.
    assert (Hin : In ("Could not fetch fire data: " ++ exc) ws2).
    { apply Hw2. apply in_append. right. reflexivity. }
    destruct (Coverage.get_has_coverage coverage); [exact Hin |].
    apply in_append. left. exact Hin.
  - apply Hl4. apply in_app_iff. right. left. reflexivity.
Qed.

Lemma risk_failure_isolated_witness :
  (forall warnings log,
      exists calls,
        risk_stage feed_down 0 0 warnings log
        = (Returned ([], [], None, AlertStr "none",
                     (warnings
                      ++ ["Could not fetch fire data: feed timeout"])%list),
           (log ++ calls)%list))
  /\ exists result log,
       Exec.run (build_evacuation_guidance feed_down 0 0)
       = (Returned result, log)
       /\ GuidanceResult.alert_level result = "none"
       /\ GuidanceResult.closest_fire_km result = None
       /\ In "Could not fetch fire data: feed timeout"
             (GuidanceResult.warnings result)
       /\ In (CallFetchSafePlaces 0 0 20 []) log
       /\ In (CallEstimateCoverage 0 0 []) log.
Proof.
  destruct (risk_failure_isolated feed_down 0 0 "feed timeout")
    as [Hstage Hwhole].
  - apply Feed_fails. reflexivity.
  - split; [exact Hstage |].
    destruct (Hwhole _ _ feed_down_run) as (Hdirectory & Hreturns & Hresult).
    destruct (Hreturns feed_down_calm) as (result & Heq).
    destruct (Hresult result Heq) as (Hlevel & Hclosest & Hwarning & Hcov).
    exists result. eexists.
    split; [rewrite <- Heq; exact feed_down_run |].
    auto 6.
Defined.

Lemma get_has_coverage_false (coverage : Coverage.t) :
  Coverage.get_has_coverage coverage = false
  <-> Coverage.has_coverage coverage <> Some true.
Proof.
  unfold Coverage.get_has_coverage.
  destruct (Coverage.has_coverage coverage) as [[|] |]; split;
    congruence.
Qed.

(** C8, as stated, fails: when the coverage estimator raises, the
    coverage stage ends with that exception, and so does the whole run,
    at the call of this stage. *)
Lemma coverage_stage_fails_request :
  estimate_coverage_simple coverage_down 0 0 []
  = Raised "coverage model unavailable"
  /\ coverage_stage coverage_down 0 0 [] []
                    [ CallFetchFires 0 0 50;
                      CallCreateDangerZones [];
                      CallDetermineAlertLevel None 0;
                      CallFetchSafePlaces 0 0 20 [] ]
     = (Raised "coverage model unavailable",
        [ CallFetchFires 0 0 50;
          CallCreateDangerZones [];
          CallDetermineAlertLevel None 0;
          CallFetchSafePlaces 0 0 20 [];
          CallEstimateCoverage 0 0 [] ])
  /\ Exec.run (build_evacuation_guidance coverage_down 0 0)
     = (Raised "coverage model unavailable",
        [ CallFetchFires 0 0 50;
          CallCreateDangerZones [];
          CallDetermineAlertLevel None 0;
          CallFetchSafePlaces 0 0 20 [];
          CallEstimateCoverage 0 0 [] ]).
Proof. repeat split; reflexivity. Qed.

(** C8, amended: for every estimate that the coverage estimator returns,
    the coverage stage returns, with the fixed warning added at the end of
    the warnings exactly when the estimate does not say that there is
    coverage, and nothing else changed; in every result of the pipeline
    that warning is present exactly in that case.  The stage has no
    failure of its own: it ends with an exception only when the estimator
    raised it. *)
Theorem coverage_warning_exactly
    {DangerZone : Type} (env : Collaborators DangerZone)
    (latitude longitude : R) :
  (forall danger_zones warnings log coverage,
      estimate_coverage_simple env latitude longitude danger_zones
      = Returned coverage ->
      coverage_stage env latitude longitude danger_zones warnings log
      = (Returned (if Coverage.get_has_coverage coverage
                   then warnings
                   else (warnings
                         ++ ["Cell coverage may be degraded in your area"])
                        %list),
         (log ++ [CallEstimateCoverage latitude longitude
                                       danger_zones])%list))
  /\ (forall result log,
        Exec.run (build_evacuation_guidance env latitude longitude)
        = (Returned result, log) ->
        exists danger_zones coverage,
          In (CallEstimateCoverage latitude longitude danger_zones) log
          /\ estimate_coverage_simple env latitude longitude danger_zones
             = Returned coverage
          /\ (In "Cell coverage may be degraded in your area"
                 (GuidanceResult.warnings result)
              <-> Coverage.has_coverage coverage <> Some true))
  /\ (forall danger_zones warnings log exc log',
        (coverage_stage env latitude longitude danger_zones warnings log
         = (Raised exc, log') ->
         estimate_coverage_simple env latitude longitude danger_zones
         = Raised exc)
        /\ (coverage_stage env latitude longitude danger_zones warnings log
            = (Interrupted exc, log') ->
            estimate_coverage_simple env latitude longitude danger_zones
            = Interrupted exc)).
Proof.
  split.
  { intros danger_zones warnings log coverage Hc.
    apply (coverage_stage_returned env latitude longitude
             danger_zones warnings log coverage Hc). }
  split; cycle 1.
  { intros danger_zones warnings log exc log'.
    apply coverage_stage_failed. }
  intros result log Hrun.
  apply build_pipeline in Hrun
    as (zones & safe & route & destination & Hrun).
  destruct Hrun as [fires zones closest level safe route destination
                      ws1 ws2 ws3 ws4 log1 log2 log3 log4 result
                      H1 H2 H3 H4 H5].
  destruct (assemble_result_returns
              latitude longitude closest level route destination ws4 log4)
    as (direction & Hres & _).
  rewrite Hres in H5. injection H5 as <-.
  pose proof (risk_stage_grows _ _ _ _ _ _ _ _ _ _ _ H1) as (_ & _ & Hd1).
  pose proof (safe_place_stage_grows _ _ _ _ _ _ _ _ _ H2)
    as (_ & _ & Hd2).
  pose proof (routing_stage_grows _ _ _ _ _ _ _ _ _ _ _ H4)
    as (Hw4 & Hl4 & Hd4).
  apply coverage_stage_inv in H3 as (coverage & Hc & -> & ->).
  exists zones, coverage.
  split; [apply Hl4; apply in_app_iff; right; left; reflexivity |].
  split; [exact Hc |].
  simpl. rewrite <- get_has_coverage_false.
  change "Cell coverage may be degraded in your area"
    with degraded_coverage_warning.
  split.
  - intros Hin. apply Hd4 in Hin.
    destruct (Coverage.get_has_coverage coverage); [| reflexivity].
    apply Hd2, Hd1 in Hin. destruct Hin.
  - intros Hno. apply Hw4. rewrite Hno.
    apply in_append. right. reflexivity.
Qed.

Example no_signal_run :
  Exec.run (build_evacuation_guidance no_signal 0 0)
  = (Returned
       {| GuidanceResult.guidance_text :=
            "No nearby fire was detected from the current feed."
            ++ " Warning: Cell coverage may be degraded in your area."
            ++ no_path_clause;
          GuidanceResult.alert_level := "none";
          GuidanceResult.closest_fire_km := None;
          GuidanceResult.destination_name := None;
          GuidanceResult.destination_direction := None;
          GuidanceResult.destination_distance_km := None;
          GuidanceResult.route_distance_km := None;
          GuidanceResult.route_duration_minutes := None;
          GuidanceResult.route_steps := [];
          GuidanceResult.warnings :=
            ["Cell coverage may be degraded in your area"] |},
     [ CallFetchFires 0 0 50;
       CallCreateDangerZones [];
       CallDetermineAlertLevel None 0;
       CallFetchSafePlaces 0 0 20 [];
       CallEstimateCoverage 0 0 [] ]).
Proof. reflexivity. Qed.

Example no_estimate_key_stage :
  coverage_stage no_estimate_key 0 0 [] ["earlier"] []
  = (Returned ["earlier"; "Cell coverage may be degraded in your area"],
     [CallEstimateCoverage 0 0 []]).
Proof. reflexivity. Qed.

Lemma coverage_warning_exactly_witness :
  coverage_stage no_signal 0 0 [] ["earlier"] []
  = (Returned ["earlier"; "Cell coverage may be degraded in your area"],
     [CallEstimateCoverage 0 0 []])
  /\ exists result log,
       Exec.run (build_evacuation_guidance no_signal 0 0)
       = (Returned result, log)
       /\ In "Cell coverage may be degraded in your area"
             (GuidanceResult.warnings result).
Proof.
  destruct (coverage_warning_exactly no_signal 0 0)
    as (Hstage & Hresult & _).
  split.
  - apply (Hstage [] ["earlier"] []
                  {| Coverage.has_coverage := Some false |}).
    reflexivity.
  - destruct (Hresult _ _ no_signal_run)
      as (danger_zones & coverage & _ & Hcoverage & Hwarning).
    eexists. eexists. split; [exact no_signal_run |].
    apply Hwarning. simpl in Hcoverage.
    injection Hcoverage as <-. discriminate.
Defined.

(** ** Safe places, routing and the destination *)

Lemma filter_kept_in_order {A : Type} (keep : A -> bool) (all : list A) :
  kept_in_order keep all (filter keep all).
Proof.
  induction all as [| x all IH]; simpl.
  - apply Kept_nil.
  - destruct (keep x) eqn:Hkeep.
    + apply Kept_keep; assumption.
    + apply Kept_drop; assumption.
Qed.

Lemma kept_in_order_filter {A : Type} (keep : A -> bool)
    (all kept : list A) :
  kept_in_order keep all kept -> kept = filter keep all.
Proof.
  induction 1 as [| x all kept Hkeep _ IH | x all kept Hkeep _ IH];
    simpl; try rewrite Hkeep; congruence.
Qed.

Lemma not_flagged_iff (place : SafePlace.t) :
  not_flagged place = true <-> SafePlace.is_in_danger_zone place = false.
Proof.
  unfold not_flagged. destruct (SafePlace.is_in_danger_zone place);
    simpl; split; congruence.
Qed.

(** C6, as stated, fails: when the call to the directory is cancelled
    while it is awaited, the safe-place stage ends with the cancellation,
    which its handler does not catch, and so does the whole run. *)
Lemma directory_cancellation_propagates :
  fetch_safe_places directory_cancelled 0 0 20 [] = Interrupted ""
  /\ safe_place_stage directory_cancelled 0 0 [] [] []
     = (Interrupted "", [CallFetchSafePlaces 0 0 20 []])
  /\ Exec.run (build_evacuation_guidance directory_cancelled 0 0)
     = (Interrupted "",
        [ CallFetchFires 0 0 50;
          CallCreateDangerZones [];
          CallDetermineAlertLevel None 0;
          CallFetchSafePlaces 0 0 20 [] ]).
Proof. repeat split; reflexivity. Qed.

(** C6, amended: when the directory returns places, the safe-place stage
    returns exactly those not flagged as inside a danger zone, in their
    original order, and leaves the warnings as they were; when the
    directory call fails with an [Exception], the stage returns the empty
    list and the warnings with one more at their end, which names the
    failure, and does not raise; what is not an [Exception] passes
    through the stage. *)
Theorem safe_place_stage_filters
    {DangerZone : Type} (env : Collaborators DangerZone)
    (latitude longitude : R) (danger_zones : list DangerZone)
    (warnings : list string) (log : list (Call DangerZone)) :
  (forall places,
      fetch_safe_places env latitude longitude 20 danger_zones
      = Returned places ->
      exists safe_places,
        safe_place_stage env latitude longitude danger_zones warnings log
        = (Returned (safe_places, warnings),
           (log ++ [CallFetchSafePlaces latitude longitude 20
                                        danger_zones])%list)
        /\ kept_in_order
             (fun place => negb (SafePlace.is_in_danger_zone place))
             places safe_places
        /\ (forall other,
              kept_in_order
                (fun place => negb (SafePlace.is_in_danger_zone place))
                places other ->
              other = safe_places)
        /\ (forall place,
              In place safe_places
              <-> In place places
                  /\ SafePlace.is_in_danger_zone place = false))
  /\ (forall exc,
        fetch_safe_places env latitude longitude 20 danger_zones
        = Raised exc ->
        exists warnings',
          safe_place_stage env latitude longitude danger_zones warnings log
          = (Returned ([], warnings'),
             (log ++ [CallFetchSafePlaces latitude longitude 20
                                          danger_zones])%list)
          /\ warnings'
             = (warnings
                ++ [("Could not fetch safe places: " ++ exc)%string])%list
          /\ In ("Could not fetch safe places: " ++ exc) warnings'
          /\ List.length warnings' = S (List.length warnings))
  /\ (forall exc,
        fetch_safe_places env latitude longitude 20 danger_zones
        = Interrupted exc ->
        safe_place_stage env latitude longitude danger_zones warnings log
        = (Interrupted exc,
           (log ++ [CallFetchSafePlaces latitude longitude 20
                                        danger_zones])%list)).
Proof.
  split; [| split].
  - intros places Hfetch. exists (filter not_flagged places).
    split; [apply safe_place_stage_returned; exact Hfetch |].
    split; [apply (filter_kept_in_order not_flagged) |].
    split; [intros other Hother;
            apply (kept_in_order_filter not_flagged); exact Hother |].
    intros place. rewrite filter_In, not_flagged_iff. reflexivity.
  - intros exc Hfetch. eexists.
    split; [apply safe_place_stage_raised; exact Hfetch |].
    split; [reflexivity |]. split.
    + apply in_append. right. reflexivity.
    + unfold Py.append. rewrite length_app. simpl. lia.
  - intros exc Hfetch. apply safe_place_stage_interrupted. exact Hfetch.
Qed.

Lemma safe_place_stage_filters_witness :
  (exists safe_places,
      safe_place_stage with_places 0 0 [] [] []
      = (Returned (safe_places, []), [CallFetchSafePlaces 0 0 20 []])
      /\ kept_in_order
           (fun place => negb (SafePlace.is_in_danger_zone place))
           [depot; hall; school] safe_places
      /\ (forall other,
            kept_in_order
              (fun place => negb (SafePlace.is_in_danger_zone place))
              [depot; hall; school] other ->
            other = safe_places)
      /\ (forall place,
            In place safe_places
            <-> In place [depot; hall; school]
                /\ SafePlace.is_in_danger_zone place = false))
  /\ (exists warnings',
         safe_place_stage directory_down 0 0 [] ["earlier"] []
         = (Returned ([], warnings'), [CallFetchSafePlaces 0 0 20 []])
         /\ warnings'
            = ["earlier"; "Could not fetch safe places: directory offline"]
         /\ In "Could not fetch safe places: directory offline" warnings'
         /\ List.length warnings' = 2%nat).
Proof.
  split.
  - apply (proj1 (safe_place_stage_filters with_places 0 0 [] [] [])).
    reflexivity.
  - apply (proj1 (proj2 (safe_place_stage_filters
                           directory_down 0 0 [] ["earlier"] []))
                 "directory offline").
    reflexivity.
Defined.

Example safe_place_stage_with_places :
  safe_place_stage with_places 0 0 [] [] []
  = (Returned ([hall; school], []), [CallFetchSafePlaces 0 0 20 []]).
Proof. reflexivity. Qed.

Lemma in_firstn {A : Type} (n : nat) (x : A) (xs : list A) :
  In x (firstn n xs) -> In x xs.
Proof.
  intros Hin. rewrite <- (firstn_skipn n xs).
  apply in_app_iff. left. exact Hin.
Qed.


(** ** A complete run *)

Lemma format_1f_IZR (n : Z) :
  (0 <= n)%Z -> Py.format_1f (IZR n) = Py.digits n ++ ".0".
Proof.
  intros Hn. unfold Py.format_1f, Py.sign.
  assert (Hpos : (0 <= IZR n)%R) by (apply IZR_le; exact Hn).
  destruct (Rlt_dec (IZR n) 0) as [Hneg | _]; [lra |].
  rewrite Rabs_pos_eq by exact Hpos.
  rewrite <- mult_IZR, round_IZR.
  rewrite Z.div_mul, Z.mod_mul by lia. reflexivity.
Qed.

Lemma format_0f_IZR (n : Z) :
  (0 <= n)%Z -> Py.format_0f (IZR n) = Py.digits n.
Proof.
  intros Hn. unfold Py.format_0f, Py.sign.
  assert (Hpos : (0 <= IZR n)%R) by (apply IZR_le; exact Hn).
  destruct (Rlt_dec (IZR n) 0) as [Hneg | _]; [lra |].
  rewrite Rabs_pos_eq by exact Hpos.
  rewrite round_IZR. reflexivity.
Qed.

Lemma bearing_to_school :
  _bearing_to_cardinal 0 0 (SafePlace.latitude school)
                       (SafePlace.longitude school)
  = Returned "north".
Proof.
  simpl. rewrite bearing_unfold, bearing_angle_meridian, atan2_0_pos.
  - apply sector_north.
  - apply sin_radians_pos. lra.
Qed.

(** The run of the example: the fire is close, the router prefers the
    school to the nearer hall, and the summary keeps the first three steps
    that have a text. *)
Lemma evacuation_pipeline :
  pipeline evacuation 0 0 [tt] [hall; school] (Some mill_road)
           (Some school) evacuation_result evacuation_log.
Proof.
  eapply Pipeline_run; try reflexivity.
  unfold assemble_result, Exec.bind, Exec.lift, Exec.ret.
  rewrite bearing_to_school.
  unfold evacuation_result. f_equal. f_equal.
  unfold _build_guidance_text, _build_instruction_text. simpl.
  rewrite (format_1f_IZR 5), (format_1f_IZR 12), (format_0f_IZR 15) by lia.
  reflexivity.
Qed.

Example evacuation_run :
  Exec.run (build_evacuation_guidance evacuation 0 0)
  = (Returned evacuation_result, evacuation_log).
Proof. apply build_pipeline. do 4 eexists. apply evacuation_pipeline. Qed.

(** Without a route the straight-line distance of the first candidate is
    what the text gives. *)
Example router_down_run :
  Exec.run (build_evacuation_guidance router_down 0 0)
  = (Returned
       {| GuidanceResult.guidance_text :=
            "No nearby fire was detected from the current feed."
            ++ " Warning: Could not calculate route: no path."
            ++ " Head toward the north to reach Town Hall"
            ++ " for about 10.0 kilometers.";
          GuidanceResult.alert_level := "none";
          GuidanceResult.closest_fire_km := None;
          GuidanceResult.destination_name := Some "Town Hall";
          GuidanceResult.destination_direction := Some "north";
          GuidanceResult.destination_distance_km := Some 10%R;
          GuidanceResult.route_distance_km := None;
          GuidanceResult.route_duration_minutes := None;
          GuidanceResult.route_steps := [];
          GuidanceResult.warnings := ["Could not calculate route: no path"] |},
     [ CallFetchFires 0 0 50;
       CallCreateDangerZones [];
       CallDetermineAlertLevel None 0;
       CallFetchSafePlaces 0 0 20 [];
       CallEstimateCoverage 0 0 [];
       CallGetRoute 0 0 [destination_of hall; destination_of school] [] ]).
Proof.
  apply build_pipeline. exists [], [hall; school], None, (Some hall).
  eapply Pipeline_run; try reflexivity.
  unfold assemble_result, Exec.bind, Exec.lift, Exec.ret.
  replace (_bearing_to_cardinal 0 0 (SafePlace.latitude hall)
                                (SafePlace.longitude hall))
    with (Returned (A := string) "north").
  - f_equal. f_equal.
    unfold _build_guidance_text, _build_instruction_text. simpl.
    rewrite (format_1f_IZR 10) by lia. reflexivity.
  - symmetry. simpl.
    rewrite bearing_unfold, bearing_angle_meridian, atan2_0_pos.
    + apply sector_north.
    + apply sin_radians_pos. lra.
Qed.


Lemma routing_stage_choice
    {DangerZone : Type} (env : Collaborators DangerZone)
    (latitude longitude : R)
    (safe_places : list SafePlace.t) (danger_zones : list DangerZone)
    (warnings : list string) (log : list (Call DangerZone))
    (route : option Route.t) (destination : option SafePlace.t)
    (warnings' : list string) (log' : list (Call DangerZone)) :
  routing_stage env latitude longitude safe_places danger_zones
                warnings log
  = (Returned (route, destination, warnings'), log') ->
  (forall place, destination = Some place -> In place safe_places)
  /\ (destination = None <-> safe_places = [])
  /\ (forall found dest_info,
        get_route_to_nearest_safe_place
          env latitude longitude
          (map destination_of (firstn 5 safe_places)) danger_zones
        = Returned (Some (found, dest_info)) ->
        (forall place,
            In place safe_places ->
            SafePlace.id place <> Destination.id dest_info) ->
        destination = hd_error safe_places).
Proof.
  intros Hrun.
  apply routing_stage_inv in Hrun
    as [(-> & _ & -> & _ & _)
       | (first & rest & -> & _ &
          [(exc & Hroute & _ & -> & _)
          | [(Hroute & _ & -> & _)
            | (found & dest_info & Hroute & _ & -> & _)]])].
  - split; [discriminate |]. split; [tauto |]. reflexivity.
  - split; [intros place [= <-]; left; reflexivity |].
    split; [split; discriminate |]. reflexivity.
  - split; [intros place [= <-]; left; reflexivity |].
    split; [split; discriminate |]. reflexivity.
  - destruct (next_by_id_cases (first :: rest) (Destination.id dest_info)
                               (Some first))
      as [(place & Hnext & Hin & Hid) | (Hnext & Hnone)];
      rewrite Hnext.
    + split; [intros chosen [= <-]; exact Hin |].
      split; [split; discriminate |].
      intros found' dest_info' Hfound Hnone.
      rewrite Hroute in Hfound. injection Hfound as _ <-.
      elim (Hnone place Hin Hid).
    + split; [intros chosen [= <-]; left; reflexivity |].
      split; [split; discriminate |]. reflexivity.
Qed.

(** C10: in every run of [build_evacuation_guidance] that returns, a
    destination, when there is one, is a place of the filtered safe-place
    list, hence a place not flagged as inside a danger zone; there is one
    exactly when that list is not empty; and when the router returns a
    chosen identifier that no place of the list carries, the destination is
    the first place of the list.  The name and distance of the result are
    those of that destination. *)
Theorem destination_among_safe_places
    {DangerZone : Type} (env : Collaborators DangerZone)
    (latitude longitude : R) (result : GuidanceResult.t)
    (log : list (Call DangerZone)) :
  Exec.run (build_evacuation_guidance env latitude longitude)
  = (Returned result, log) ->
  exists danger_zones safe_places route destination,
    pipeline env latitude longitude danger_zones safe_places route
             destination result log
    /\ (forall place,
          destination = Some place ->
          In place safe_places
          /\ SafePlace.is_in_danger_zone place = false)
    /\ (destination = None <-> safe_places = [])
    /\ (forall found dest_info,
          get_route_to_nearest_safe_place
            env latitude longitude
            (map destination_of (firstn 5 safe_places)) danger_zones
          = Returned (Some (found, dest_info)) ->
          (forall place,
              In place safe_places ->
              SafePlace.id place <> Destination.id dest_info) ->
          destination = hd_error safe_places)
    /\ GuidanceResult.destination_name result
       = option_map SafePlace.name destination
    /\ GuidanceResult.destination_distance_km result
       = option_map SafePlace.distance_km destination.
Proof.
  intros Hrun.
  apply build_pipeline in Hrun
    as (danger_zones & safe_places & route & destination & Hrun).
  exists danger_zones, safe_places, route, destination.
  split; [exact Hrun |].
  destruct Hrun as [fires zones closest level safe route destination
                      ws1 ws2 ws3 ws4 log1 log2 log3 log4 result
                      H1 H2 H3 H4 H5].
  destruct (assemble_result_returns
              latitude longitude closest level route destination ws4 log4)
    as (direction & Hres & _).
  rewrite Hres in H5. injection H5 as <-. simpl.
  assert (Hsafe : forall place,
             In place safe -> SafePlace.is_in_danger_zone place = false).
  { apply safe_place_stage_inv in H2
      as [_ [(places & _ & -> & _) | (exc & _ & -> & _)]].
    - intros place Hin. apply filter_In in Hin as [_ Hkeep].
      apply not_flagged_iff. exact Hkeep.
    - intros place []. }
  destruct (routing_stage_choice _ _ _ _ _ _ _ _ _ _ _ H4)
    as (Hmember & Hnone & Hdefault).
  split.
  { intros place Hdest. split; [| apply Hsafe]; apply Hmember, Hdest. }
  split; [exact Hnone |].
  split; [exact Hdefault |].
  split; reflexivity.
Qed.

Lemma destination_among_safe_places_witness :
  exists safe_places destination,
    (forall place,
        destination = Some place ->
        In place safe_places
        /\ SafePlace.is_in_danger_zone place = false)
    /\ GuidanceResult.destination_name evacuation_result
       = option_map SafePlace.name destination.
Proof.
  destruct (destination_among_safe_places
              evacuation 0 0 evacuation_result evacuation_log
              evacuation_run)
    as (danger_zones & safe_places & route & destination & _
        & Hmember & _ & _ & Hname & _).
  exists safe_places, destination.
  split; [exact Hmember | exact Hname].
Defined.

(** ** Step summaries *)

Lemma truthy_nonempty (text : string) :
  Py.truthy text = negb (text =? "").
Proof. destruct text; reflexivity. Qed.

(** C5: in every run of [build_evacuation_guidance] that returns, the
    step summaries of the result are at most three and none of them is
    empty.  With a route, which is then the one the router returned, they
    are the first three of its instructions that are not empty, in order;
    without a route there is none. *)
Theorem route_steps_summary
    {DangerZone : Type} (env : Collaborators DangerZone)
    (latitude longitude : R) (result : GuidanceResult.t)
    (log : list (Call DangerZone)) :
  Exec.run (build_evacuation_guidance env latitude longitude)
  = (Returned result, log) ->
  (List.length (GuidanceResult.route_steps result) <= 3)%nat
  /\ ~ In "" (GuidanceResult.route_steps result)
  /\ exists danger_zones safe_places route destination,
       pipeline env latitude longitude danger_zones safe_places route
                destination result log
       /\ match route with
          | Some found =>
              (exists dest_info,
                  get_route_to_nearest_safe_place
                    env latitude longitude
                    (map destination_of (firstn 5 safe_places))
                    danger_zones
                  = Returned (Some (found, dest_info)))
              /\ exists instructions,
                   kept_in_order (fun text => negb (text =? ""))
                                 (map Step.instruction (Route.steps found))
                                 instructions
                   /\ GuidanceResult.route_steps result
                      = firstn 3 instructions
          | None =>
              GuidanceResult.route_steps result = []
              /\ GuidanceResult.route_distance_km result = None
          end.
Proof.
  intros Hrun.
  apply build_pipeline in Hrun
    as (danger_zones & safe_places & route & destination & Hrun).
  pose proof Hrun as Hpipeline.
  destruct Hrun as [fires zones closest level safe route destination
                      ws1 ws2 ws3 ws4 log1 log2 log3 log4 result
                      H1 H2 H3 H4 H5].
  destruct (assemble_result_steps _ _ _ _ _ _ _ _ _ _ H5) as (Hsteps & Hkm).
  rewrite Hsteps.
  split; [apply firstn_le_length |].
  split.
  { intros Hin. apply in_firstn in Hin.
    destruct route as [found |]; cbn [instructions_of] in Hin;
      [| exact Hin].
    apply filter_In in Hin as [_ Htruthy]. discriminate. }
  exists zones, safe, route, destination.
  split; [exact Hpipeline |].
  rewrite Hkm.
  destruct route as [found |].
  - split.
    + apply routing_stage_inv in H4
        as [(_ & Hnone & _)
           | (first & rest & _ & _ &
              [(exc & _ & Hnone & _)
              | [(_ & Hnone & _)
                | (found' & dest_info & Hroute & Hfound & _)]])];
        try discriminate.
      injection Hfound as ->. exists dest_info. exact Hroute.
    + exists (filter Py.truthy (map Step.instruction (Route.steps found))).
      split; [| reflexivity].
      rewrite (filter_ext Py.truthy _ truthy_nonempty).
      apply filter_kept_in_order.
  - split; reflexivity.
Qed.

Lemma route_steps_summary_witness :
  (List.length (GuidanceResult.route_steps evacuation_result) <= 3)%nat
  /\ ~ In "" (GuidanceResult.route_steps evacuation_result).
Proof.
  destruct (route_steps_summary
              evacuation 0 0 evacuation_result evacuation_log
              evacuation_run)
    as (Hlength & Hnonempty & _).
  split; [exact Hlength | exact Hnonempty].
Defined.

(** ** More on the text composers *)

(** X1: an alert level that is none of critical, high and medium, whatever
    its spelling, gives the sentence of the level none; critical and high
    give the same sentence. *)
Theorem instruction_text_other_levels
    (alert_level : string) (closest_fire_km : option R)
    (warnings : list string) :
  alert_level <> "critical" -> alert_level <> "high" ->
  alert_level <> "medium" ->
  _build_instruction_text alert_level closest_fire_km warnings
  = _build_instruction_text "none" closest_fire_km warnings
  /\ _build_instruction_text "critical" closest_fire_km warnings
     = _build_instruction_text "high" closest_fire_km warnings.
Proof.
  intros Hc Hh Hm. split; [| reflexivity].
  unfold _build_instruction_text.
  apply eqb_neq in Hc, Hh, Hm. rewrite Hc, Hh, Hm. reflexivity.
Qed.

Lemma instruction_text_other_levels_witness :
  _build_instruction_text "HIGH" None ["w"]
  = _build_instruction_text "none" None ["w"].
Proof.
  apply (instruction_text_other_levels "HIGH" None ["w"]); discriminate.
Defined.

(** X2: the route distance and duration are used only together: when one
    of them is missing the text is the one written without any route
    figure, with the straight-line distance of the destination. *)
Theorem guidance_text_route_figures
    (destination_name destination_direction : option string)
    (destination_distance_km route_distance_km route_duration_minutes
       : option R)
    (route_steps : list string) (alert_level : string)
    (closest_fire_km : option R) (warnings : list string) :
  route_distance_km = None \/ route_duration_minutes = None ->
  _build_guidance_text
    destination_name destination_direction destination_distance_km
    route_distance_km route_duration_minutes route_steps
    alert_level closest_fire_km warnings
  = _build_guidance_text
      destination_name destination_direction destination_distance_km
      None None route_steps alert_level closest_fire_km warnings.
Proof.
  intros [-> | ->]; [reflexivity |].
  unfold _build_guidance_text.
  destruct route_distance_km; reflexivity.
Qed.

Lemma guidance_text_route_figures_witness :
  _build_guidance_text (Some "Hall") (Some "north") (Some 3%R)
                       (Some 4%R) None [] "low" None []
  = _build_guidance_text (Some "Hall") (Some "north") (Some 3%R)
                         None None [] "low" None [].
Proof.
  apply (guidance_text_route_figures
           (Some "Hall") (Some "north") (Some 3%R) (Some 4%R) None
           [] "low" None []).
  right. reflexivity.
Defined.

(** X3: the text depends on the step list only through its first three
    entries: steps after the third never reach the text. *)
Theorem guidance_text_first_three_steps
    (destination_name destination_direction : option string)
    (destination_distance_km route_distance_km route_duration_minutes
       : option R)
    (route_steps : list string) (alert_level : string)
    (closest_fire_km : option R) (warnings : list string) :
  _build_guidance_text
    destination_name destination_direction destination_distance_km
    route_distance_km route_duration_minutes route_steps
    alert_level closest_fire_km warnings
  = _build_guidance_text
      destination_name destination_direction destination_distance_km
      route_distance_km route_duration_minutes (firstn 3 route_steps)
      alert_level closest_fire_km warnings.
Proof.
  unfold _build_guidance_text.
  rewrite firstn_firstn.
  destruct route_steps as [| s1 rest]; reflexivity.
Qed.

(** X4: a destination without a usable name, null or empty, is announced
    by its direction alone: both give the same text. *)
Theorem guidance_text_unnamed
    (destination_name destination_direction : option string)
    (destination_distance_km route_distance_km route_duration_minutes
       : option R)
    (route_steps : list string) (alert_level : string)
    (closest_fire_km : option R) (warnings : list string) :
  Py.truthy_opt destination_name = false ->
  _build_guidance_text
    destination_name destination_direction destination_distance_km
    route_distance_km route_duration_minutes route_steps
    alert_level closest_fire_km warnings
  = _build_guidance_text
      None destination_direction destination_distance_km
      route_distance_km route_duration_minutes route_steps
      alert_level closest_fire_km warnings.
Proof.
  intros Hname. unfold _build_guidance_text.
  destruct destination_name as [name |]; [| reflexivity].
  simpl in Hname. rewrite Hname. reflexivity.
Qed.

Lemma guidance_text_unnamed_witness :
  _build_guidance_text (Some "") (Some "north") (Some 3%R)
                       None None [] "low" None []
  = _build_guidance_text None (Some "north") (Some 3%R)
                         None None [] "low" None [].
Proof.
  apply (guidance_text_unnamed
           (Some "") (Some "north") (Some 3%R) None None [] "low" None []).
  reflexivity.
Defined.

(** ** More on the bearing calculator *)

Section BearingEdges.
#[local] Open Scope R_scope.

Lemma atan2_0_0 : Py.atan2 0 0 = 0.
Proof.
  unfold Py.atan2.
  destruct (Rlt_dec 0 0) as [H | _]; [lra | reflexivity].
Qed.

Lemma round_tie (k : Z) :
  Py.round (IZR k + 1 / 2) = if Z.even k then k else (k + 1)%Z.
Proof.
  unfold Py.round.
  rewrite (Zfloor_eq k) by lra.
  destruct (Rlt_dec (IZR k + 1 / 2 - IZR k) (1 / 2)); [lra |].
  destruct (Rlt_dec (1 / 2) (IZR k + 1 / 2 - IZR k)); [lra |].
  reflexivity.
Qed.

(** Halfway between two sectors the even-numbered one, a cardinal
    direction, is chosen. *)
Lemma sector_of_tie (k : Z) :
  (0 <= k < 8)%Z ->
  sector_of ((IZR k + 1 / 2) * (PI / 4))
  = Py.getitem directions ((if Z.even k then k else k + 1) mod 8)%Z.
Proof.
  intros Hk. unfold sector_of.
  pose proof PI_neq0 as Hpi.
  assert (Hk' : 0 <= IZR k <= 7) by (split; apply IZR_le; lia).
  replace (Py.degrees ((IZR k + 1 / 2) * (PI / 4)))
    with ((IZR k + 1 / 2) * 45)
    by (unfold Py.degrees; field; exact Hpi).
  rewrite fmod_shift, fmod_small by lra.
  replace ((IZR k + 1 / 2) * 45 / 45) with (IZR k + 1 / 2) by field.
  rewrite round_tie. reflexivity.
Qed.

(** X5: a destination at the origin itself is reported to the north. *)
Theorem bearing_same_point (latitude longitude : R) :
  _bearing_to_cardinal latitude longitude latitude longitude
  = Returned "north".
Proof.
  rewrite bearing_unfold, bearing_angle_meridian.
  replace (latitude - latitude) with 0 by ring.
  rewrite radians_0, sin_0, atan2_0_0. apply sector_north.
Qed.

(** From the equator towards a place a quarter turn further east, at a
    latitude between the equator and the pole, the initial bearing is the
    complement of that latitude. *)
Lemma bearing_angle_quarter_turn (longitude dest_lat : R) :
  0 < dest_lat < 90 ->
  bearing_angle 0 longitude dest_lat (longitude + 90)
  = Py.radians (90 - dest_lat).
Proof.
  intros [Hlo Hhi]. pose proof PI_RGT_0 as Hpi.
  unfold bearing_angle.
  replace (longitude + 90 - longitude) with 90 by ring.
  replace (Py.radians 90) with (PI / 2) by (unfold Py.radians; field).
  rewrite radians_0, sin_0, cos_0, sin_PI2, cos_PI2.
  assert (Hrange : 0 < Py.radians dest_lat < PI / 2)
    by (unfold Py.radians; split; nra).
  assert (Hsin : 0 < sin (Py.radians dest_lat))
    by (apply sin_gt_0; lra).
  replace (1 * sin (Py.radians dest_lat)
           - 0 * cos (Py.radians dest_lat) * 0)
    with (sin (Py.radians dest_lat)) by ring.
  rewrite Rmult_1_l.
  unfold Py.atan2.
  destruct (Rlt_dec 0 (sin (Py.radians dest_lat))) as [_ | Hn];
    [| contradiction].
  replace (cos (Py.radians dest_lat) / sin (Py.radians dest_lat))
    with (tan (PI / 2 - Py.radians dest_lat))
    by (unfold tan; rewrite sin_shift, cos_shift; reflexivity).
  rewrite atan_tan by lra.
  unfold Py.radians. field.
Qed.

(** X6: from a point on the equator to a place a quarter turn further
    east, the answer is decided by the latitude of the place: north above
    67.5 degrees, north-east between 22.5 and 67.5, east below 22.5; at
    67.5 and at 22.5 exactly, halfway between two answers, it is the
    cardinal one, north and east. *)
Theorem bearing_quarter_turn (longitude dest_lat : R) :
  0 < dest_lat < 90 ->
  _bearing_to_cardinal 0 longitude dest_lat (longitude + 90)
  = Returned (if Rle_dec (135 / 2) dest_lat then "north"
              else if Rlt_dec (45 / 2) dest_lat then "northeast"
              else "east").
Proof.
  intros Hlat. pose proof PI_RGT_0 as Hpi.
  rewrite bearing_unfold, (bearing_angle_quarter_turn _ _ Hlat).
  unfold Py.radians.
  destruct (Rle_dec (135 / 2) dest_lat) as [Hn | Hn].
  - destruct (Req_dec dest_lat (135 / 2)) as [-> | Hne].
    + replace ((90 - 135 / 2) * (PI / 180))
        with ((IZR 0 + 1 / 2) * (PI / 4)) by field.
      rewrite sector_of_tie by lia. reflexivity.
    + rewrite (sector_of_within _ 0); [reflexivity | lia |].
      split; nra.
  - destruct (Rlt_dec (45 / 2) dest_lat) as [Hne | Hne].
    + rewrite (sector_of_within _ 1); [reflexivity | lia |].
      split; nra.
    + destruct (Req_dec dest_lat (45 / 2)) as [-> | Hneq].
      * replace ((90 - 45 / 2) * (PI / 180))
          with ((IZR 1 + 1 / 2) * (PI / 4)) by field.
        rewrite sector_of_tie by lia. reflexivity.
      * rewrite (sector_of_within _ 2); [reflexivity | lia |].
        split; nra.
Qed.

Lemma bearing_quarter_turn_witness :
  _bearing_to_cardinal 0 10 (135 / 2) (10 + 90) = Returned "north".
Proof.
  rewrite (bearing_quarter_turn 10 (135 / 2)) by lra.
  destruct (Rle_dec (135 / 2) (135 / 2)) as [_ | Hn]; [reflexivity |].
  exfalso. apply Hn. lra.
Defined.

End BearingEdges.

(** ** The shape of a run *)

Section Shape.
Context {DangerZone : Type}.
Variable env : Collaborators DangerZone.
Variables latitude longitude : R.

Import Exec.

Lemma risk_stage_shape
    (warnings : list string) (log : list (Call DangerZone))
    (fires : list Fire.t) (danger_zones : list DangerZone)
    (closest_fire_km : option R) (alert_level : alert_value)
    (warnings' : list string) (log' : list (Call DangerZone)) :
  risk_stage env latitude longitude warnings log
  = (Returned (fires, danger_zones, closest_fire_km, alert_level,
               warnings'), log') ->
  exists calls extra,
    log' = (log ++ calls)%list
    /\ warnings' = (warnings ++ extra)%list
    /\ risk_part env latitude longitude danger_zones
                 (alert_text alert_level) closest_fire_km extra calls.
Proof.
  unfold risk_stage, try_except, bind, call, ret, risk_part.
  destruct (fetch_fires env latitude longitude 50)
    as [fs | exc | exc] eqn:Hfetch; [| | discriminate].
  - destruct (create_danger_zones env fs) as [zs | exc | exc] eqn:Hzones;
      [| | discriminate].
    + destruct (determine_alert_level env (closest_of fs) (List.length fs))
        as [level | exc | exc] eqn:Hlevel; [| | discriminate].
      * rewrite app_assoc3. intros [= <- <- <- <- <- <-].
        eexists. exists []. split; [reflexivity |].
        split; [symmetry; apply app_nil_r |].
        split; [eapply Trace_level; eassumption |].
        left. exists fs, level. auto 10.
      * rewrite app_assoc3. intros [= <- <- <- <- <- <-].
        eexists. eexists. split; [reflexivity |].
        split; [reflexivity |].
        split; [eapply Trace_level; eassumption |].
        right. exists exc.
        split; [eapply Level_fails; eassumption |].
        repeat (split; [reflexivity |]).
        eexists. split; [right; right; left; reflexivity | exact Hlevel].
    + rewrite app_assoc2. intros [= <- <- <- <- <- <-].
      eexists. eexists. split; [reflexivity |].
      split; [reflexivity |].
      split; [eapply Trace_zones; eassumption |].
      right. exists exc.
      split; [eapply Zones_fail; eassumption |].
      repeat (split; [reflexivity |]).
      eexists. split; [right; left; reflexivity | exact Hzones].
  - intros [= <- <- <- <- <- <-].
    eexists. eexists. split; [reflexivity |].
    split; [reflexivity |].
    split; [eapply Trace_feed; eassumption |].
    right. exists exc.
    split; [apply Feed_fails; assumption |].
    repeat (split; [reflexivity |]).
    eexists. split; [left; reflexivity | exact Hfetch].
Qed.

Lemma safe_place_stage_shape
    (danger_zones : list DangerZone) (warnings : list string)
    (log : list (Call DangerZone)) (safe_places : list SafePlace.t)
    (warnings' : list string) (log' : list (Call DangerZone)) :
  safe_place_stage env latitude longitude danger_zones warnings log
  = (Returned (safe_places, warnings'), log') ->
  exists extra,
    log' = (log ++ [CallFetchSafePlaces latitude longitude 20
                                        danger_zones])%list
    /\ warnings' = (warnings ++ extra)%list
    /\ safe_places_part env latitude longitude danger_zones safe_places
                        extra.
Proof.
  intros Hrun.
  apply safe_place_stage_inv in Hrun
    as [-> [(places & Hfetch & -> & ->) | (exc & Hfetch & -> & ->)]].
  - exists []. split; [reflexivity |].
    split; [symmetry; apply app_nil_r |].
    left. exists places. auto.
  - eexists. split; [reflexivity |]. split; [reflexivity |].
    right. exists exc. auto.
Qed.

Lemma coverage_stage_shape
    (danger_zones : list DangerZone) (warnings : list string)
    (log : list (Call DangerZone))
    (warnings' : list string) (log' : list (Call DangerZone)) :
  coverage_stage env latitude longitude danger_zones warnings log
  = (Returned warnings', log') ->
  exists extra,
    log' = (log ++ [CallEstimateCoverage latitude longitude
                                         danger_zones])%list
    /\ warnings' = (warnings ++ extra)%list
    /\ coverage_part env latitude longitude danger_zones extra.
Proof.
  intros Hrun.
  apply coverage_stage_inv in Hrun as (coverage & Hcov & -> & ->).
  exists (if Coverage.get_has_coverage coverage
          then [] else [degraded_coverage_warning]).
  split; [reflexivity |]. split.
  - destruct (Coverage.get_has_coverage coverage);
      [symmetry; apply app_nil_r | reflexivity].
  - exists coverage. auto.
Qed.

Lemma routing_stage_shape
    (safe_places : list SafePlace.t) (danger_zones : list DangerZone)
    (warnings : list string) (log : list (Call DangerZone))
    (route : option Route.t) (destination : option SafePlace.t)
    (warnings' : list string) (log' : list (Call DangerZone)) :
  routing_stage env latitude longitude safe_places danger_zones
                warnings log
  = (Returned (route, destination, warnings'), log') ->
  exists calls extra,
    log' = (log ++ calls)%list
    /\ warnings' = (warnings ++ extra)%list
    /\ routing_part env latitude longitude danger_zones safe_places
                    route destination extra calls.
Proof.
  intros Hrun. unfold routing_part.
  apply routing_stage_inv in Hrun
    as [(-> & -> & -> & -> & ->)
       | (first & rest & -> & -> &
          [(exc & Hroute & -> & -> & ->)
          | [(Hroute & -> & -> & ->)
            | (found & dest_info & Hroute & -> & -> & ->)]])].
  - exists [], []. split; [symmetry; apply app_nil_r |].
    split; [symmetry; apply app_nil_r |]. left. auto.
  - eexists. eexists. split; [reflexivity |]. split; [reflexivity |].
    right. exists first, rest. split; [reflexivity |].
    split; [reflexivity |]. left. exists exc. auto.
  - eexists. exists []. split; [reflexivity |].
    split; [symmetry; apply app_nil_r |].
    right. exists first, rest. split; [reflexivity |].
    split; [reflexivity |]. right. left. auto.
  - eexists. exists []. split; [reflexivity |].
    split; [symmetry; apply app_nil_r |].
    right. exists first, rest. split; [reflexivity |].
    split; [reflexivity |]. right. right. exists found, dest_info. auto.
Qed.

(** Every run is made of the four parts, in this order. *)
Lemma pipeline_shape
    (danger_zones : list DangerZone) (safe_places : list SafePlace.t)
    (route : option Route.t) (destination : option SafePlace.t)
    (result : GuidanceResult.t) (log : list (Call DangerZone)) :
  pipeline env latitude longitude danger_zones safe_places route
           destination result log ->
  exists risk_calls route_calls w1 w2 w3 w4,
    log = (risk_calls
           ++ [ CallFetchSafePlaces latitude longitude 20 danger_zones;
                CallEstimateCoverage latitude longitude danger_zones ]
           ++ route_calls)%list
    /\ GuidanceResult.warnings result = (w1 ++ w2 ++ w3 ++ w4)%list
    /\ risk_part env latitude longitude danger_zones
                 (GuidanceResult.alert_level result)
                 (GuidanceResult.closest_fire_km result) w1 risk_calls
    /\ safe_places_part env latitude longitude danger_zones safe_places w2
    /\ coverage_part env latitude longitude danger_zones w3
    /\ routing_part env latitude longitude danger_zones safe_places
                    route destination w4 route_calls.
Proof.
  intros Hrun.
  destruct Hrun as [fires zones closest level safe route destination
                      ws1 ws2 ws3 ws4 log1 log2 log3 log4 result
                      H1 H2 H3 H4 H5].
  destruct (assemble_result_returns
              latitude longitude closest level route destination ws4 log4)
    as (direction & Hres & _).
  rewrite Hres in H5.
  assert (Hresult : Returned result = Returned _ :> outcome _)
    by (symmetry; exact (f_equal fst H5)).
  injection Hresult as ->.
  cbn [GuidanceResult.warnings GuidanceResult.alert_level
       GuidanceResult.closest_fire_km].
  apply risk_stage_shape in H1 as (risk_calls & w1 & -> & -> & Hrisk).
  apply safe_place_stage_shape in H2 as (w2 & -> & -> & Hsafe).
  apply coverage_stage_shape in H3 as (w3 & -> & -> & Hcov).
  apply routing_stage_shape in H4
    as (route_calls & w4 & -> & -> & Hrouting).
  exists risk_calls, route_calls, w1, w2, w3, w4.
  split; [simpl; rewrite <- !app_assoc; reflexivity |].
  split; [simpl; rewrite <- !app_assoc; reflexivity |].
  auto.
Qed.

End Shape.

(** ** What every run shows *)

Section Runs.
Context {DangerZone : Type}.
Variable env : Collaborators DangerZone.
Variables latitude longitude : R.

Import Exec.

Lemma risk_trace_entries (calls : list (Call DangerZone))
    (entry : Call DangerZone) :
  risk_trace env latitude longitude calls ->
  In entry calls ->
  (entry = CallFetchFires latitude longitude 50
   \/ (exists fires, entry = CallCreateDangerZones fires)
   \/ (exists closest count, entry = CallDetermineAlertLevel closest count))
  /\ (List.length calls <= 3)%nat.
Proof.
  intros Htrace Hin.
  destruct Htrace; simpl in Hin; (split; [| simpl; lia]);
    repeat (destruct Hin as [<- | Hin]; eauto); destruct Hin.
Qed.

(** The fields of the result, in terms of the route and the destination of
    the run. *)
Lemma pipeline_fields
    (danger_zones : list DangerZone) (safe_places : list SafePlace.t)
    (route : option Route.t) (destination : option SafePlace.t)
    (result : GuidanceResult.t) (log : list (Call DangerZone)) :
  pipeline env latitude longitude danger_zones safe_places route
           destination result log ->
  GuidanceResult.guidance_text result
  = _build_guidance_text
      (GuidanceResult.destination_name result)
      (GuidanceResult.destination_direction result)
      (GuidanceResult.destination_distance_km result)
      (GuidanceResult.route_distance_km result)
      (GuidanceResult.route_duration_minutes result)
      (instructions_of route)
      (GuidanceResult.alert_level result)
      (GuidanceResult.closest_fire_km result)
      (GuidanceResult.warnings result)
  /\ GuidanceResult.destination_name result
     = option_map SafePlace.name destination
  /\ GuidanceResult.destination_distance_km result
     = option_map SafePlace.distance_km destination
  /\ GuidanceResult.route_distance_km result
     = option_map Route.distance_km route
  /\ GuidanceResult.route_duration_minutes result
     = option_map Route.duration_minutes route
  /\ GuidanceResult.route_steps result = firstn 3 (instructions_of route)
  /\ match destination with
     | Some place =>
         exists cardinal,
           GuidanceResult.destination_direction result = Some cardinal
           /\ _bearing_to_cardinal latitude longitude
                                   (SafePlace.latitude place)
                                   (SafePlace.longitude place)
              = Returned cardinal
           /\ In cardinal directions
     | None => GuidanceResult.destination_direction result = None
     end.
Proof.
  intros Hrun.
  destruct Hrun as [fires zones closest level safe route destination
                      ws1 ws2 ws3 ws4 log1 log2 log3 log4 result
                      H1 H2 H3 H4 H5].
  destruct (assemble_result_returns
              latitude longitude closest level route destination ws4 log4)
    as (direction & Hres & Hdir).
  rewrite Hres in H5.
  assert (Hresult : Returned result = Returned _ :> outcome _)
    by (symmetry; exact (f_equal fst H5)).
  injection Hresult as ->.
  cbn [GuidanceResult.guidance_text GuidanceResult.destination_name
       GuidanceResult.destination_direction
       GuidanceResult.destination_distance_km
       GuidanceResult.route_distance_km
       GuidanceResult.route_duration_minutes GuidanceResult.route_steps
       GuidanceResult.alert_level GuidanceResult.closest_fire_km
       GuidanceResult.warnings].
  repeat (split; [reflexivity |]). exact Hdir.
Qed.

Lemma guidance_text_steps_cut
    (destination_name destination_direction : option string)
    (destination_distance_km route_distance_km route_duration_minutes
       : option R)
    (route_steps : list string) (alert_level : string)
    (closest_fire_km : option R) (warnings : list string) :
  _build_guidance_text
    destination_name destination_direction destination_distance_km
    route_distance_km route_duration_minutes route_steps
    alert_level closest_fire_km warnings
  = _build_guidance_text
      destination_name destination_direction destination_distance_km
      route_distance_km route_duration_minutes (firstn 3 route_steps)
      alert_level closest_fire_km warnings.
Proof.
  unfold _build_guidance_text.
  rewrite firstn_firstn.
  destruct route_steps as [| s1 rest]; reflexivity.
Qed.

Lemma direction_nonempty (cardinal : string) :
  In cardinal directions -> Py.truthy cardinal = true.
Proof.
  intros Hin. simpl in Hin.
  repeat (destruct Hin as [<- | Hin]; [reflexivity |]). destruct Hin.
Qed.


End Runs.



Section RunFacts.
Context {DangerZone : Type}.
Variable env : Collaborators DangerZone.
Variables latitude longitude : R.

Import Exec.

(** X8: when the fire feed and the derivation succeed, the result carries
    the level that [determine_alert_level] returned for the distance of
    the first fire of the feed and the number of fires, and that distance
    as closest-fire distance, whatever the other fires are; the danger
    zones that [create_danger_zones] returned are the ones handed to the
    directory and to the coverage estimator; and no warning about the
    fire data is raised. *)
Theorem risk_success_passes_on
    (fires : list Fire.t) (danger_zones : list DangerZone)
    (level : AlertLevel) (result : GuidanceResult.t)
    (log : list (Call DangerZone)) :
  fetch_fires env latitude longitude 50 = Returned fires ->
  create_danger_zones env fires = Returned danger_zones ->
  determine_alert_level env (closest_of fires) (List.length fires)
  = Returned level ->
  run (build_evacuation_guidance env latitude longitude)
  = (Returned result, log) ->
  GuidanceResult.alert_level result = value level
  /\ GuidanceResult.closest_fire_km result
     = match fires with
       | first :: _ => Some (Fire.distance_km first)
       | [] => None
       end
  /\ (exists rest,
         log = ([ CallFetchFires latitude longitude 50;
                  CallCreateDangerZones fires;
                  CallDetermineAlertLevel (closest_of fires)
                                          (List.length fires);
                  CallFetchSafePlaces latitude longitude 20 danger_zones;
                  CallEstimateCoverage latitude longitude danger_zones ]
                ++ rest)%list)
  /\ forall exc,
       ~ In ("Could not fetch fire data: " ++ exc)
            (GuidanceResult.warnings result).
Proof.
  intros Hf Hz Hl Hrun.
  apply build_pipeline in Hrun as (zones & safe & route & dest & Hrun).
  apply pipeline_shape in Hrun
    as (risk_calls & route_calls & w1 & w2 & w3 & w4
        & -> & Hw & (Htrace & Hrisk) & Hsafe & Hcov & Hrouting).
  destruct Hrisk
    as [(fs & lv & Hf' & Hz' & Hl' & Hclosest & Hlevel & ->)
       | (exc & Hfail & _)].
  2:{ exfalso. destruct Hfail as [H | fs H H' | fs zs H H' H''];
        congruence. }
  rewrite Hf in Hf'. injection Hf' as <-.
  rewrite Hz in Hz'. injection Hz' as <-.
  rewrite Hl in Hl'. injection Hl' as <-.
  split; [exact Hlevel |]. split; [exact Hclosest |]. split.
  - destruct Htrace as [e H | fs e H H' | fs zs H H']; try congruence.
    rewrite Hf in H. injection H as <-.
    exists route_calls. reflexivity.
  - intros exc Hin. rewrite Hw in Hin. simpl in Hin.
    rewrite !in_app_iff in Hin.
    destruct Hin as [Hin | [Hin | Hin]].
    + destruct Hsafe as [(places & _ & _ & ->) | (e & _ & _ & ->)];
        [destruct Hin |].
      destruct Hin as [Heq | []]. discriminate.
    + destruct Hcov as (coverage & _ & ->).
      destruct (Coverage.get_has_coverage coverage); [destruct Hin |].
      destruct Hin as [Heq | []]. discriminate.
    + destruct Hrouting
        as [(_ & _ & _ & -> & _)
           | (first & rest & _ & _ &
              [(e & _ & _ & _ & ->)
              | [(_ & _ & _ & ->) | (found & info & _ & _ & _ & ->)]])];
        try destruct Hin.
      * discriminate.
      * destruct H.
Qed.

(** X9: the guidance text of a result is the text that the composer gives
    for the other fields of that same result: it can be recomputed from
    them, with the three step summaries in place of the whole step
    list. *)
Theorem guidance_text_from_result
    (result : GuidanceResult.t) (log : list (Call DangerZone)) :
  run (build_evacuation_guidance env latitude longitude)
  = (Returned result, log) ->
  GuidanceResult.guidance_text result
  = _build_guidance_text
      (GuidanceResult.destination_name result)
      (GuidanceResult.destination_direction result)
      (GuidanceResult.destination_distance_km result)
      (GuidanceResult.route_distance_km result)
      (GuidanceResult.route_duration_minutes result)
      (GuidanceResult.route_steps result)
      (GuidanceResult.alert_level result)
      (GuidanceResult.closest_fire_km result)
      (GuidanceResult.warnings result).
Proof.
  intros Hrun.
  apply build_pipeline in Hrun as (zones & safe & route & dest & Hrun).
  apply pipeline_fields in Hrun
    as (Htext & _ & _ & _ & _ & Hsteps & _).
  rewrite Htext, Hsteps. apply guidance_text_steps_cut.
Qed.

Lemma next_by_id_some
    (safe_places : list SafePlace.t) (wanted : string)
    (first : SafePlace.t) :
  exists place, next_by_id safe_places wanted (Some first) = Some place.
Proof.
  destruct (next_by_id_cases safe_places wanted (Some first))
    as [(place & Hnext & _) | (Hnext & _)]; rewrite Hnext; eauto.
Qed.

(** X10: the fields of a result go together.  Name, direction and
    distance of the destination are all present or all absent; so are
    distance and duration of the route; there are route figures only with
    a destination, and step summaries only with route figures; and a
    direction is one of the eight directions. *)
Theorem result_coherent
    (result : GuidanceResult.t) (log : list (Call DangerZone)) :
  run (build_evacuation_guidance env latitude longitude)
  = (Returned result, log) ->
  (GuidanceResult.destination_name result = None
   <-> GuidanceResult.destination_direction result = None)
  /\ (GuidanceResult.destination_direction result = None
      <-> GuidanceResult.destination_distance_km result = None)
  /\ (GuidanceResult.route_distance_km result = None
      <-> GuidanceResult.route_duration_minutes result = None)
  /\ (GuidanceResult.route_distance_km result <> None ->
      GuidanceResult.destination_name result <> None)
  /\ (GuidanceResult.route_steps result <> [] ->
      GuidanceResult.route_distance_km result <> None)
  /\ (forall direction,
        GuidanceResult.destination_direction result = Some direction ->
        In direction directions).
Proof.
  intros Hrun.
  apply build_pipeline in Hrun as (zones & safe & route & dest & Hrun).
  pose proof (pipeline_fields _ _ _ _ _ _ _ _ _ Hrun)
    as (_ & Hname & Hdist & Hrkm & Hrmin & Hsteps & Hdir).
  apply pipeline_shape in Hrun
    as (risk_calls & route_calls & w1 & w2 & w3 & w4
        & _ & _ & _ & _ & _ & Hrouting).
  rewrite Hname, Hdist, Hrkm, Hrmin, Hsteps.
  assert (Hroute : route <> None -> dest <> None).
  { destruct Hrouting
      as [(_ & Hr & _)
         | (first & rest & Hs & _ &
            [(e & _ & Hr & _)
            | [(_ & Hr & _) | (found & info & _ & _ & Hd & _)]])];
      try (intros Hne; contradiction).
    intros _. rewrite Hd.
    destruct (next_by_id_some safe (Destination.id info) first)
      as (place & ->).
    discriminate. }
  destruct dest as [place |].
  - destruct Hdir as (cardinal & -> & _ & Hin).
    repeat split; try discriminate.
    + destruct route; simpl; congruence.
    + destruct route; simpl; congruence.
    + destruct route; simpl; [discriminate | congruence].
    + intros direction [= <-]. exact Hin.
  - rewrite Hdir.
    repeat split; try discriminate; try reflexivity.
    + destruct route; simpl; congruence.
    + destruct route; simpl; congruence.
    + intros Hkm. exfalso. apply Hroute; [| reflexivity].
      destruct route; [discriminate | contradiction].
    + destruct route; simpl; [discriminate | congruence].
Qed.

(** X11: a result without a destination direction has the instruction
    sentence followed by the fixed no-path clause as its text; a result
    with one has the instruction sentence followed by the heading towards
    that direction, whether or not a route was found. *)
Theorem guidance_text_branch
    (result : GuidanceResult.t) (log : list (Call DangerZone)) :
  run (build_evacuation_guidance env latitude longitude)
  = (Returned result, log) ->
  match GuidanceResult.destination_direction result with
  | None =>
      GuidanceResult.guidance_text result
      = _build_instruction_text (GuidanceResult.alert_level result)
                                (GuidanceResult.closest_fire_km result)
                                (GuidanceResult.warnings result)
          ++ no_path_clause
  | Some direction =>
      exists rest,
        GuidanceResult.guidance_text result
        = _build_instruction_text (GuidanceResult.alert_level result)
                                  (GuidanceResult.closest_fire_km result)
                                  (GuidanceResult.warnings result)
            ++ " Head toward the " ++ direction ++ rest
  end.
Proof.
  intros Hrun.
  apply build_pipeline in Hrun as (zones & safe & route & dest & Hrun).
  apply pipeline_fields in Hrun
    as (Htext & Hname & Hdist & _ & _ & _ & Hdir).
  rewrite Htext, Hname. unfold _build_guidance_text.
  destruct dest as [place |].
  - destruct Hdir as (cardinal & -> & _ & Hin).
    rewrite Hdist. cbn [option_map].
    rewrite (direction_nonempty _ Hin). cbn [negb].
    destruct (Py.truthy (SafePlace.name place));
      rewrite ?append_assoc; eexists; reflexivity.
  - rewrite Hdir. reflexivity.
Qed.

End RunFacts.

Lemma risk_success_passes_on_witness :
  GuidanceResult.alert_level evacuation_result = "high"
  /\ GuidanceResult.closest_fire_km evacuation_result = Some 5%R.
Proof.
  destruct (risk_success_passes_on
              evacuation 0 0 [ {| Fire.distance_km := 5 |} ] [tt] HIGH
              evacuation_result evacuation_log
              eq_refl eq_refl eq_refl evacuation_run)
    as (Hlevel & Hclosest & _).
  split; [exact Hlevel | exact Hclosest].
Defined.

Lemma guidance_text_from_result_witness :
  GuidanceResult.guidance_text evacuation_result
  = _build_guidance_text
      (Some "School") (Some "north") (Some 21%R) (Some 12%R) (Some 15%R)
      [ "Head north on Mill Road"; "Turn left at the bridge";
        "Continue for 2 km" ]
      "high" (Some 5%R) [].
Proof.
  exact (guidance_text_from_result
           evacuation 0 0 evacuation_result evacuation_log evacuation_run).
Defined.

Lemma result_coherent_witness :
  GuidanceResult.destination_name evacuation_result <> None
  /\ In "north" directions.
Proof.
  destruct (result_coherent
              evacuation 0 0 evacuation_result evacuation_log
              evacuation_run)
    as (_ & _ & _ & Hroute & _ & Hdirection).
  split.
  - apply Hroute. discriminate.
  - apply Hdirection. reflexivity.
Defined.

Lemma guidance_text_branch_witness :
  exists rest,
    GuidanceResult.guidance_text evacuation_result
    = _build_instruction_text "high" (Some 5%R) []
        ++ " Head toward the " ++ "north" ++ rest.
Proof.
  exact (guidance_text_branch
           evacuation 0 0 evacuation_result evacuation_log evacuation_run).
Defined.

Section RunCalls.
Context {DangerZone : Type}.
Variable env : Collaborators DangerZone.
Variables latitude longitude : R.

Import Exec.

Lemma route_call_in_run
    (danger_zones : list DangerZone) (safe_places : list SafePlace.t)
    (route : option Route.t) (destination : option SafePlace.t)
    (result : GuidanceResult.t) (log : list (Call DangerZone))
    (la lo : R) (destinations : list Destination.t)
    (zones : list DangerZone) :
  pipeline env latitude longitude danger_zones safe_places route
           destination result log ->
  In (CallGetRoute la lo destinations zones) log ->
  la = latitude /\ lo = longitude /\ zones = danger_zones
  /\ destinations = map destination_of (firstn 5 safe_places)
  /\ exists first rest, safe_places = first :: rest.
Proof.
  intros Hrun Hin.
  apply pipeline_shape in Hrun
    as (risk_calls & route_calls & w1 & w2 & w3 & w4
        & -> & _ & (Htrace & _) & _ & _ & Hrouting).
  rewrite !in_app_iff in Hin.
  destruct Hin as [Hin | [[Hin | [Hin | []]] | Hin]]; try discriminate.
  - destruct (risk_trace_entries _ _ _ _ _ Htrace Hin)
      as [[Heq | [(f & Heq) | (c & n & Heq)]] _]; discriminate.
  - destruct Hrouting
      as [(_ & _ & _ & _ & ->)
         | (first & rest & Hsafe & -> & _)]; [destruct Hin |].
    destruct Hin as [[= <- <- <- <-] | []].
    repeat split. exists first, rest. exact Hsafe.
Qed.

Lemma directory_call_in_run
    (danger_zones : list DangerZone) (safe_places : list SafePlace.t)
    (route : option Route.t) (destination : option SafePlace.t)
    (result : GuidanceResult.t) (log : list (Call DangerZone))
    (la lo radius : R) (zones : list DangerZone) :
  pipeline env latitude longitude danger_zones safe_places route
           destination result log ->
  In (CallFetchSafePlaces la lo radius zones) log ->
  la = latitude /\ lo = longitude /\ radius = 20%R
  /\ zones = danger_zones.
Proof.
  intros Hrun Hin.
  apply pipeline_shape in Hrun
    as (risk_calls & route_calls & w1 & w2 & w3 & w4
        & -> & _ & (Htrace & _) & _ & _ & Hrouting).
  rewrite !in_app_iff in Hin.
  destruct Hin as [Hin | [[Hin | [Hin | []]] | Hin]]; try discriminate.
  - destruct (risk_trace_entries _ _ _ _ _ Htrace Hin)
      as [[Heq | [(f & Heq) | (c & n & Heq)]] _]; discriminate.
  - injection Hin as <- <- <- <-. auto.
  - destruct Hrouting
      as [(_ & _ & _ & _ & ->)
         | (first & rest & Hsafe & -> & _)]; [destruct Hin |].
    destruct Hin as [Heq | []]. discriminate.
Qed.

(** X12: the warnings of a result are at most four and come in stage
    order: at most one about the fire data, then at most one about the
    safe places, then at most the coverage warning, then at most one about
    the route. *)
Theorem warnings_in_stage_order
    (result : GuidanceResult.t) (log : list (Call DangerZone)) :
  run (build_evacuation_guidance env latitude longitude)
  = (Returned result, log) ->
  exists w1 w2 w3 w4,
    GuidanceResult.warnings result = (w1 ++ w2 ++ w3 ++ w4)%list
    /\ (w1 = [] \/ exists exc, w1 = ["Could not fetch fire data: " ++ exc])
    /\ (w2 = []
        \/ exists exc, w2 = ["Could not fetch safe places: " ++ exc])
    /\ (w3 = [] \/ w3 = ["Cell coverage may be degraded in your area"])
    /\ (w4 = [] \/ exists exc, w4 = ["Could not calculate route: " ++ exc])
    /\ (List.length (GuidanceResult.warnings result) <= 4)%nat.
Proof.
  intros Hrun.
  apply build_pipeline in Hrun as (zones & safe & route & dest & Hrun).
  apply pipeline_shape in Hrun
    as (risk_calls & route_calls & w1 & w2 & w3 & w4
        & _ & Hw & (_ & Hrisk) & Hsafe & Hcov & Hrouting).
  exists w1, w2, w3, w4. split; [exact Hw |].
  assert (H1 : w1 = []
               \/ exists exc, w1 = ["Could not fetch fire data: " ++ exc]).
  { destruct Hrisk as [(fs & lv & _ & _ & _ & _ & _ & ->)
                      | (exc & _ & _ & _ & _ & -> & _)]; eauto. }
  assert (H2 : w2 = []
               \/ exists exc,
                    w2 = ["Could not fetch safe places: " ++ exc]).
  { destruct Hsafe as [(places & _ & _ & ->) | (exc & _ & _ & ->)];
      eauto. }
  assert (H3 : w3 = []
               \/ w3 = ["Cell coverage may be degraded in your area"]).
  { destruct Hcov as (coverage & _ & ->).
    destruct (Coverage.get_has_coverage coverage); auto. }
  assert (H4 : w4 = []
               \/ exists exc, w4 = ["Could not calculate route: " ++ exc]).
  { destruct Hrouting
      as [(_ & _ & _ & -> & _)
         | (first & rest & _ & _ &
            [(e & _ & _ & _ & ->)
            | [(_ & _ & _ & ->) | (found & info & _ & _ & _ & ->)]])];
      eauto. }
  repeat (split; [assumption |]).
  rewrite Hw, !length_app.
  destruct H1 as [-> | (e1 & ->)], H2 as [-> | (e2 & ->)],
           H3 as [-> | ->], H4 as [-> | (e4 & ->)]; simpl; lia.
Qed.

(** X13: the collaborators are called in one fixed order and at most once
    each, six calls at most: the risk calls up to the first that raises,
    then the directory and the coverage estimator, both with the danger
    zones of the run, then the router, if at all, with these zones and
    between one and five destinations. *)
Theorem calls_in_stage_order
    (result : GuidanceResult.t) (log : list (Call DangerZone)) :
  run (build_evacuation_guidance env latitude longitude)
  = (Returned result, log) ->
  exists danger_zones risk_calls route_calls,
    log = (risk_calls
           ++ [ CallFetchSafePlaces latitude longitude 20 danger_zones;
                CallEstimateCoverage latitude longitude danger_zones ]
           ++ route_calls)%list
    /\ risk_trace env latitude longitude risk_calls
    /\ (route_calls = []
        \/ exists destinations,
             route_calls = [CallGetRoute latitude longitude destinations
                                         danger_zones]
             /\ (1 <= List.length destinations <= 5)%nat)
    /\ (List.length log <= 6)%nat.
Proof.
  intros Hrun.
  apply build_pipeline in Hrun as (zones & safe & route & dest & Hrun).
  apply pipeline_shape in Hrun
    as (risk_calls & route_calls & w1 & w2 & w3 & w4
        & -> & _ & (Htrace & _) & _ & _ & Hrouting).
  exists zones, risk_calls, route_calls.
  split; [reflexivity |]. split; [exact Htrace |].
  assert (Hroute :
            route_calls = []
            \/ exists destinations,
                 route_calls = [CallGetRoute latitude longitude destinations
                                             zones]
                 /\ (1 <= List.length destinations <= 5)%nat).
  { destruct Hrouting
      as [(_ & _ & _ & _ & ->) | (first & rest & -> & -> & _)];
      [left; reflexivity | right].
    eexists. split; [reflexivity |].
    rewrite length_map. split; [simpl; lia | apply firstn_le_length]. }
  split; [exact Hroute |].
  assert (Hrisk : (List.length risk_calls <= 3)%nat)
    by (destruct Htrace; simpl; lia).
  rewrite !length_app.
  destruct Hroute as [-> | (ds & -> & _)]; simpl; lia.
Qed.

(** X14: a result has no warning without a cause: each of its warnings is
    the coverage warning or reports a call of the log that raised. *)
Theorem no_spurious_warning
    (result : GuidanceResult.t) (log : list (Call DangerZone))
    (warning : string) :
  run (build_evacuation_guidance env latitude longitude)
  = (Returned result, log) ->
  In warning (GuidanceResult.warnings result) ->
  warning = "Cell coverage may be degraded in your area"
  \/ exists entry exc,
       In entry log /\ raised env entry exc
       /\ warning_for entry exc = Some warning.
Proof.
  intros Hrun Hin.
  apply build_pipeline in Hrun as (zones & safe & route & dest & Hrun).
  apply pipeline_shape in Hrun
    as (risk_calls & route_calls & w1 & w2 & w3 & w4
        & -> & Hw & (Htrace & Hrisk) & Hsafe & Hcov & Hrouting).
  rewrite Hw in Hin. rewrite !in_app_iff in Hin.
  destruct Hin as [Hin | [Hin | [Hin | Hin]]].
  - destruct Hrisk as [(fs & lv & _ & _ & _ & _ & _ & ->)
                      | (exc & _ & _ & _ & _ & -> & entry & Hentry & Hr)];
      [destruct Hin |].
    destruct Hin as [<- | []]. right. exists entry, exc.
    split; [apply in_app_iff; left; exact Hentry |].
    split; [exact Hr |].
    destruct (risk_trace_entries _ _ _ _ _ Htrace Hentry)
      as [[-> | [(f & ->) | (c & n & ->)]] _]; reflexivity.
  - destruct Hsafe as [(places & _ & _ & ->) | (exc & Hfetch & _ & ->)];
      [destruct Hin |].
    destruct Hin as [<- | []]. right.
    exists (CallFetchSafePlaces latitude longitude 20 zones), exc.
    split; [| split; [exact Hfetch | reflexivity]].
    apply in_app_iff. right. left. reflexivity.
  - destruct Hcov as (coverage & _ & ->).
    destruct (Coverage.get_has_coverage coverage); [destruct Hin |].
    destruct Hin as [<- | []]. left. reflexivity.
  - destruct Hrouting
      as [(_ & _ & _ & -> & _)
         | (first & rest & _ & -> &
            [(exc & Hroute & _ & _ & ->)
            | [(_ & _ & _ & ->) | (found & info & _ & _ & _ & ->)]])];
      try (destruct Hin; fail).
    destruct Hin as [<- | []]. right.
    exists (CallGetRoute latitude longitude
                         (map destination_of (firstn 5 safe)) zones), exc.
    split; [| split; [exact Hroute | reflexivity]].
    apply in_app_iff. right. right. right. left. reflexivity.
Qed.

End RunCalls.

Example directory_down_run :
  Exec.run (build_evacuation_guidance directory_down 0 0)
  = (Returned
       {| GuidanceResult.guidance_text :=
            "No nearby fire was detected from the current feed."
            ++ " Warning: Could not fetch safe places: directory offline."
            ++ no_path_clause;
          GuidanceResult.alert_level := "none";
          GuidanceResult.closest_fire_km := None;
          GuidanceResult.destination_name := None;
          GuidanceResult.destination_direction := None;
          GuidanceResult.destination_distance_km := None;
          GuidanceResult.route_distance_km := None;
          GuidanceResult.route_duration_minutes := None;
          GuidanceResult.route_steps := [];
          GuidanceResult.warnings :=
            ["Could not fetch safe places: directory offline"] |},
     [ CallFetchFires 0 0 50;
       CallCreateDangerZones [];
       CallDetermineAlertLevel None 0;
       CallFetchSafePlaces 0 0 20 [];
       CallEstimateCoverage 0 0 [] ]).
Proof. reflexivity. Qed.

Lemma warnings_in_stage_order_witness :
  exists w1 w2 w3 w4,
    ["Could not fetch safe places: directory offline"]
    = (w1 ++ w2 ++ w3 ++ w4)%list
    /\ (w1 = [] \/ exists exc, w1 = ["Could not fetch fire data: " ++ exc]).
Proof.
  destruct (warnings_in_stage_order directory_down 0 0 _ _
                                    directory_down_run)
    as (w1 & w2 & w3 & w4 & Hw & H1 & _).
  exists w1, w2, w3, w4. split; [exact Hw | exact H1].
Defined.

Lemma calls_in_stage_order_witness :
  exists danger_zones risk_calls route_calls,
    evacuation_log
    = (risk_calls
       ++ [ CallFetchSafePlaces 0 0 20 danger_zones;
            CallEstimateCoverage 0 0 danger_zones ]
       ++ route_calls)%list
    /\ risk_trace evacuation 0 0 risk_calls.
Proof.
  destruct (calls_in_stage_order evacuation 0 0 _ _ evacuation_run)
    as (zones & risk_calls & route_calls & Hlog & Htrace & _).
  exists zones, risk_calls, route_calls. split; assumption.
Defined.

Lemma no_spurious_warning_witness :
  "Could not fetch safe places: directory offline"
  = "Cell coverage may be degraded in your area"
  \/ exists entry exc,
       In entry [ CallFetchFires 0 0 50;
                  CallCreateDangerZones [];
                  CallDetermineAlertLevel None 0;
                  CallFetchSafePlaces 0 0 20 [];
                  CallEstimateCoverage 0 0 [] ]
       /\ raised directory_down entry exc
       /\ warning_for entry exc
          = Some "Could not fetch safe places: directory offline".
Proof.
  apply (no_spurious_warning directory_down 0 0 _ _ _ directory_down_run).
  left. reflexivity.
Defined.

Section RunFailures.
Context {DangerZone : Type}.
Variable env : Collaborators DangerZone.
Variables latitude longitude : R.

Import Exec.

(** X15: when the call to the safe-place directory raises, the result has
    no destination, no direction, no distance, no route figure and no step;
    its text is the instruction sentence followed by the no-path clause;
    the failure is among its warnings; and the router is not called. *)
Theorem directory_failure_isolated
    (result : GuidanceResult.t) (log : list (Call DangerZone))
    (la lo radius : R) (zones : list DangerZone) (exc : string) :
  run (build_evacuation_guidance env latitude longitude)
  = (Returned result, log) ->
  In (CallFetchSafePlaces la lo radius zones) log ->
  fetch_safe_places env la lo radius zones = Raised exc ->
  GuidanceResult.destination_name result = None
  /\ GuidanceResult.destination_direction result = None
  /\ GuidanceResult.destination_distance_km result = None
  /\ GuidanceResult.route_distance_km result = None
  /\ GuidanceResult.route_duration_minutes result = None
  /\ GuidanceResult.route_steps result = []
  /\ GuidanceResult.guidance_text result
     = _build_instruction_text (GuidanceResult.alert_level result)
                               (GuidanceResult.closest_fire_km result)
                               (GuidanceResult.warnings result)
         ++ no_path_clause
  /\ In ("Could not fetch safe places: " ++ exc)
        (GuidanceResult.warnings result)
  /\ forall la' lo' destinations zones',
       ~ In (CallGetRoute la' lo' destinations zones') log.
Proof.
  intros Hrun Hin Hraised.
  apply build_pipeline in Hrun as (dzs & safe & route & dest & Hrun).
  destruct (directory_call_in_run _ _ _ _ _ _ _ _ _ _ _ _ _ Hrun Hin)
    as (-> & -> & -> & ->).
  pose proof (pipeline_fields _ _ _ _ _ _ _ _ _ Hrun)
    as (Htext & Hname & Hdist & Hrkm & Hrmin & Hsteps & Hdir).
  assert (Hnocall : forall la' lo' destinations zones',
             In (CallGetRoute la' lo' destinations zones') log ->
             safe <> []).
  { intros la' lo' ds zs' Hcall.
    destruct (route_call_in_run _ _ _ _ _ _ _ _ _ _ _ _ _ Hrun Hcall)
      as (_ & _ & _ & _ & first & rest & ->). discriminate. }
  apply pipeline_shape in Hrun
    as (risk_calls & route_calls & w1 & w2 & w3 & w4
        & Hlog & Hw & _ & Hsafe & _ & Hrouting).
  destruct Hsafe as [(places & Hfetch & _) | (e & Hfetch & Hempty & ->)];
    [congruence |].
  rewrite Hraised in Hfetch. injection Hfetch as <-.
  destruct Hrouting
    as [(_ & -> & -> & _) | (first & rest & Hsome & _)];
    [| congruence].
  rewrite Htext, Hname, Hdist, Hrkm, Hrmin, Hsteps, Hdir.
  repeat (split; [reflexivity |]).
  split.
  - rewrite Hw. rewrite !in_app_iff. right. left. left. reflexivity.
  - intros la' lo' ds zs' Hcall.
    exact (Hnocall la' lo' ds zs' Hcall Hempty).
Qed.

(** X16: when the router raises or returns nothing, the result has no
    route figure and no step, and its destination is the first place that
    was offered to the router: it has the name of that place and the
    direction that the bearing calculator gives towards it. *)
Theorem routing_failure_falls_back
    (result : GuidanceResult.t) (log : list (Call DangerZone))
    (la lo : R) (destinations : list Destination.t)
    (zones : list DangerZone) :
  run (build_evacuation_guidance env latitude longitude)
  = (Returned result, log) ->
  In (CallGetRoute la lo destinations zones) log ->
  (exists exc,
      get_route_to_nearest_safe_place env la lo destinations zones
      = Raised exc)
  \/ get_route_to_nearest_safe_place env la lo destinations zones
     = Returned None ->
  GuidanceResult.route_distance_km result = None
  /\ GuidanceResult.route_duration_minutes result = None
  /\ GuidanceResult.route_steps result = []
  /\ exists first direction,
       hd_error destinations = Some first
       /\ GuidanceResult.destination_name result
          = Some (Destination.name first)
       /\ GuidanceResult.destination_direction result = Some direction
       /\ _bearing_to_cardinal latitude longitude
                               (Destination.lat first)
                               (Destination.lng first)
          = Returned direction
       /\ GuidanceResult.destination_distance_km result <> None.
Proof.
  intros Hrun Hin Hfailed.
  apply build_pipeline in Hrun as (dzs & safe & route & dest & Hrun).
  destruct (route_call_in_run _ _ _ _ _ _ _ _ _ _ _ _ _ Hrun Hin)
    as (-> & -> & -> & -> & first & rest & Hsafe).
  pose proof (pipeline_fields _ _ _ _ _ _ _ _ _ Hrun)
    as (_ & Hname & Hdist & Hrkm & Hrmin & Hsteps & Hdir).
  apply pipeline_shape in Hrun
    as (risk_calls & route_calls & w1 & w2 & w3 & w4
        & _ & _ & _ & _ & _ & Hrouting).
  assert (Hvalues : route = None /\ dest = Some first).
  { destruct Hrouting
      as [(Hempty & _)
         | (first' & rest' & Hsafe' & _ &
            [(e & _ & Hr & Hd & _)
            | [(_ & Hr & Hd & _) | (found & info & Hroute & _)]])].
    - congruence.
    - rewrite Hsafe in Hsafe'. injection Hsafe' as <- <-. auto.
    - rewrite Hsafe in Hsafe'. injection Hsafe' as <- <-. auto.
    - destruct Hfailed as [(e & Hfailed) | Hfailed]; congruence. }
  destruct Hvalues as [-> ->].
  rewrite Hrkm, Hrmin, Hsteps, Hname, Hdist.
  repeat (split; [reflexivity |]).
  destruct Hdir as (cardinal & Hcardinal & Hbearing & _).
  exists (destination_of first), cardinal.
  rewrite Hsafe. repeat split; try assumption. discriminate.
Qed.

(** X17: the router is only asked about places that the directory
    returned for the danger zones of the run and did not flag as inside a
    danger zone: every destination handed to it is built from such a
    place, and it gets between one and five of them, for the point of the
    request. *)
Theorem router_asked_about_unflagged_places
    (result : GuidanceResult.t) (log : list (Call DangerZone))
    (la lo : R) (destinations : list Destination.t)
    (zones : list DangerZone) :
  run (build_evacuation_guidance env latitude longitude)
  = (Returned result, log) ->
  In (CallGetRoute la lo destinations zones) log ->
  la = latitude /\ lo = longitude
  /\ (1 <= List.length destinations <= 5)%nat
  /\ exists places,
       fetch_safe_places env latitude longitude 20 zones = Returned places
       /\ forall destination,
            In destination destinations ->
            exists place,
              In place places
              /\ SafePlace.is_in_danger_zone place = false
              /\ destination
                 = {| Destination.lat := SafePlace.latitude place;
                      Destination.lng := SafePlace.longitude place;
                      Destination.name := SafePlace.name place;
                      Destination.id := SafePlace.id place |}.
Proof.
  intros Hrun Hin.
  apply build_pipeline in Hrun as (dzs & safe & route & dest & Hrun).
  destruct (route_call_in_run _ _ _ _ _ _ _ _ _ _ _ _ _ Hrun Hin)
    as (-> & -> & -> & -> & first & rest & Hsafe).
  apply pipeline_shape in Hrun
    as (risk_calls & route_calls & w1 & w2 & w3 & w4
        & _ & _ & _ & Hdirectory & _ & _).
  split; [reflexivity |]. split; [reflexivity |]. split.
  { rewrite length_map, Hsafe.
    split; [simpl; lia | apply firstn_le_length]. }
  destruct Hdirectory as [(places & Hfetch & Hfilter & _)
                         | (e & _ & Hempty & _)]; [| congruence].
  exists places. split; [exact Hfetch |].
  intros destination Hdest.
  apply in_map_iff in Hdest as (place & <- & Hplace).
  apply in_firstn in Hplace. rewrite Hfilter in Hplace.
  apply filter_In in Hplace as [Hplace Hkeep].
  exists place. split; [exact Hplace |].
  split; [apply not_flagged_iff; exact Hkeep | reflexivity].
Qed.

End RunFailures.

Lemma directory_failure_isolated_witness :
  In "Could not fetch safe places: directory offline"
     ["Could not fetch safe places: directory offline"]
  /\ forall la lo destinations (zones : list unit),
       ~ In (CallGetRoute la lo destinations zones)
            [ CallFetchFires 0 0 50;
              CallCreateDangerZones [];
              CallDetermineAlertLevel None 0;
              CallFetchSafePlaces 0 0 20 [];
              CallEstimateCoverage 0 0 [] ].
Proof.
  destruct (directory_failure_isolated
              directory_down 0 0 _ _ 0%R 0%R 20%R [] "directory offline"
              directory_down_run)
    as (_ & _ & _ & _ & _ & _ & _ & Hwarning & Hnocall).
  - right. right. right. left. reflexivity.
  - reflexivity.
  - split; [exact Hwarning | exact Hnocall].
Defined.

Lemma routing_failure_falls_back_witness :
  exists first direction,
    hd_error [destination_of hall; destination_of school] = Some first
    /\ Some "Town Hall" = Some (Destination.name first)
    /\ Some "north" = Some direction.
Proof.
  destruct (routing_failure_falls_back
              router_down 0 0 _ _ 0%R 0%R
              [destination_of hall; destination_of school] []
              router_down_run)
    as (_ & _ & _ & first & direction & Hhd & Hname & Hdir & _).
  - right. right. right. right. right. left. reflexivity.
  - left. exists "no path". reflexivity.
  - exists first, direction. repeat split; assumption.
Defined.

Lemma router_asked_about_unflagged_places_witness :
  exists places,
    fetch_safe_places evacuation 0 0 20 [tt] = Returned places
    /\ forall destination,
         In destination [destination_of hall; destination_of school] ->
         exists place,
           In place places
           /\ SafePlace.is_in_danger_zone place = false
           /\ destination
              = {| Destination.lat := SafePlace.latitude place;
                   Destination.lng := SafePlace.longitude place;
                   Destination.name := SafePlace.name place;
                   Destination.id := SafePlace.id place |}.
Proof.
  destruct (router_asked_about_unflagged_places
              evacuation 0 0 _ _ 0%R 0%R
              [destination_of hall; destination_of school] [tt]
              evacuation_run)
    as (_ & _ & _ & Hplaces).
  - right. right. right. right. right. left. reflexivity.
  - exact Hplaces.
Defined.

(** ** The fire feed down, and identifiers that repeat *)

Lemma risk_fails_unique
    {DangerZone : Type} (env : Collaborators DangerZone)
    (latitude longitude : R) (exc exc' : string) :
  risk_fails env latitude longitude exc ->
  risk_fails env latitude longitude exc' ->
  exc = exc'.
Proof.
  intros [H | fs H H' | fs zs H H' H''] [G | gs G G' | gs zs' G G' G''];
    congruence.
Qed.

Lemma guidance_text_starts
    (destination_name destination_direction : option string)
    (destination_distance_km route_distance_km route_duration_minutes
       : option R)
    (route_steps : list string) (alert_level : string)
    (closest_fire_km : option R) (warnings : list string) :
  exists rest,
    _build_guidance_text
      destination_name destination_direction destination_distance_km
      route_distance_km route_duration_minutes route_steps
      alert_level closest_fire_km warnings
    = _build_instruction_text alert_level closest_fire_km warnings ++ rest.
Proof.
  unfold _build_guidance_text.
  destruct destination_direction as [direction |];
    destruct destination_distance_km as [distance |];
    try destruct (negb (Py.truthy direction));
    eexists; reflexivity.
Qed.

(** X18: when the fire feed or the derivation fails, the text of the
    result opens with the sentence that no nearby fire was detected,
    followed by the warning about the fire data, whatever the other
    collaborators do. *)
Theorem feed_failure_text
    {DangerZone : Type} (env : Collaborators DangerZone)
    (latitude longitude : R) (exc : string)
    (result : GuidanceResult.t) (log : list (Call DangerZone)) :
  risk_fails env latitude longitude exc ->
  Exec.run (build_evacuation_guidance env latitude longitude)
  = (Returned result, log) ->
  exists rest,
    GuidanceResult.guidance_text result
    = "No nearby fire was detected from the current feed."
      ++ " Warning: Could not fetch fire data: " ++ exc ++ "." ++ rest.
Proof.
  intros Hfail Hrun.
  apply build_pipeline in Hrun as (zones & safe & route & dest & Hrun).
  pose proof (pipeline_fields _ _ _ _ _ _ _ _ _ Hrun) as (Htext & _).
  apply pipeline_shape in Hrun
    as (risk_calls & route_calls & w1 & w2 & w3 & w4
        & _ & Hw & (_ & Hrisk) & _).
  destruct Hrisk
    as [(fs & lv & Hf & Hz & Hl & _)
       | (exc' & Hfail' & _ & Hclosest & Hlevel & -> & _)].
  { exfalso. destruct Hfail as [H | gs H H' | gs zs H H' H''];
      congruence. }
  rewrite (risk_fails_unique _ _ _ _ _ Hfail' Hfail) in Hw.
  destruct (guidance_text_starts
              (GuidanceResult.destination_name result)
              (GuidanceResult.destination_direction result)
              (GuidanceResult.destination_distance_km result)
              (GuidanceResult.route_distance_km result)
              (GuidanceResult.route_duration_minutes result)
              (instructions_of route)
              (GuidanceResult.alert_level result)
              (GuidanceResult.closest_fire_km result)
              (GuidanceResult.warnings result)) as (rest & Hstarts).
  exists rest. rewrite Htext, Hstarts, Hlevel, Hclosest, Hw.
  unfold _build_instruction_text. simpl.
  rewrite !append_assoc. reflexivity.
Qed.

Lemma feed_failure_text_witness :
  exists rest,
    "No nearby fire was detected from the current feed."
    ++ " Warning: Could not fetch fire data: feed timeout."
    ++ no_path_clause
    = "No nearby fire was detected from the current feed."
      ++ " Warning: Could not fetch fire data: " ++ "feed timeout" ++ "."
      ++ rest.
Proof.
  destruct (feed_failure_text
              feed_down 0 0 "feed timeout" _ _
              (Feed_fails feed_down 0 0 "feed timeout" eq_refl)
              feed_down_run) as (rest & Htext).
  exists rest. exact Htext.
Defined.

Lemma find_first_match {A : Type} (test : A -> bool)
    (before after : list A) (x : A) :
  test x = true ->
  (forall y, In y before -> test y = false) ->
  find test (before ++ x :: after) = Some x.
Proof.
  intros Hx Hbefore. induction before as [| y before IH]; simpl.
  - rewrite Hx. reflexivity.
  - rewrite (Hbefore y) by (left; reflexivity).
    apply IH. intros z Hz. apply Hbefore. right. exact Hz.
Qed.

(** X19: when several safe places carry the identifier that the router
    chose, the destination is the one that comes first in the list. *)
Theorem routing_stage_first_match
    {DangerZone : Type} (env : Collaborators DangerZone)
    (latitude longitude : R) (danger_zones : list DangerZone)
    (warnings : list string) (log : list (Call DangerZone))
    (before after : list SafePlace.t) (chosen : SafePlace.t)
    (found : Route.t) (dest_info : Destination.t) :
  get_route_to_nearest_safe_place
    env latitude longitude
    (map destination_of (firstn 5 (before ++ chosen :: after)))
    danger_zones
  = Returned (Some (found, dest_info)) ->
  SafePlace.id chosen = Destination.id dest_info ->
  (forall place,
      In place before -> SafePlace.id place <> Destination.id dest_info) ->
  routing_stage env latitude longitude (before ++ chosen :: after)
                danger_zones warnings log
  = (Returned (Some found, Some chosen, warnings),
     (log ++ [CallGetRoute
                latitude longitude
                (map destination_of (firstn 5 (before ++ chosen :: after)))
                danger_zones])%list).
Proof.
  intros Hroute Hid Hbefore.
  remember (before ++ chosen :: after)%list as safe_places eqn:Hsafe.
  destruct safe_places as [| first rest].
  { destruct before; discriminate. }
  rewrite (routing_stage_found _ _ _ _ _ _ _ _ _ _ Hroute).
  unfold next_by_id. rewrite Hsafe.
  rewrite find_first_match.
  - reflexivity.
  - apply eqb_eq. exact Hid.
  - intros place Hin. apply eqb_neq. apply Hbefore. exact Hin.
Qed.

Lemma routing_stage_first_match_witness :
  routing_stage evacuation 0 0 ([hall] ++ school :: [school]) [tt] [] []
  = (Returned (Some mill_road, Some school, []),
     ([] ++ [CallGetRoute
               0 0
               (map destination_of
                    (firstn 5 ([hall] ++ school :: [school])))
               [tt]])%list).
Proof.
  apply (routing_stage_first_match
           evacuation 0 0 [tt] [] [] [hall] [school] school
           mill_road (destination_of school)).
  - reflexivity.
  - reflexivity.
  - intros place [<- | []]. discriminate.
Defined.

(** ** East and west as mirror images *)

Section BearingMirror.
#[local] Open Scope R_scope.

Lemma round_spec (x : R) (k : Z) :
  IZR k - 1 / 2 < x < IZR k + 1 / 2
  \/ ((x = IZR k - 1 / 2 \/ x = IZR k + 1 / 2) /\ Z.even k = true) ->
  Py.round x = k.
Proof.
  intros [Hstrict | [[-> | ->] Heven]].
  - apply round_within. exact Hstrict.
  - replace (IZR k - 1 / 2) with (IZR (k - 1) + 1 / 2)
      by (rewrite minus_IZR; lra).
    rewrite round_tie.
    assert (Hodd : Z.even (k - 1) = false).
    { rewrite <- Z.negb_odd. replace (k - 1)%Z with (Z.pred k) by lia.
      rewrite Z.odd_pred, Heven. reflexivity. }
    rewrite Hodd. lia.
  - rewrite round_tie, Heven. reflexivity.
Qed.

Lemma round_spec_holds (x : R) :
  IZR (Py.round x) - 1 / 2 < x < IZR (Py.round x) + 1 / 2
  \/ ((x = IZR (Py.round x) - 1 / 2 \/ x = IZR (Py.round x) + 1 / 2)
      /\ Z.even (Py.round x) = true).
Proof.
  unfold Py.round.
  pose proof (Zfloor_bound x) as Hf.
  destruct (Rlt_dec (x - IZR (Zfloor x)) (1 / 2)) as [Hlo | Hlo].
  - left. lra.
  - destruct (Rlt_dec (1 / 2) (x - IZR (Zfloor x))) as [Hhi | Hhi].
    + left. rewrite plus_IZR. lra.
    + right. destruct (Z.even (Zfloor x)) eqn:Heven.
      * split; [right; lra | exact Heven].
      * split; [left; rewrite plus_IZR; lra |].
        rewrite Z.add_1_r, Z.even_succ, <- Z.negb_even, Heven.
        reflexivity.
Qed.

(** Rounding commutes with the reflection about an even integer. *)
Lemma round_reflect (m : Z) (x : R) :
  Z.even m = true -> Py.round (IZR m - x) = (m - Py.round x)%Z.
Proof.
  intros Hm. apply round_spec. rewrite minus_IZR.
  destruct (round_spec_holds x) as [Hstrict | [Heq Heven]].
  - left. lra.
  - right. split.
    + destruct Heq as [Heq | Heq]; [right | left]; lra.
    + rewrite Z.even_sub, Hm, Heven. reflexivity.
Qed.

Lemma fmod_neg_zero (x m : R) :
  0 < m -> Py.fmod x m = 0 -> Py.fmod (- x) m = 0.
Proof.
  unfold Py.fmod. intros Hm Hzero.
  assert (Hx : x / m = IZR (Zfloor (x / m))).
  { apply Rmult_eq_reg_l with m; [| lra].
    replace (m * (x / m)) with x by (field; lra). lra. }
  replace (- x / m) with (IZR (- Zfloor (x / m)))
    by (rewrite opp_IZR, <- Hx; field; lra).
  rewrite ZfloorZ, opp_IZR. lra.
Qed.

Lemma fmod_neg_pos (x m : R) :
  0 < m -> Py.fmod x m <> 0 -> Py.fmod (- x) m = m - Py.fmod x m.
Proof.
  unfold Py.fmod. intros Hm Hpos.
  pose proof (Zfloor_bound (x / m)) as [Hlo Hhi].
  assert (Hne : IZR (Zfloor (x / m)) <> x / m).
  { intros Heq. apply Hpos. rewrite Heq. field. lra. }
  rewrite (Zfloor_eq (- Zfloor (x / m) - 1) (- x / m)).
  - rewrite minus_IZR, opp_IZR. lra.
  - rewrite minus_IZR, opp_IZR.
    replace (- x / m) with (- (x / m)) by (field; lra).
    split; lra.
Qed.

Lemma getitem_mirrored (r : Z) :
  (0 <= r <= 8)%Z ->
  Py.getitem directions ((8 - r) mod 8)%Z
  = match Py.getitem directions (r mod 8)%Z with
    | Returned direction => Returned (mirrored direction)
    | Raised exc => Raised exc
    | Interrupted exc => Interrupted exc
    end.
Proof.
  intros Hr.
  assert (Hcases : (r = 0 \/ r = 1 \/ r = 2 \/ r = 3 \/ r = 4 \/ r = 5
                    \/ r = 6 \/ r = 7 \/ r = 8)%Z) by lia.
  repeat (destruct Hcases as [-> | Hcases]); [.. | subst r];
    reflexivity.
Qed.

Lemma sector_of_neg (theta : R) :
  sector_of (- theta)
  = match sector_of theta with
    | Returned direction => Returned (mirrored direction)
    | Raised exc => Raised exc
    | Interrupted exc => Interrupted exc
    end.
Proof.
  unfold sector_of.
  replace (Py.degrees (- theta)) with (- Py.degrees theta)
    by (unfold Py.degrees; ring).
  rewrite !fmod_shift by lra.
  assert (Hturn : 0 < 360) by lra.
  pose proof (fmod_range (Py.degrees theta) 360 Hturn) as Hrange.
  destruct (Req_dec (Py.fmod (Py.degrees theta) 360) 0) as [Hzero | Hpos].
  - rewrite (fmod_neg_zero _ _ Hturn Hzero), Hzero.
    replace (0 / 45) with (IZR 0) by (simpl; field).
    rewrite round_IZR. reflexivity.
  - rewrite (fmod_neg_pos _ _ Hturn Hpos).
    set (n := Py.fmod (Py.degrees theta) 360) in *.
    replace ((360 - n) / 45) with (IZR 8 - n / 45) by (simpl; field).
    rewrite round_reflect by reflexivity.
    apply getitem_mirrored.
    pose proof (round_nearest (n / 45)) as [Hlo Hhi].
    split.
    + apply le_IZR.
      assert (-1 < IZR (Py.round (n / 45))) by lra.
      apply lt_IZR in H. apply IZR_le. lia.
    + apply le_IZR.
      assert (IZR (Py.round (n / 45)) < 9) by lra.
      apply lt_IZR in H. apply IZR_le. lia.
Qed.

Lemma sector_south_mirrored :
  sector_of PI
  = match sector_of PI with
    | Returned direction => Returned (mirrored direction)
    | Raised exc => Raised exc
    | Interrupted exc => Interrupted exc
    end.
Proof. rewrite sector_south. reflexivity. Qed.

Lemma atan2_neg (x y : R) :
  (x = 0 /\ y < 0 /\ Py.atan2 (- x) y = PI /\ Py.atan2 x y = PI)
  \/ Py.atan2 (- x) y = - Py.atan2 x y.
Proof.
  unfold Py.atan2.
  destruct (Rlt_dec 0 y) as [Hy | Hy].
  - right. replace (- x / y) with (- (x / y)) by (field; lra).
    apply atan_opp.
  - destruct (Rlt_dec y 0) as [Hy' | Hy'].
    + destruct (Rlt_dec (- x) 0) as [Hx | Hx];
        destruct (Rlt_dec x 0) as [Hx' | Hx'].
      * lra.
      * right. replace (- x / y) with (- (x / y)) by (field; lra).
        rewrite atan_opp. lra.
      * right. replace (- x / y) with (- (x / y)) by (field; lra).
        rewrite atan_opp. lra.
      * left. assert (x = 0) as -> by lra.
        replace (- 0 / y) with 0 by (field; lra).
        replace (0 / y) with 0 by (field; lra).
        rewrite atan_0. repeat split; lra.
    + right.
      destruct (Rlt_dec 0 (- x)) as [Hx | Hx];
        destruct (Rlt_dec 0 x) as [Hx' | Hx']; try lra.
      * destruct (Rlt_dec x 0); lra.
      * destruct (Rlt_dec (- x) 0); lra.
      * destruct (Rlt_dec (- x) 0); destruct (Rlt_dec x 0); lra.
Qed.

Lemma bearing_angle_offset (origin_lat origin_lng dest_lat offset : R) :
  bearing_angle origin_lat origin_lng dest_lat (origin_lng + offset)
  = Py.atan2
      (sin (Py.radians offset) * cos (Py.radians dest_lat))
      (cos (Py.radians origin_lat) * sin (Py.radians dest_lat)
       - sin (Py.radians origin_lat) * cos (Py.radians dest_lat)
         * cos (Py.radians offset)).
Proof.
  unfold bearing_angle.
  replace (origin_lng + offset - origin_lng) with offset by ring.
  reflexivity.
Qed.

(** X20: two destinations at the same latitude, as far east of the
    meridian of the origin as the other is west of it, get mirrored
    answers: east for west, north-east for north-west, south-east for
    south-west, and north or south for both. *)
Theorem bearing_mirror (origin_lat origin_lng dest_lat offset : R) :
  exists direction,
    _bearing_to_cardinal origin_lat origin_lng dest_lat
                         (origin_lng + offset)
    = Returned direction
    /\ _bearing_to_cardinal origin_lat origin_lng dest_lat
                            (origin_lng - offset)
       = Returned (mirrored direction).
Proof.
  rewrite !bearing_unfold.
  replace (origin_lng - offset) with (origin_lng + - offset) by ring.
  rewrite !bearing_angle_offset.
  replace (Py.radians (- offset)) with (- Py.radians offset)
    by (unfold Py.radians; ring).
  rewrite sin_neg, cos_neg.
  set (x := sin (Py.radians offset) * cos (Py.radians dest_lat)).
  set (y := cos (Py.radians origin_lat) * sin (Py.radians dest_lat)
            - sin (Py.radians origin_lat) * cos (Py.radians dest_lat)
              * cos (Py.radians offset)).
  replace (- sin (Py.radians offset) * cos (Py.radians dest_lat))
    with (- x) by (unfold x; ring).
  destruct (sector_of_returns (Py.atan2 x y)) as (direction & Hdir & _).
  exists direction. split; [exact Hdir |].
  destruct (atan2_neg x y) as [(_ & _ & Hneg & Hpos) | Hneg].
  - rewrite Hneg. rewrite Hpos in Hdir.
    rewrite sector_south_mirrored, Hdir. reflexivity.
  - rewrite Hneg, sector_of_neg, Hdir. reflexivity.
Qed.

End BearingMirror.

(** ** Due north, south, east and west *)

Section BearingParallel.
#[local] Open Scope R_scope.







End BearingParallel.



(** ** Route figures and the straight-line distance *)

(** X21: with both route figures and a direction, the straight-line
    distance of the destination only has to be present: its value never
    reaches the text, which states the distance and the duration of the
    route instead. *)
Theorem guidance_text_route_replaces_distance
    (destination_name destination_direction : option string)
    (straight other : R) (route_km route_minutes : R)
    (route_steps : list string) (alert_level : string)
    (closest_fire_km : option R) (warnings : list string) :
  _build_guidance_text
    destination_name destination_direction (Some straight)
    (Some route_km) (Some route_minutes) route_steps
    alert_level closest_fire_km warnings
  = _build_guidance_text
      destination_name destination_direction (Some other)
      (Some route_km) (Some route_minutes) route_steps
      alert_level closest_fire_km warnings
  /\ (Py.truthy_opt destination_direction = true ->
      exists before after,
        _build_guidance_text
          destination_name destination_direction (Some straight)
          (Some route_km) (Some route_minutes) route_steps
          alert_level closest_fire_km warnings
        = before ++ " for about " ++ Py.format_1f route_km
                 ++ " kilometers, roughly " ++ Py.format_0f route_minutes
                 ++ " minutes." ++ after).
Proof.
  split; [reflexivity |].
  intros Hdirection. unfold _build_guidance_text.
  destruct destination_direction as [direction |]; [| discriminate].
  simpl in Hdirection. rewrite Hdirection. cbn [negb].
  set (intro :=
         _build_instruction_text alert_level closest_fire_km warnings).
  set (location :=
         match destination_name with
         | Some name =>
             if Py.truthy name
             then ("toward the " ++ direction) ++ " to reach " ++ name
             else "toward the " ++ direction
         | None => "toward the " ++ direction
         end).
  exists (intro ++ " Head " ++ location).
  eexists.
  rewrite !append_assoc. reflexivity.
Qed.

Lemma guidance_text_route_replaces_distance_witness :
  exists before after,
    _build_guidance_text (Some "Hall") (Some "north") (Some 3%R)
                         (Some 4%R) (Some 9%R) [] "low" None []
    = before ++ " for about " ++ Py.format_1f 4
             ++ " kilometers, roughly " ++ Py.format_0f 9
             ++ " minutes." ++ after.
Proof.
  apply (proj2 (guidance_text_route_replaces_distance
                  (Some "Hall") (Some "north") 3 3 4 9 [] "low" None [])).
  reflexivity.
Defined.
